(** * Voice assistant core: command matcher, query dispatcher, orchestrator

    A shallow embedding of [voice_assistant/nlp_processor.py],
    [voice_assistant/assistant_manager.py], [rag_client/api_client.py] and
    the guard of [voice_assistant/speech_recognition.py], with the
    properties of the specification stated and proved over it. *)

From Stdlib Require Import List NArith Ascii String Bool Arith Lia QArith.
Import ListNotations.
Close Scope Q_scope.

Set Implicit Arguments.

(** ** Python strings

    A Python [str] is a sequence of Unicode code points. *)

Module PyStr.

Definition codepoint := N.
Definition pystr := list codepoint.

(** A source literal, written as a Rocq string of ASCII characters. *)
Definition py (s : string) : pystr := map N_of_ascii (list_ascii_of_string s).
Arguments py s%_string.

Definition str_eqb (a b : pystr) : bool :=
  if list_eq_dec N.eq_dec a b then true else false.

(** [not s] / [if s:] on a string. *)
Definition truthy (s : pystr) : bool :=
  match s with [] => false | _ => true end.

Definition is_ascii_upper (c : codepoint) : bool := (65 <=? c)%N && (c <=? 90)%N.
Definition is_ascii_lower (c : codepoint) : bool := (97 <=? c)%N && (c <=? 122)%N.

(** [str.lower()] on one code point. Exact on ASCII, and on U+017F (long s,
    already lower case), the only code point outside ASCII that the text
    captured by [(staff|student)] can hold; the program applies [lower] to
    nothing else. *)
Definition chr_lower (c : codepoint) : codepoint :=
  if is_ascii_upper c then (c + 32)%N else c.
Definition lower (s : pystr) : pystr := map chr_lower s.

Definition chr_upper (c : codepoint) : codepoint :=
  if is_ascii_lower c then (c - 32)%N else c.
Definition upper (s : pystr) : pystr := map chr_upper s.

(** [str.isspace()] on one code point: the Unicode white space of CPython. *)
Definition is_space (c : codepoint) : bool :=
  ((9 <=? c) && (c <=? 13) || (28 <=? c) && (c <=? 32)
   || (c =? 133) || (c =? 160) || (c =? 5760)
   || (8192 <=? c) && (c <=? 8202)
   || (c =? 8232) || (c =? 8233) || (c =? 8239) || (c =? 8287)
   || (c =? 12288))%N.

Fixpoint lstrip (s : pystr) : pystr :=
  match s with
  | c :: s' => if is_space c then lstrip s' else s
  | [] => []
  end.

Definition rstrip (s : pystr) : pystr := rev (lstrip (rev s)).

(** [str.strip()]. *)
Definition strip (s : pystr) : pystr := rstrip (lstrip s).

(** [s[i:j]] for [0 <= i <= j]. *)
Definition slice (s : pystr) (i j : nat) : pystr := firstn (j - i) (skipn i s).

End PyStr.
Export PyStr.

(** ** The fragment of [re] used by the command patterns

    Patterns are compiled with [re.IGNORECASE] and without [re.MULTILINE] or
    [re.DOTALL]; they are built from [^], [$], literals, [.+], alternation,
    concatenation and numbered groups. The matcher is the backtracking one of
    [re]: alternatives are tried left to right, [.+] is greedy, and
    [Pattern.match] anchors at position 0 but may stop before the end. *)

Module Re.

Inductive regex : Type :=
| Bol                              (* ^ *)
| Eol                              (* $ *)
| Lit (s : pystr)                  (* a run of literal characters *)
| DotPlus                          (* .+ *)
| Cat (r1 r2 : regex)
| Alt (r1 r2 : regex)
| Grp (n : nat) (r : regex).       (* the n-th capturing group *)

(** [_sre.unicode_tolower], exact on every code point whose image or
    pre-image is an ASCII letter, U+0131 or U+017F. *)
Definition sre_lower (c : codepoint) : codepoint :=
  if is_ascii_upper c then (c + 32)%N
  else if (c =? 304)%N then 105%N        (* U+0130 -> i *)
  else if (c =? 8490)%N then 107%N       (* U+212A KELVIN SIGN -> k *)
  else c.

(** The pairs of [sre_compile._equivalences] that involve ASCII:
    lower-case characters with the same upper case. *)
Definition sre_equiv (a b : codepoint) : bool :=
  ((a =? 105) && (b =? 305) || (a =? 305) && (b =? 105)       (* i, dotless i *)
   || (a =? 115) && (b =? 383) || (a =? 383) && (b =? 115))%N. (* s, long s *)

(** Does the subject character [ch] match the pattern literal [c]? *)
Definition chr_test (ignorecase : bool) (c ch : codepoint) : bool :=
  if ignorecase
  then (sre_lower ch =? sre_lower c)%N || sre_equiv (sre_lower c) (sre_lower ch)
  else (ch =? c)%N.

(** Matching a literal run at the head of the subject: the rest of the
    subject after the run, if it matches. *)
Fixpoint lit_match (ic : bool) (s subject : pystr) : option pystr :=
  match s with
  | [] => Some subject
  | c :: s' =>
      match subject with
      | ch :: subject' =>
          if chr_test ic c ch then lit_match ic s' subject' else None
      | [] => None
      end
  end.

Definition is_newline (c : codepoint) : bool := (c =? 10)%N.

(** [$] without MULTILINE: at the end, or just before a final newline. *)
Definition at_eol (rest : pystr) : bool :=
  match rest with
  | [] => true
  | [c] => is_newline c
  | _ => false
  end.

(** Spans of the groups that have matched: group number, start, end. *)
Definition spans := list (nat * (nat * nat)).

Record cursor : Type := mkCursor {
  pos : nat;             (* characters consumed so far *)
  rest : pystr;          (* the subject from [pos] on *)
  caps : spans
}.

(** Greedy [.*] after the first character of [.+]: take one more character
    that is not a newline if the continuation then succeeds, else stop here. *)
Fixpoint dot_star (k : cursor -> option spans) (p : nat) (s : pystr)
    (cs : spans) : option spans :=
  match s with
  | c :: s' =>
      if is_newline c then k (mkCursor p s cs)
      else match dot_star k (S p) s' cs with
           | Some r => Some r
           | None => k (mkCursor p s cs)
           end
  | [] => k (mkCursor p s cs)
  end.

Fixpoint rmatch (ic : bool) (r : regex) (k : cursor -> option spans)
    (st : cursor) : option spans :=
  match r with
  | Bol => if (pos st =? 0)%nat then k st else None
  | Eol => if at_eol (rest st) then k st else None
  | Lit s =>
      match lit_match ic s (rest st) with
      | Some rest' => k (mkCursor (pos st + List.length s) rest' (caps st))
      | None => None
      end
  | DotPlus =>
      match rest st with
      | c :: s' =>
          if is_newline c then None else dot_star k (S (pos st)) s' (caps st)
      | [] => None
      end
  | Cat r1 r2 => rmatch ic r1 (rmatch ic r2 k) st
  | Alt r1 r2 =>
      match rmatch ic r1 k st with
      | Some res => Some res
      | None => rmatch ic r2 k st
      end
  | Grp n r1 =>
      rmatch ic r1
        (fun st' => k (mkCursor (pos st') (rest st')
                         ((n, (pos st, pos st')) :: caps st')))
        st
  end.

(** A compiled pattern, [re.compile(r, flags)]. *)
Record pattern : Type := compile { rx : regex; ignorecase : bool }.

(** A match object: the subject and the group spans. *)
Record Match : Type := mkMatch { m_string : pystr; m_spans : spans }.

(** [Pattern.match(subject)]. *)
Definition pattern_match (p : pattern) (subject : pystr) : option Match :=
  match rmatch (ignorecase p) (rx p) (fun st => Some (caps st))
          (mkCursor 0 subject []) with
  | Some cs => Some (mkMatch subject cs)
  | None => None
  end.

Fixpoint span_of (n : nat) (cs : spans) : option (nat * nat) :=
  match cs with
  | (n', sp) :: cs' => if (n =? n')%nat then Some sp else span_of n cs'
  | [] => None
  end.

(** [Match.group(n)] for a group that took part in the match; every group of
    the command patterns does when its pattern matches. *)
Definition group (n : nat) (m : Match) : pystr :=
  match span_of n (m_spans m) with
  | Some (i, j) => slice (m_string m) i j
  | None => []
  end.

Declare Scope re_scope.
Delimit Scope re_scope with re.
Bind Scope re_scope with regex.
Infix "@@" := Cat (at level 40, left associativity) : re_scope.
Infix "|||" := Alt (at level 50, left associativity) : re_scope.

End Re.
Export Re.

(** ** Configuration, [config.py]: the two settings the core reads. They
    come from the process environment, with the defaults below. *)

Module config.

Record t : Type := mk {
  DEFAULT_USER_NAME : pystr;
  DEFAULT_USER_TYPE : pystr
}.

Definition defaults : t :=
  {| DEFAULT_USER_NAME := py "User"; DEFAULT_USER_TYPE := py "student" |}.

End config.

(** ** Data exchanged with the answer service and the observers *)

(** A call either returns or raises an exception [e]; [str(e)] is kept. *)
Inductive result (A : Type) : Type :=
| Ok (a : A)
| Raise (msg : pystr).
Arguments Ok {A} a.
Arguments Raise {A} msg.

(** [s or d] on strings. *)
Definition or_default (s : option pystr) (d : pystr) : pystr :=
  match s with
  | Some ((_ :: _) as v) => v
  | _ => d
  end.

(** [d.get(key, default)]. *)
Definition get_or {A : Type} (v : option A) (d : A) : A :=
  match v with Some a => a | None => d end.

Module RAG.

(** The JSON body of the request. *)
Record payload : Type := mkPayload {
  name : pystr;
  user_type : pystr;
  message : pystr;
  context : option pystr
}.

(** The JSON object of a reply; each key may be missing. A JSON number is
    carried as a rational. *)
Record response_json : Type := mkJson {
  j_response : option pystr;
  j_confidence : option Q;
  j_sources : option (list pystr)
}.

(** What [requests.post], [raise_for_status] and [response.json] do for a
    request: a decoded JSON object, or one of the exceptions that [query]
    tells apart. *)
Inductive http_outcome : Type :=
| HttpJson (d : response_json)
| RequestException (e : pystr)   (* connection error, timeout, non-2xx status *)
| JSONDecodeError (e : pystr)    (* the body is not JSON *)
| OtherException (e : pystr).    (* any other [Exception] *)

Definition service := payload -> http_outcome.

(** The dictionary [query] returns. Its ['timestamp'] entry (the reply's, or
    the wall clock) is left out: nothing in the core reads it. *)
Record rag_response : Type := mkRag {
  answer : pystr;
  confidence : Q;
  sources : list pystr;
  query_text : pystr;
  raw_response : response_json
}.

End RAG.

(** The dictionary [NLPProcessor.process_query] returns. The four flags are
    keys that are either absent ([false]) or present with value [True]. *)
Record response_data : Type := mkResponse {
  query : pystr;
  response : pystr;
  success : bool;
  is_command : bool;
  intent : option pystr;
  should_exit : bool;
  should_repeat : bool;
  user_type_changed : bool;
  user_name_changed : bool;
  confidence : option Q;
  sources : option (list pystr);
  raw_response : option RAG.rag_response;
  error : option pystr
}.

(** What the core does to its collaborators and observers, in order. *)
Inductive event : Type :=
| HttpPost (p : RAG.payload)             (* [requests.post] to the endpoint *)
| MicOpen                                (* [sr.Microphone()] entered *)
| TtsSpeak (text : pystr)                (* [text_to_speech.speak(text, ..)] *)
| ThreadStart                            (* the listening thread is started *)
| OnListeningStart
| OnListeningEnd
| OnSpeakingStart
| OnSpeakingEnd
| OnResponse (r : response_data)
| OnUserInfoChange (user_name user_type : pystr).

(** ** State and trace monad: a method of an object with state [S] returns
    a value, the new state and the events it caused. *)

Definition M (S A : Type) : Type := S -> A * S * list event.

Definition ret {S A : Type} (a : A) : M S A := fun s => (a, s, []).

Definition bind {S A B : Type} (c : M S A) (f : A -> M S B) : M S B :=
  fun s =>
    let '(a, s1, e1) := c s in
    let '(b, s2, e2) := f a s1 in
    (b, s2, e1 ++ e2).

Definition gets {S A : Type} (f : S -> A) : M S A := fun s => (f s, s, []).
Definition modify {S : Type} (f : S -> S) : M S unit := fun s => (tt, f s, []).
Definition emit {S : Type} (e : event) : M S unit := fun s => (tt, s, [e]).

(** Run a method of a component held in a field of the object. *)
Definition zoom {S T A : Type} (proj : S -> T) (upd : T -> S -> S)
    (c : M T A) : M S A :=
  fun s => let '(a, t', e) := c (proj s) in (a, upd t' s, e).

Definition when {S : Type} (b : bool) (c : M S unit) : M S unit :=
  if b then c else ret tt.

Declare Scope monad_scope.
Delimit Scope monad_scope with monad.
Notation "x <- c ;; k" := (bind c (fun x => k))
  (at level 61, c at next level, right associativity) : monad_scope.
Notation "c ;; k" := (bind c (fun _ => k))
  (at level 61, right associativity) : monad_scope.
Open Scope monad_scope.

Definition value_of {S A : Type} (r : A * S * list event) : A := fst (fst r).
Definition state_of {S A : Type} (r : A * S * list event) : S := snd (fst r).
Definition events_of {S A : Type} (r : A * S * list event) : list event := snd r.

(** ** [rag_client/api_client.py] *)

Module RAGAPIClient.

(** [RAGAPIClient.query]: the ValueError on an empty query, the payload with
    its defaults, the POST, and the three [except] clauses. *)
Definition query {S : Type} (cfg : config.t) (srv : RAG.service)
    (query_text : pystr) (context user_name user_type : option pystr)
    : M S (result RAG.rag_response) :=
  if negb (truthy query_text) then
    ret (Raise (py "Query text cannot be empty"))
  else
    let payload :=
      {| RAG.name := or_default user_name (config.DEFAULT_USER_NAME cfg);
         RAG.user_type := or_default user_type (config.DEFAULT_USER_TYPE cfg);
         RAG.message := query_text;
         RAG.context := match context with
                        | Some ((_ :: _) as c) => Some c
                        | _ => None
                        end |} in
    emit (HttpPost payload) ;;
    match srv payload with
    | RAG.HttpJson response_data =>
        ret (Ok {| RAG.answer := get_or (RAG.j_response response_data) [];
                   RAG.confidence := get_or (RAG.j_confidence response_data) 0%Q;
                   RAG.sources := get_or (RAG.j_sources response_data) [];
                   RAG.query_text := query_text;
                   RAG.raw_response := response_data |})
    | RAG.RequestException e =>
        ret (Raise (py "Failed to connect to RAG API: " ++ e))
    | RAG.JSONDecodeError e =>
        ret (Raise (py "Invalid response from RAG API: " ++ e))
    | RAG.OtherException e =>
        ret (Raise e)
    end.

End RAGAPIClient.

(** ** [voice_assistant/nlp_processor.py] *)

Module NLPProcessor.

Record t : Type := mk {
  user_name : pystr;
  user_type : pystr
}.

Definition init (cfg : config.t) : t :=
  {| user_name := config.DEFAULT_USER_NAME cfg;
     user_type := config.DEFAULT_USER_TYPE cfg |}.

Definition set_user_name (v : pystr) (s : t) : t :=
  {| user_name := v; user_type := user_type s |}.
Definition set_user_type (v : pystr) (s : t) : t :=
  {| user_name := user_name s; user_type := v |}.

(** [self.command_patterns]: a dictionary, iterated in insertion order. *)
Definition command_patterns : list (pystr * pattern) :=
  [ (py "help",
     compile (Bol @@ Lit (py "help") @@ Eol
              ||| Bol @@ Lit (py "what can you do") @@ Eol
              ||| Bol @@ Lit (py "what commands")) true);
    (py "exit",
     compile (Bol @@ Lit (py "exit") @@ Eol
              ||| Bol @@ Lit (py "quit") @@ Eol
              ||| Bol @@ Lit (py "goodbye") @@ Eol) true);
    (py "repeat",
     compile (Bol @@ Lit (py "repeat") @@ Eol
              ||| Bol @@ Lit (py "say that again") @@ Eol
              ||| Bol @@ Lit (py "what did you say")) true);
    (py "set_user_type",
     compile (Bol @@ Lit (py "i am a ")
              @@ Grp 1 (Lit (py "staff") ||| Lit (py "student")) @@ Eol) true);
    (py "set_user_name",
     compile (Bol @@ Grp 1 (Lit (py "set") ||| Lit (py "call") ||| Lit (py "change"))
              @@ Lit (py " my name to ") @@ Grp 2 DotPlus @@ Eol) true);
    (py "get_assistant_name",
     compile (Bol @@ Lit (py "what is your name") @@ Eol
              ||| Bol @@ Lit (py "who are you") @@ Eol) true) ]%re.

(** The [for] loop of [_detect_command_intent] over a table. *)
Fixpoint detect_in (table : list (pystr * pattern)) (query_text : pystr)
    : option (pystr * Match) :=
  match table with
  | (intent, pattern) :: table' =>
      match pattern_match pattern query_text with
      | Some m => Some (intent, m)
      | None => detect_in table' query_text
      end
  | [] => None
  end.

Definition _detect_command_intent (query_text : pystr) : option (pystr * Match) :=
  detect_in command_patterns query_text.

Definition dq : pystr := [34%N].
Definition nl : pystr := [10%N].
Definition indent : pystr := py "        ".

(** [_get_help_text]: the triple-quoted literal, then [strip()]. *)
Definition _get_help_text : pystr :=
  strip
    (nl ++ indent ++ py "Here are some things you can ask me:"
     ++ nl ++ indent
     ++ nl ++ indent ++ py "- Ask any question and I'll try to find the answer"
     ++ nl ++ indent ++ py "- " ++ dq ++ py "Set my name to [name]" ++ dq
                     ++ py " to change your name"
     ++ nl ++ indent ++ py "- " ++ dq ++ py "I am a [staff/student]" ++ dq
                     ++ py " to change your user type"
     ++ nl ++ indent ++ py "- " ++ dq ++ py "What's your name?" ++ dq
                     ++ py " to learn about me"
     ++ nl ++ indent ++ py "- " ++ dq ++ py "Repeat" ++ dq
                     ++ py " to repeat my last response"
     ++ nl ++ indent ++ py "- " ++ dq ++ py "Exit" ++ dq ++ py " or " ++ dq
                     ++ py "Quit" ++ dq ++ py " to exit"
     ++ nl ++ indent
     ++ nl ++ indent ++ py "How can I help you today?"
     ++ nl ++ indent).

(** The dictionary [_handle_command] starts from, with ['response'] set. *)
Definition command_response (query_text intent text : pystr) (ok : bool)
    : response_data :=
  {| query := query_text; response := text; success := ok;
     is_command := true; intent := Some intent;
     should_exit := false; should_repeat := false;
     user_type_changed := false; user_name_changed := false;
     confidence := None; sources := None; raw_response := None;
     error := None |}.

Definition with_flags (r : response_data) (exit repeat type_changed name_changed : bool)
    : response_data :=
  {| query := query r; response := response r; success := success r;
     is_command := is_command r; intent := intent r;
     should_exit := exit; should_repeat := repeat;
     user_type_changed := type_changed; user_name_changed := name_changed;
     confidence := confidence r; sources := sources r;
     raw_response := raw_response r; error := error r |}.

Definition _handle_command (intent : pystr) (m : Match) (query_text : pystr)
    : M t response_data :=
  let reply := command_response query_text intent in
  if str_eqb intent (py "help") then
    ret (reply _get_help_text true)
  else if str_eqb intent (py "exit") then
    ret (with_flags (reply (py "Goodbye! Have a great day.") true)
           true false false false)
  else if str_eqb intent (py "repeat") then
    ret (with_flags (reply (py "I'll repeat my last response.") true)
           false true false false)
  else if str_eqb intent (py "set_user_type") then
    let user_type := lower (group 1 m) in
    modify (set_user_type user_type) ;;
    ret (with_flags
           (reply (py "I've updated your user type to " ++ user_type ++ py ".") true)
           false false true false)
  else if str_eqb intent (py "set_user_name") then
    let user_name := strip (group 2 m) in
    modify (set_user_name user_name) ;;
    ret (with_flags
           (reply (py "I'll call you " ++ user_name ++ py " from now on.") true)
           false false false true)
  else if str_eqb intent (py "get_assistant_name") then
    ret (reply (py "I'm your AI voice assistant. You can call me Assistant.") true)
  else
    ret (reply (py "I'm not sure how to handle that command.") false).

(** The dictionaries of the three non-command exits of [process_query]. *)
Definition query_response (query_text text : pystr) (ok : bool)
    (rag : option RAG.rag_response) (err : option pystr) : response_data :=
  {| query := query_text; response := text; success := ok;
     is_command := false; intent := None;
     should_exit := false; should_repeat := false;
     user_type_changed := false; user_name_changed := false;
     confidence := option_map RAG.confidence rag;
     sources := option_map RAG.sources rag;
     raw_response := rag; error := err |}.

Definition process_query (cfg : config.t) (srv : RAG.service)
    (query_text : pystr) : M t response_data :=
  if negb (truthy query_text) then
    ret (query_response [] (py "I didn't catch that. Could you please repeat?")
           false None None)
  else
    match _detect_command_intent query_text with
    | Some (intent, m) => _handle_command intent m query_text
    | None =>
        name <- gets user_name ;;
        type <- gets user_type ;;
        r <- RAGAPIClient.query cfg srv query_text None (Some name) (Some type) ;;
        match r with
        | Ok rag_response =>
            ret (query_response query_text (RAG.answer rag_response) true
                   (Some rag_response) None)
        | Raise e =>
            ret (query_response query_text
                   (py "I'm sorry, I encountered an error while processing your request.")
                   false None (Some e))
        end
    end.

End NLPProcessor.

(** ** [voice_assistant/speech_recognition.py]: [recognize_from_microphone] *)

(** What [recognize_google] does with the captured audio: the text, or an
    exception. Any exception other than the two named ones reaches the outer
    [except] and has the effect of [UnknownValueError]: [None] is returned. *)
Inductive google_outcome : Type :=
| Text (text : pystr)
| UnknownValueError
| RequestError (e : pystr).

(** How the blocking call [recognizer.listen] ends: with the timeout (any
    other exception has the same effect, through the outer [except]), or
    with audio. *)
Inductive listen_outcome : Type :=
| WaitTimeoutError
| Audio (g : google_outcome).

(** A call that may block in [recognizer.listen]: it has returned, or it
    waits for the microphone and goes on when [listen] ends. *)
Inductive suspended (S A : Type) : Type :=
| Done (a : A)
| Listening (resume : listen_outcome -> M S A).
Arguments Done {S A} a.
Arguments Listening {S A} resume.

Module SpeechRecognizer.

Record t : Type := mk { is_listening : bool }.

Definition init : t := {| is_listening := false |}.

Definition call {S : Type} (callback : option (M S unit)) : M S unit :=
  match callback with Some f => f | None => ret tt end.

(** The part of [recognize_from_microphone] that runs when
    [recognize_google] has returned or raised (lines 82-101): the value that
    is returned, after the [finally] clause has cleared the flag. *)
Definition after_google {S : Type} (set_self : t -> S -> S)
    (g : google_outcome) : M S (option pystr) :=
  match g with
  | Text text => modify (set_self (mk false)) ;; ret (Some text)
  | UnknownValueError => modify (set_self (mk false)) ;; ret None
  | RequestError _ => modify (set_self (mk false)) ;; ret None
  end.

(** The part of [recognize_from_microphone] that runs when
    [recognizer.listen] has ended: the timeout exit, which goes through the
    [finally] clause, or the end-of-listening callback and the conversion to
    text. Between the callback and [after_google] the thread is inside
    [recognize_google], with the flag of the recognizer still up. *)
Definition after_listen {S : Type} (set_self : t -> S -> S)
    (on_listening_end : option (M S unit)) (w : listen_outcome)
    : M S (option pystr) :=
  match w with
  | WaitTimeoutError =>
      modify (set_self (mk false)) ;; ret None
  | Audio g =>
      call on_listening_end ;;
      after_google set_self g
  end.

(** [recognize_from_microphone], as a method of a component that the owner
    [S] holds ([self_] reads it, [set_self] writes it); the callbacks are
    methods of the owner. [mic_ok] tells whether the microphone opens and the
    noise adjustment returns; if not, the outer [except] returns [None] and
    the [finally] clause clears the flag. *)
Definition recognize_from_microphone {S : Type}
    (self_ : S -> t) (set_self : t -> S -> S)
    (on_listening_start on_listening_end : option (M S unit))
    (mic_ok : bool) : M S (suspended S (option pystr)) :=
  busy <- gets (fun s => is_listening (self_ s)) ;;
  if busy then ret (Done None)
  else
    modify (set_self (mk true)) ;;
    emit MicOpen ;;
    if negb mic_ok then
      modify (set_self (mk false)) ;; ret (Done None)
    else
      call on_listening_start ;;
      ret (Listening (after_listen set_self on_listening_end)).

End SpeechRecognizer.

(** ** [voice_assistant/assistant_manager.py] *)

(** An entry of [conversation_history]. *)
Module History.
Record entry : Type := mk {
  query : pystr;
  response : response_data;
  user_name : pystr;
  user_type : pystr
}.
End History.

Module AssistantManager.

(** The callbacks are observers outside the core: the state records which
    ones are set, and a call shows as an event. *)
Record t : Type := mk {
  nlp_processor : NLPProcessor.t;
  speech_recognizer : SpeechRecognizer.t;
  is_listening : bool;
  is_speaking : bool;
  last_query : option pystr;
  last_response : option response_data;
  conversation_history : list History.entry;
  user_name : pystr;
  user_type : pystr;
  on_listening_start_callback : bool;
  on_listening_end_callback : bool;
  on_speaking_start_callback : bool;
  on_speaking_end_callback : bool;
  on_response_callback : bool;
  on_user_info_change_callback : bool
}.

Definition init (cfg : config.t) : t :=
  {| nlp_processor := NLPProcessor.init cfg;
     speech_recognizer := SpeechRecognizer.init;
     is_listening := false;
     is_speaking := false;
     last_query := None;
     last_response := None;
     conversation_history := [];
     user_name := config.DEFAULT_USER_NAME cfg;
     user_type := config.DEFAULT_USER_TYPE cfg;
     on_listening_start_callback := false;
     on_listening_end_callback := false;
     on_speaking_start_callback := false;
     on_speaking_end_callback := false;
     on_response_callback := false;
     on_user_info_change_callback := false |}.

(** Assignments to the attributes of [self]. *)
Definition set_nlp_processor (v : NLPProcessor.t) (s : t) : t :=
  mk v (speech_recognizer s) (is_listening s) (is_speaking s) (last_query s)
     (last_response s) (conversation_history s) (user_name s) (user_type s)
     (on_listening_start_callback s) (on_listening_end_callback s)
     (on_speaking_start_callback s) (on_speaking_end_callback s)
     (on_response_callback s) (on_user_info_change_callback s).
Definition set_speech_recognizer (v : SpeechRecognizer.t) (s : t) : t :=
  mk (nlp_processor s) v (is_listening s) (is_speaking s) (last_query s)
     (last_response s) (conversation_history s) (user_name s) (user_type s)
     (on_listening_start_callback s) (on_listening_end_callback s)
     (on_speaking_start_callback s) (on_speaking_end_callback s)
     (on_response_callback s) (on_user_info_change_callback s).
Definition set_is_listening (v : bool) (s : t) : t :=
  mk (nlp_processor s) (speech_recognizer s) v (is_speaking s) (last_query s)
     (last_response s) (conversation_history s) (user_name s) (user_type s)
     (on_listening_start_callback s) (on_listening_end_callback s)
     (on_speaking_start_callback s) (on_speaking_end_callback s)
     (on_response_callback s) (on_user_info_change_callback s).
Definition set_is_speaking (v : bool) (s : t) : t :=
  mk (nlp_processor s) (speech_recognizer s) (is_listening s) v (last_query s)
     (last_response s) (conversation_history s) (user_name s) (user_type s)
     (on_listening_start_callback s) (on_listening_end_callback s)
     (on_speaking_start_callback s) (on_speaking_end_callback s)
     (on_response_callback s) (on_user_info_change_callback s).
Definition set_last_query (v : option pystr) (s : t) : t :=
  mk (nlp_processor s) (speech_recognizer s) (is_listening s) (is_speaking s) v
     (last_response s) (conversation_history s) (user_name s) (user_type s)
     (on_listening_start_callback s) (on_listening_end_callback s)
     (on_speaking_start_callback s) (on_speaking_end_callback s)
     (on_response_callback s) (on_user_info_change_callback s).
Definition set_last_response (v : option response_data) (s : t) : t :=
  mk (nlp_processor s) (speech_recognizer s) (is_listening s) (is_speaking s)
     (last_query s) v (conversation_history s) (user_name s) (user_type s)
     (on_listening_start_callback s) (on_listening_end_callback s)
     (on_speaking_start_callback s) (on_speaking_end_callback s)
     (on_response_callback s) (on_user_info_change_callback s).
Definition set_conversation_history (v : list History.entry) (s : t) : t :=
  mk (nlp_processor s) (speech_recognizer s) (is_listening s) (is_speaking s)
     (last_query s) (last_response s) v (user_name s) (user_type s)
     (on_listening_start_callback s) (on_listening_end_callback s)
     (on_speaking_start_callback s) (on_speaking_end_callback s)
     (on_response_callback s) (on_user_info_change_callback s).
Definition set_user_name (v : pystr) (s : t) : t :=
  mk (nlp_processor s) (speech_recognizer s) (is_listening s) (is_speaking s)
     (last_query s) (last_response s) (conversation_history s) v (user_type s)
     (on_listening_start_callback s) (on_listening_end_callback s)
     (on_speaking_start_callback s) (on_speaking_end_callback s)
     (on_response_callback s) (on_user_info_change_callback s).
Definition set_user_type (v : pystr) (s : t) : t :=
  mk (nlp_processor s) (speech_recognizer s) (is_listening s) (is_speaking s)
     (last_query s) (last_response s) (conversation_history s) (user_name s) v
     (on_listening_start_callback s) (on_listening_end_callback s)
     (on_speaking_start_callback s) (on_speaking_end_callback s)
     (on_response_callback s) (on_user_info_change_callback s).

(** [set_callbacks]: [true] for an argument that is a callable, [false] for
    [None]. *)
Definition set_callbacks
    (on_listening_start on_listening_end on_speaking_start on_speaking_end
       on_response on_user_info_change : bool) : M t unit :=
  modify (fun s =>
    mk (nlp_processor s) (speech_recognizer s) (is_listening s) (is_speaking s)
       (last_query s) (last_response s) (conversation_history s)
       (user_name s) (user_type s)
       on_listening_start on_listening_end on_speaking_start on_speaking_end
       on_response on_user_info_change).

(** [if self.<callback>: self.<callback>(..)]. *)
Definition fire (registered : t -> bool) (e : event) : M t unit :=
  b <- gets registered ;;
  when b (emit e).

Definition _on_listening_start : M t unit :=
  fire on_listening_start_callback OnListeningStart.

Definition _on_listening_end : M t unit :=
  modify (set_is_listening false) ;;
  fire on_listening_end_callback OnListeningEnd.

Definition _on_speaking_start : M t unit :=
  fire on_speaking_start_callback OnSpeakingStart.

Definition _on_speaking_end : M t unit :=
  modify (set_is_speaking false) ;;
  fire on_speaking_end_callback OnSpeakingEnd.

(** [_speak_response]: the speech-output collaborator is handed the text; it
    calls [_on_speaking_start] and [_on_speaking_end] from its own thread. *)
Definition _speak_response (response_text : pystr) : M t unit :=
  modify (set_is_speaking true) ;;
  emit (TtsSpeak response_text).

Definition repeat_last_response : M t unit :=
  r <- gets last_response ;;
  match r with
  | Some last => _speak_response (response last)
  | None => _speak_response (py "I haven't said anything yet.")
  end.

(** The comparison and update of lines 109-113 and 172-176. *)
Definition sync_user_info : M t unit :=
  name <- gets user_name ;;
  type <- gets user_type ;;
  nlp_name <- gets (fun s => NLPProcessor.user_name (nlp_processor s)) ;;
  nlp_type <- gets (fun s => NLPProcessor.user_type (nlp_processor s)) ;;
  when (negb (str_eqb name nlp_name) || negb (str_eqb type nlp_type))
    (modify (set_user_name nlp_name) ;;
     modify (set_user_type nlp_type) ;;
     fire on_user_info_change_callback (OnUserInfoChange nlp_name nlp_type)).

(** [self.conversation_history.append({..})]. *)
Definition append_history (query_text : pystr) (response_data : response_data)
    : M t unit :=
  name <- gets user_name ;;
  type <- gets user_type ;;
  modify (fun s =>
    set_conversation_history
      (conversation_history s
         ++ [History.mk query_text response_data name type]) s).

Definition process_text_input (cfg : config.t) (srv : RAG.service)
    (text : pystr) : M t unit :=
  if negb (truthy text) then ret tt
  else
    modify (set_last_query (Some text)) ;;
    response_data <- zoom nlp_processor set_nlp_processor
                       (NLPProcessor.process_query cfg srv text) ;;
    modify (set_last_response (Some response_data)) ;;
    sync_user_info ;;
    append_history text response_data ;;
    fire on_response_callback (OnResponse response_data) ;;
    _speak_response (response response_data).

(** [listen_and_respond]: the guard, then the thread is started. *)
Definition listen_and_respond : M t unit :=
  busy <- gets is_listening ;;
  if busy then ret tt
  else emit ThreadStart.

(** The part of [_listen_and_respond_thread] after the recognizer returned. *)
Definition after_recognition (cfg : config.t) (srv : RAG.service)
    (query_text : option pystr) : M t unit :=
  match query_text with
  | Some ((_ :: _) as query_text) =>
      modify (set_last_query (Some query_text)) ;;
      response_data <- zoom nlp_processor set_nlp_processor
                         (NLPProcessor.process_query cfg srv query_text) ;;
      modify (set_last_response (Some response_data)) ;;
      sync_user_info ;;
      append_history query_text response_data ;;
      fire on_response_callback (OnResponse response_data) ;;
      _speak_response (response response_data)
  | _ =>
      modify (set_is_listening false)
  end.

(** [_listen_and_respond_thread]: it either runs to its end, or blocks in the
    recognizer and finishes when the microphone delivers. *)
Definition _listen_and_respond_thread (cfg : config.t) (srv : RAG.service)
    (mic_ok : bool) : M t (suspended t unit) :=
  modify (set_is_listening true) ;;
  r <- SpeechRecognizer.recognize_from_microphone
         speech_recognizer set_speech_recognizer
         (Some _on_listening_start) (Some _on_listening_end) mic_ok ;;
  match r with
  | Done query_text =>
      after_recognition cfg srv query_text ;; ret (Done tt)
  | Listening resume =>
      ret (Listening (fun w =>
             query_text <- resume w ;;
             after_recognition cfg srv query_text))
  end.

(** [set_user_info]; like every method here but [get_user_info] and
    [get_conversation_history] it returns [None], the [unit] of [M t unit]. *)
Definition set_user_info (new_name new_type : option pystr) : M t unit :=
  match new_name with
  | Some ((_ :: _) as n) =>
      modify (set_user_name n) ;;
      modify (fun s => set_nlp_processor
                         (NLPProcessor.set_user_name n (nlp_processor s)) s)
  | _ => ret tt
  end ;;
  match new_type with
  | Some ((_ :: _) as ty) =>
      when (str_eqb ty (py "staff") || str_eqb ty (py "student"))
        (modify (set_user_type ty) ;;
         modify (fun s => set_nlp_processor
                            (NLPProcessor.set_user_type ty (nlp_processor s)) s))
  | _ => ret tt
  end ;;
  when (truthy (get_or new_name []) || truthy (get_or new_type []))
    (name <- gets user_name ;;
     type <- gets user_type ;;
     fire on_user_info_change_callback (OnUserInfoChange name type)).

(** [get_user_info]: the dictionary with keys ['user_name'], ['user_type']. *)
Definition get_user_info : M t (pystr * pystr) :=
  name <- gets user_name ;;
  type <- gets user_type ;;
  ret (name, type).

Definition stop_speaking : M t unit :=
  modify (set_is_speaking false).

Definition get_conversation_history : M t (list History.entry) :=
  gets conversation_history.

Definition clear_conversation_history : M t unit :=
  modify (set_conversation_history []) ;;
  modify (set_last_query None) ;;
  modify (set_last_response None).

End AssistantManager.

(** ** [voice_assistant/text_to_speech.py] *)

(** What the engine does with one request: the temporary file that the gTTS
    path created, if it got that far, and whether the playback went through.
    Both engine paths catch their own exceptions. *)
Record engine_outcome : Type := mkOutcome {
  temp_file : option pystr;
  completed : bool
}.

Module TextToSpeech.

(** [said] is not an attribute of the class: it logs the texts handed to an
    engine ([engine.say], [gTTS(text=..)]), in order. *)
Record t : Type := mk {
  engine_type : pystr;
  is_speaking : bool;
  temp_files : list pystr;
  said : list pystr
}.

(** [__init__], when the engine initialises: the engine named in the
    configuration, lower-cased, and pyttsx3 for any other name. *)
Definition init (tts_engine : pystr) : t :=
  let engine_type := lower tts_engine in
  {| engine_type :=
       if str_eqb engine_type (py "pyttsx3") then engine_type
       else if str_eqb engine_type (py "gtts") then engine_type
       else py "pyttsx3";
     is_speaking := false;
     temp_files := [];
     said := [] |}.

Definition set_is_speaking (v : bool) (s : t) : t :=
  mk (engine_type s) v (temp_files s) (said s).
Definition set_temp_files (v : list pystr) (s : t) : t :=
  mk (engine_type s) (is_speaking s) v (said s).
Definition set_said (v : list pystr) (s : t) : t :=
  mk (engine_type s) (is_speaking s) (temp_files s) v.

Definition call {S : Type} (callback : option (M S unit)) : M S unit :=
  match callback with Some f => f | None => ret tt end.

(** [_speak_pyttsx3] and [_speak_gtts] on the component's state. *)
Definition engine_speaks (text : pystr) (o : engine_outcome) (s : t) : t :=
  if str_eqb (engine_type s) (py "pyttsx3") then
    set_said (said s ++ [text]) s
  else if str_eqb (engine_type s) (py "gtts") then
    match temp_file o with
    | Some f => set_said (said s ++ [text]) (set_temp_files (temp_files s ++ [f]) s)
    | None => s
    end
  else s.

(** [_cleanup_temp_files]. *)
Definition _cleanup_temp_files (s : t) : t := set_temp_files [] s.

(** The part of [_speak_thread] that runs when the engine has returned: the
    [finally] clause. *)
Definition after_playback {S : Type} (self_ : S -> t) (set_self : t -> S -> S)
    (text : pystr) (on_end : option (M S unit)) (o : engine_outcome) : M S unit :=
  modify (fun s => set_self (engine_speaks text o (self_ s)) s) ;;
  modify (fun s => set_self (set_is_speaking false (self_ s)) s) ;;
  call on_end ;;
  modify (fun s => set_self (_cleanup_temp_files (self_ s)) s).

(** [_speak_thread], up to the blocking call into the engine; it returns what
    remains to be done when the engine returns. *)
Definition _speak_thread {S : Type} (self_ : S -> t) (set_self : t -> S -> S)
    (text : pystr) (on_start on_end : option (M S unit))
    : M S (engine_outcome -> M S unit) :=
  modify (fun s => set_self (set_is_speaking true (self_ s)) s) ;;
  call on_start ;;
  ret (after_playback self_ set_self text on_end).

(** [speak]: the two guards, then the thread is started; the thread is
    returned to whoever schedules it, [None] if the request is dropped. *)
Definition speak {S : Type} (self_ : S -> t) (set_self : t -> S -> S)
    (text : pystr) (on_start on_end : option (M S unit))
    : M S (option (M S (engine_outcome -> M S unit))) :=
  if negb (truthy text) then ret None
  else
    busy <- gets (fun s => is_speaking (self_ s)) ;;
    if busy then ret None
    else ret (Some (_speak_thread self_ set_self text on_start on_end)).

End TextToSpeech.

(** ** The manager with its speech output

    [AssistantManager.t] above leaves [self.text_to_speech] to the events;
    here the component is held next to the manager, and a [TtsSpeak] event of
    a manager method is carried out as the call of [speak] that it stands
    for, with the manager's two speaking callbacks. *)

Module Core.

Record t : Type := mk {
  manager : AssistantManager.t;
  text_to_speech : TextToSpeech.t
}.

Definition init (cfg : config.t) (tts_engine : pystr) : t :=
  {| manager := AssistantManager.init cfg;
     text_to_speech := TextToSpeech.init tts_engine |}.

Definition set_manager (v : AssistantManager.t) (s : t) : t :=
  mk v (text_to_speech s).
Definition set_text_to_speech (v : TextToSpeech.t) (s : t) : t :=
  mk (manager s) v.

Definition playback : Type := M t (engine_outcome -> M t unit).

(** [self.text_to_speech.speak(text, on_start=self._on_speaking_start,
    on_end=self._on_speaking_end)]. *)
Definition speak (text : pystr) : M t (option playback) :=
  TextToSpeech.speak text_to_speech set_text_to_speech text
    (Some (zoom manager set_manager AssistantManager._on_speaking_start))
    (Some (zoom manager set_manager AssistantManager._on_speaking_end)).

Definition speak_requests (events : list event) : list pystr :=
  flat_map (fun e => match e with TtsSpeak text => [text] | _ => [] end) events.

Fixpoint speak_all (texts : list pystr) : M t (list playback) :=
  match texts with
  | [] => ret []
  | text :: texts' =>
      started <- speak text ;;
      others <- speak_all texts' ;;
      ret (match started with Some th => th :: others | None => others end)
  end.

(** A method of the manager, with the speech output behind it: the value of
    the method and the playback threads that were started. *)
Definition run {A : Type} (method : M AssistantManager.t A)
    : M t (A * list playback) :=
  fun s =>
    let '(a, m', events) := method (manager s) in
    let '(threads, s', events') :=
      speak_all (speak_requests events) (set_manager m' s) in
    (a, threads, s', events ++ events').

End Core.

(** ** [ui/main_window.py]: the handlers of [MainWindow] *)

(** A call of [messagebox.showerror] or [messagebox.showinfo]. *)
Inductive dialog : Type :=
| ShowError (title message : pystr)
| ShowInfo (title message : pystr).

Module MainWindow.

(** The widgets by what they hold: the text of the conversation display,
    of the entry and of the status bar, the state of the listen button, the
    two string variables of the user form. [dialogs] logs the message boxes
    shown, in order. *)
Record t : Type := mk {
  assistant_manager : AssistantManager.t;
  conversation_text : pystr;
  input_text : pystr;
  status_label : pystr;
  listen_button : bool;                   (* [tk.NORMAL], not [tk.DISABLED] *)
  user_name_var : pystr;
  user_type_var : pystr;
  dialogs : list dialog
}.

Definition set_assistant_manager (v : AssistantManager.t) (w : t) : t :=
  mk v (conversation_text w) (input_text w) (status_label w) (listen_button w)
     (user_name_var w) (user_type_var w) (dialogs w).
Definition set_conversation_text (v : pystr) (w : t) : t :=
  mk (assistant_manager w) v (input_text w) (status_label w) (listen_button w)
     (user_name_var w) (user_type_var w) (dialogs w).
Definition set_input_text (v : pystr) (w : t) : t :=
  mk (assistant_manager w) (conversation_text w) v (status_label w)
     (listen_button w) (user_name_var w) (user_type_var w) (dialogs w).
Definition set_listen_button (v : bool) (w : t) : t :=
  mk (assistant_manager w) (conversation_text w) (input_text w) (status_label w)
     v (user_name_var w) (user_type_var w) (dialogs w).
Definition set_user_name_var (v : pystr) (w : t) : t :=
  mk (assistant_manager w) (conversation_text w) (input_text w) (status_label w)
     (listen_button w) v (user_type_var w) (dialogs w).
Definition set_user_type_var (v : pystr) (w : t) : t :=
  mk (assistant_manager w) (conversation_text w) (input_text w) (status_label w)
     (listen_button w) (user_name_var w) v (dialogs w).
Definition show (d : dialog) (w : t) : t :=
  mk (assistant_manager w) (conversation_text w) (input_text w) (status_label w)
     (listen_button w) (user_name_var w) (user_type_var w) (dialogs w ++ [d]).

Definition update_status (status : pystr) (w : t) : t :=
  mk (assistant_manager w) (conversation_text w) (input_text w) status
     (listen_button w) (user_name_var w) (user_type_var w) (dialogs w).

(** [add_to_conversation]: the line and a blank line, at the end. *)
Definition add_to_conversation (speaker text : pystr) (w : t) : t :=
  set_conversation_text
    (conversation_text w ++ speaker ++ py ": " ++ text ++ [10%N; 10%N]) w.

(** The six callbacks that [__init__] hands to [set_callbacks]. *)
Definition on_listening_start (w : t) : t :=
  set_listen_button false (update_status (py "Listening...") w).

Definition on_listening_end (w : t) : t :=
  set_listen_button true (update_status (py "Processing...") w).

Definition on_speaking_start (w : t) : t := update_status (py "Speaking...") w.

Definition on_speaking_end (w : t) : t := update_status (py "Ready") w.

Definition on_response (response_data : response_data) (w : t) : t :=
  let w1 := if truthy (query response_data) && negb (is_command response_data)
            then add_to_conversation (py "You") (query response_data) w
            else w in
  if truthy (response response_data)
  then add_to_conversation (py "Assistant") (response response_data) w1
  else w1.

Definition on_user_info_change (user_name user_type : pystr) (w : t) : t :=
  update_status
    (py "User info updated: " ++ user_name ++ py " (" ++ user_type ++ py ")")
    (set_user_type_var user_type (set_user_name_var user_name w)).

(** The callback that an event of the manager stands for; the other events
    are calls of collaborators and do not reach the window. *)
Definition callback (e : event) (w : t) : t :=
  match e with
  | OnListeningStart => on_listening_start w
  | OnListeningEnd => on_listening_end w
  | OnSpeakingStart => on_speaking_start w
  | OnSpeakingEnd => on_speaking_end w
  | OnResponse r => on_response r w
  | OnUserInfoChange n ty => on_user_info_change n ty w
  | HttpPost _ | MicOpen | TtsSpeak _ | ThreadStart => w
  end.

(** A method of [self.assistant_manager], with the callbacks it calls. The
    callbacks write widgets only, so running them after the method is the
    same as running them where the method calls them. *)
Definition manager_call {A : Type} (method : M AssistantManager.t A) : M t A :=
  fun w =>
    let '(a, m', events) := method (assistant_manager w) in
    (a, fold_left (fun w e => callback e w) events (set_assistant_manager m' w),
     events).

(** [__init__], given the manager: the callbacks are set, the status is
    Ready and the form shows the manager's identity. *)
Definition init (assistant_manager : AssistantManager.t) : t :=
  let m := state_of (AssistantManager.set_callbacks true true true true true true
                       assistant_manager) in
  {| assistant_manager := m;
     conversation_text := [];
     input_text := [];
     status_label := py "Ready";
     listen_button := true;
     user_name_var := fst (value_of (AssistantManager.get_user_info m));
     user_type_var := snd (value_of (AssistantManager.get_user_info m));
     dialogs := [] |}.

(** [on_listen_button]; [on_hotkey] calls it. *)
Definition on_listen_button : M t unit :=
  busy <- gets (fun w => AssistantManager.is_listening (assistant_manager w)) ;;
  if busy then ret tt
  else
    modify (update_status (py "Listening...")) ;;
    modify (set_listen_button false) ;;
    manager_call AssistantManager.listen_and_respond.

Definition on_hotkey : M t unit := on_listen_button.

(** [on_send_text]: the text for which a thread running
    [process_text_input] is started, if one is. *)
Definition on_send_text : M t (option pystr) :=
  text <- gets (fun w => strip (input_text w)) ;;
  if truthy text then
    modify (add_to_conversation (py "You") text) ;;
    modify (set_input_text []) ;;
    ret (Some text)
  else ret None.

(** The thread that [on_send_text] starts. *)
Definition text_thread (cfg : config.t) (srv : RAG.service) (text : pystr)
    : M t unit :=
  manager_call (AssistantManager.process_text_input cfg srv text).

Definition on_repeat_button : M t unit :=
  manager_call AssistantManager.repeat_last_response.

Definition on_clear_button : M t unit :=
  modify (set_conversation_text []) ;;
  manager_call AssistantManager.clear_conversation_history.

Definition on_update_user_info : M t unit :=
  user_name <- gets (fun w => strip (user_name_var w)) ;;
  user_type <- gets user_type_var ;;
  if negb (truthy user_name) then
    modify (show (ShowError (py "Error") (py "User name cannot be empty")))
  else if negb (truthy user_type) then
    modify (show (ShowError (py "Error") (py "Please select a user type")))
  else
    manager_call (AssistantManager.set_user_info (Some user_name) (Some user_type)) ;;
    modify (show (ShowInfo (py "Success") (py "User information updated"))).

(** The thread that [listen_and_respond] starts, and its continuation when
    listening ends, with the callbacks of the window. *)
Definition listen_thread (cfg : config.t) (srv : RAG.service) (mic_ok : bool)
    : M t (suspended t unit) :=
  r <- manager_call (AssistantManager._listen_and_respond_thread cfg srv mic_ok) ;;
  ret (match r with
       | Done a => Done a
       | Listening resume => Listening (fun o => manager_call (resume o))
       end).

End MainWindow.

(** ** [mock_rag_server.py]

    Faithful for ASCII queries, on which [lower] is [str.lower]. A float is
    carried as the rational that its literal denotes; nothing is proved
    about the products. The ['timestamp'] entry of a reply is left out, as
    in the client. *)

Module MockServer.

Record kb_entry : Type := mkEntry {
  answer : pystr;
  confidence : Q;
  sources : list pystr
}.

(** [KNOWLEDGE_BASE], in insertion order. *)
Definition KNOWLEDGE_BASE : list (pystr * kb_entry) :=
  [ (py "what is the capital of france",
     mkEntry (py "The capital of France is Paris.") (98 # 100)
       [py "Geography Database"; py "World Atlas"]);
    (py "who is the president of the united states",
     mkEntry (py "The current President of the United States is Joe Biden.")
       (95 # 100)
       [py "Government Records"; py "White House Website"]);
    (py "what is artificial intelligence",
     mkEntry (py "Artificial Intelligence (AI) refers to the simulation of human intelligence in machines that are programmed to think and learn like humans. It encompasses various technologies including machine learning, natural language processing, and computer vision.")
       (92 # 100)
       [py "AI Textbook"; py "Research Papers"]);
    (py "how does a rag system work",
     mkEntry (py "A Retrieval-Augmented Generation (RAG) system works by combining information retrieval with text generation. When a query is received, the system first retrieves relevant documents or information from a knowledge base, then uses this retrieved information to generate a more accurate and contextually relevant response.")
       (94 # 100)
       [py "RAG Research Paper"; py "AI Documentation"]) ].

Definition GENERIC_RESPONSES : list pystr :=
  [ py "I don't have specific information about that, but I can help you find resources on the topic.";
    py "That's an interesting question. While I don't have a definitive answer, I can suggest some related concepts to explore.";
    py "I'm not sure about that specific query. Could you provide more details or rephrase your question?";
    py "I don't have enough information to answer that question accurately. Would you like me to help you research this topic?" ].

(** [s.split()]: the maximal runs without white space. *)
Fixpoint split_from (word s : pystr) : list pystr :=
  match s with
  | [] => if truthy word then [word] else []
  | c :: s' =>
      if is_space c
      then (if truthy word then word :: split_from [] s' else split_from [] s')
      else split_from (word ++ [c]) s'
  end.

Definition split (s : pystr) : list pystr := split_from [] s.

Fixpoint startswith (word s : pystr) : bool :=
  match word, s with
  | [], _ => true
  | c :: word', d :: s' => (c =? d)%N && startswith word' s'
  | _ :: _, [] => false
  end.

(** [word in s] on strings. *)
Fixpoint contains (word s : pystr) : bool :=
  startswith word s
  || match s with
     | [] => false
     | _ :: s' => contains word s'
     end.

(** The dictionary that [process_query] returns. *)
Record reply : Type := mkReply {
  response : pystr;
  r_confidence : Q;
  r_sources : list pystr;
  user_name : pystr;
  user_type : pystr
}.

(** [KNOWLEDGE_BASE[key]], if the key is there. *)
Definition lookup (key : pystr) : option kb_entry :=
  option_map snd (find (fun e => str_eqb key (fst e)) KNOWLEDGE_BASE).

(** The first entry one of whose words occurs in the query. *)
Definition partial_match (normalized_query : pystr) : option kb_entry :=
  option_map snd
    (find (fun e => existsb (fun word => contains word normalized_query)
                      (split (fst e)))
       KNOWLEDGE_BASE).

(** [process_query]; [choice] is the index that [random.choice] draws. *)
Definition process_query (choice : nat) (query user_name user_type : pystr)
    : reply :=
  let normalized_query := strip (lower query) in
  match lookup normalized_query with
  | Some kb_entry =>
      mkReply (answer kb_entry) (confidence kb_entry) (sources kb_entry)
        user_name user_type
  | None =>
      match partial_match normalized_query with
      | Some kb_entry =>
          mkReply (answer kb_entry) (confidence kb_entry * (8 # 10))%Q
            (sources kb_entry) user_name user_type
      | None =>
          mkReply (nth choice GENERIC_RESPONSES []) (5 # 10)
            [py "General Knowledge"] user_name user_type
      end
  end.

(** The JSON object of a request; each key may be missing. *)
Record request_json : Type := mkRequest {
  q_message : option pystr;
  q_name : option pystr;
  q_user_type : option pystr;
  q_context : option pystr
}.

(** What the endpoint returns: the body and the status code. *)
Inductive http_reply : Type :=
| Status200 (body : reply)
| Status400 (error : pystr)
| Status500 (error : pystr).

(** [not data]: no body, or an object without keys. *)
Definition no_data (data : option request_json) : bool :=
  match data with
  | None => true
  | Some d =>
      match q_message d, q_name d, q_user_type d, q_context d with
      | None, None, None, None => true
      | _, _, _, _ => false
      end
  end.

(** [rag_endpoint]; [request.json] gives the body or raises. *)
Definition rag_endpoint (choice : nat) (request : result (option request_json))
    : http_reply :=
  match request with
  | Raise e => Status500 e
  | Ok data =>
      if no_data data then Status400 (py "No data provided")
      else
        let d := match data with
                 | Some d => d
                 | None => mkRequest None None None None
                 end in
        let query := get_or (q_message d) [] in
        let user_name := get_or (q_name d) (py "User") in
        let user_type := get_or (q_user_type d) (py "student") in
        if negb (truthy query) then Status400 (py "No query provided")
        else Status200 (process_query choice query user_name user_type)
  end.

(** The mock server behind [requests.post]: the payload is the body of the
    request; a status other than 200 makes [raise_for_status] raise, with
    the message [http_error]. *)
Definition service (choice : nat) (http_error : pystr) : RAG.service :=
  fun payload =>
    match rag_endpoint choice
            (Ok (Some (mkRequest (Some (RAG.message payload))
                         (Some (RAG.name payload))
                         (Some (RAG.user_type payload))
                         (RAG.context payload)))) with
    | Status200 body =>
        RAG.HttpJson (RAG.mkJson (Some (response body))
                        (Some (r_confidence body)) (Some (r_sources body)))
    | Status400 _ | Status500 _ => RAG.RequestException http_error
    end.

End MockServer.

(** ** Definitions used to state the properties *)

(** The intents of the specification, and the table key of each. *)
Inductive CommandIntent : Type :=
| Help | Exit | Repeat | SetUserType | SetUserName | GetAssistantName.

Definition intent_key (i : CommandIntent) : pystr :=
  match i with
  | Help => py "help"
  | Exit => py "exit"
  | Repeat => py "repeat"
  | SetUserType => py "set_user_type"
  | SetUserName => py "set_user_name"
  | GetAssistantName => py "get_assistant_name"
  end.

(** A recognized phrasing of the specification's table: the whole
    utterance, or its beginning (the entries written with an ellipsis). *)
Inductive phrasing : Type :=
| Exactly (s : pystr)
| StartsWith (s : pystr).

(** The phrasings without a free parameter, as the specification lists them. *)
Definition recognized_phrasings : list (phrasing * CommandIntent) :=
  [ (Exactly (py "help"), Help);
    (Exactly (py "what can you do"), Help);
    (StartsWith (py "what commands"), Help);
    (Exactly (py "exit"), Exit);
    (Exactly (py "quit"), Exit);
    (Exactly (py "goodbye"), Exit);
    (Exactly (py "repeat"), Repeat);
    (Exactly (py "say that again"), Repeat);
    (StartsWith (py "what did you say"), Repeat);
    (Exactly (py "i am a staff"), SetUserType);
    (Exactly (py "i am a student"), SetUserType);
    (Exactly (py "what is your name"), GetAssistantName);
    (Exactly (py "who are you"), GetAssistantName) ].

(** The utterance is the phrasing, whatever the case of its letters. In the
    statements [lower] and [upper] stand for the change of case of the ASCII
    letters. *)
Definition phrased (ph : phrasing) (q : pystr) : bool :=
  match ph with
  | Exactly s => str_eqb (lower q) s
  | StartsWith s => str_eqb (lower (firstn (List.length s) q)) s
  end.

Definition intent_of (r : option (pystr * Match)) : option pystr :=
  option_map fst r.

Definition has_newline (s : pystr) : bool := existsb is_newline s.

(** The request that [process_query] sends for a free-form query. *)
Definition payload_of (cfg : config.t) (nlp : NLPProcessor.t) (q : pystr)
    : RAG.payload :=
  {| RAG.name := or_default (Some (NLPProcessor.user_name nlp))
                   (config.DEFAULT_USER_NAME cfg);
     RAG.user_type := or_default (Some (NLPProcessor.user_type nlp))
                        (config.DEFAULT_USER_TYPE cfg);
     RAG.message := q;
     RAG.context := None |}.

(** The failures of the answer service that the specification names:
    transport error, timeout, bad status, or a reply that is not JSON. *)
Definition transport_or_parse_failure (o : RAG.http_outcome) : bool :=
  match o with
  | RAG.RequestException _ | RAG.JSONDecodeError _ => true
  | _ => false
  end.

Definition apology : pystr :=
  py "I'm sorry, I encountered an error while processing your request.".

(** The state in which a text turn ends: the processor's new state, the
    speaking flag raised, the caches and the history updated, and the
    manager's copy of the identity equal to the processor's. *)
Definition after_turn (st : AssistantManager.t) (text : pystr)
    (record : response_data) (nlp' : NLPProcessor.t) : AssistantManager.t :=
  AssistantManager.mk nlp'
    (AssistantManager.speech_recognizer st)
    (AssistantManager.is_listening st)
    true
    (Some text)
    (Some record)
    (AssistantManager.conversation_history st
       ++ [History.mk text record (NLPProcessor.user_name nlp')
             (NLPProcessor.user_type nlp')])
    (NLPProcessor.user_name nlp')
    (NLPProcessor.user_type nlp')
    (AssistantManager.on_listening_start_callback st)
    (AssistantManager.on_listening_end_callback st)
    (AssistantManager.on_speaking_start_callback st)
    (AssistantManager.on_speaking_end_callback st)
    (AssistantManager.on_response_callback st)
    (AssistantManager.on_user_info_change_callback st).

(** Does the manager's copy of the identity differ from the processor's? *)
Definition user_info_differs (st : AssistantManager.t) (nlp' : NLPProcessor.t)
    : bool :=
  negb (str_eqb (AssistantManager.user_name st) (NLPProcessor.user_name nlp'))
  || negb (str_eqb (AssistantManager.user_type st) (NLPProcessor.user_type nlp')).

(** The events of a text turn after those of [process_query]. *)
Definition turn_events (st : AssistantManager.t) (record : response_data)
    (nlp' : NLPProcessor.t) : list event :=
  (if user_info_differs st nlp'
      && AssistantManager.on_user_info_change_callback st
   then [OnUserInfoChange (NLPProcessor.user_name nlp') (NLPProcessor.user_type nlp')]
   else [])
  ++ (if AssistantManager.on_response_callback st then [OnResponse record] else [])
  ++ [TtsSpeak (response record)].

(** Sample collaborators and states for the closed examples. *)
Definition answering_service : RAG.service :=
  fun _ => RAG.HttpJson {| RAG.j_response := Some (py "It is noon.");
                           RAG.j_confidence := None;
                           RAG.j_sources := None |}.

Definition failing_service : RAG.service :=
  fun _ => RAG.RequestException (py "Read timed out.").

Definition fresh : AssistantManager.t := AssistantManager.init config.defaults.

(** A fresh manager whose six callbacks are all set. *)
Definition observed : AssistantManager.t :=
  state_of (AssistantManager.set_callbacks true true true true true true fresh).

Definition valid_user_type (ty : pystr) : bool :=
  str_eqb ty (py "staff") || str_eqb ty (py "student").

Definition is_user_info_change (e : event) : bool :=
  match e with OnUserInfoChange _ _ => true | _ => false end.

Definition nothing_said : pystr := py "I haven't said anything yet.".

(** The record that [_handle_command] builds for the repeat intent. *)
Definition repeat_record (q : pystr) : response_data :=
  NLPProcessor.with_flags
    (NLPProcessor.command_response q (py "repeat")
       (py "I'll repeat my last response.") true)
    false true false false.

Ltac unfold_monad :=
  unfold bind, zoom, modify, gets, emit, ret, when, AssistantManager.fire,
    value_of, state_of, events_of in *.

(** The manager's copy of the identity agrees with the processor's. *)
Definition in_sync (st : AssistantManager.t) : Prop :=
  AssistantManager.user_name st
  = NLPProcessor.user_name (AssistantManager.nlp_processor st)
  /\ AssistantManager.user_type st
     = NLPProcessor.user_type (AssistantManager.nlp_processor st).

(** The cursor over a subject whose characters were mapped by [f]. *)
Definition cmap (f : codepoint -> codepoint) (st : cursor) : cursor :=
  mkCursor (pos st) (map f (rest st)) (caps st).

(** Case analysis on the comparisons of a code point with constants. *)
Ltac split_codepoint ch :=
  repeat match goal with
         | |- context [(?a <=? ch)%N] => destruct (N.leb_spec a ch)
         | |- context [(ch <=? ?b)%N] => destruct (N.leb_spec ch b)
         | |- context [(ch =? ?b)%N] => destruct (N.eqb_spec ch b)
         end;
  cbn [andb orb negb].

Ltac solve_codepoint :=
  repeat match goal with
         | |- context [(?a <=? ?b)%N] => destruct (N.leb_spec a b)
         | |- context [(?a =? ?b)%N] => destruct (N.eqb_spec a b)
         end;
  cbn [andb orb negb]; try reflexivity; try lia.

(** ** Definitions for the further properties of the matcher *)

Definition zero_width (r : regex) : bool :=
  match r with Bol | Eol => true | _ => false end.

(** The literals with which a match of [r] can begin. *)
Fixpoint first_lits (r : regex) : list pystr :=
  match r with
  | Bol | Eol | DotPlus => [[]]
  | Lit s => [s]
  | Cat r1 r2 => if zero_width r1 then first_lits r2 else first_lits r1
  | Alt r1 r2 => first_lits r1 ++ first_lits r2
  | Grp _ r1 => first_lits r1
  end.

(** Two literals differ, at some position of both, in lower-case ASCII
    letters. *)
Fixpoint clash (l1 l2 : pystr) : bool :=
  match l1, l2 with
  | c1 :: t1, c2 :: t2 =>
      is_ascii_lower c1 && is_ascii_lower c2 && negb (c1 =? c2)%N || clash t1 t2
  | _, _ => false
  end.

Definition heads_clash (e1 e2 : pystr * pattern) : bool :=
  forallb (fun l1 => forallb (clash l1) (first_lits (rx (snd e2))))
    (first_lits (rx (snd e1))).

(** Every entry of the table clashes with every later one. *)
Fixpoint exclusive (table : list (pystr * pattern)) : bool :=
  match table with
  | e :: table' => forallb (heads_clash e) table' && exclusive table'
  | [] => true
  end.

Definition is_ascii (s : pystr) : bool := forallb (fun c => (c <? 128)%N) s.

(** A literal of a pattern written in lower case: ASCII, no capital. *)
Definition lower_literal (s : pystr) : bool :=
  forallb (fun c => (c <? 128)%N && negb (is_ascii_upper c)) s.

(** No white space at either end. *)
Definition trimmed (s : pystr) : bool :=
  match s with
  | [] => true
  | c :: _ => negb (is_space c) && negb (is_space (last s c))
  end.

Definition is_some {A : Type} (o : option A) : bool :=
  match o with Some _ => true | None => false end.

(** ** Definitions for the further properties of the manager *)

(** The most recent entry of the history. *)
Definition last_entry (h : list History.entry) : option History.entry :=
  match rev h with
  | e :: _ => Some e
  | [] => None
  end.

(** An entry records a non-empty utterance, and the record of that
    utterance. *)
Definition entry_ok (e : History.entry) : Prop :=
  History.query e <> [] /\ query (History.response e) = History.query e.

(** The two caches hold the utterance and the record of the most recent
    entry, and every entry is well formed. *)
Definition coherent (st : AssistantManager.t) : Prop :=
  AssistantManager.last_query st
  = option_map History.query (last_entry (AssistantManager.conversation_history st))
  /\ AssistantManager.last_response st
     = option_map History.response
         (last_entry (AssistantManager.conversation_history st))
  /\ Forall entry_ok (AssistantManager.conversation_history st).

(** Listening ended without a usable text. *)
Definition nothing_heard (w : listen_outcome) : bool :=
  match w with
  | Audio (Text (_ :: _)) => false
  | _ => true
  end.

(** The continuation of the listening thread, as the thread builds it. *)
Definition thread_resume (cfg : config.t) (srv : RAG.service)
    (w : listen_outcome) : M AssistantManager.t unit :=
  query_text <- SpeechRecognizer.after_listen
                  AssistantManager.set_speech_recognizer
                  (Some AssistantManager._on_listening_end) w ;;
  AssistantManager.after_recognition cfg srv query_text.

(** Both listening flags lowered. *)
Definition listening_cleared (st : AssistantManager.t) : AssistantManager.t :=
  AssistantManager.set_speech_recognizer (SpeechRecognizer.mk false)
    (AssistantManager.set_is_listening false st).



(** A turn in two steps: the assignment to [last_query] (lines 102 and 165),
    and what follows it, which begins with the call of [process_query] that
    blocks in the request to the answer service (lines 105-128 and
    168-191). *)
Definition turn_begun (text : pystr) : M AssistantManager.t unit :=
  modify (AssistantManager.set_last_query (Some text)).

Definition turn_finished (cfg : config.t) (srv : RAG.service) (text : pystr)
    : M AssistantManager.t unit :=
  response_data <- zoom AssistantManager.nlp_processor
                     AssistantManager.set_nlp_processor
                     (NLPProcessor.process_query cfg srv text) ;;
  modify (AssistantManager.set_last_response (Some response_data)) ;;
  AssistantManager.sync_user_info ;;
  AssistantManager.append_history text response_data ;;
  AssistantManager.fire AssistantManager.on_response_callback
    (OnResponse response_data) ;;
  AssistantManager._speak_response (response response_data).

(** A method of the manager that does not lower a raised speaking flag. *)
Definition keeps_speaking {A : Type} (method : M AssistantManager.t A) : Prop :=
  forall m,
    AssistantManager.is_speaking m = true ->
    AssistantManager.is_speaking (state_of (method m)) = true.

(** ** Definitions for the properties of the window *)

(** What [add_to_conversation] appends. *)
Definition line (speaker text : pystr) : pystr :=
  speaker ++ py ": " ++ text ++ [10%N; 10%N].

(** The form shows the identity that the manager holds. *)
Definition mirrored (w : MainWindow.t) : Prop :=
  MainWindow.user_name_var w
  = AssistantManager.user_name (MainWindow.assistant_manager w)
  /\ MainWindow.user_type_var w
     = AssistantManager.user_type (MainWindow.assistant_manager w).

(** The callbacks of the window are set in its manager. *)
Definition wired (w : MainWindow.t) : Prop :=
  let m := MainWindow.assistant_manager w in
  AssistantManager.on_listening_start_callback m = true
  /\ AssistantManager.on_listening_end_callback m = true
  /\ AssistantManager.on_response_callback m = true
  /\ AssistantManager.on_user_info_change_callback m = true.

(** A window on a fresh manager. *)
Definition window : MainWindow.t := MainWindow.init fresh.

(** * Properties *)

(** ** The monad *)

Lemma bind_run {S A B : Type} (c : M S A) (f : A -> M S B) (s : S) :
  bind c f s =
  (value_of (f (value_of (c s)) (state_of (c s))),
   state_of (f (value_of (c s)) (state_of (c s))),
   events_of (c s) ++ events_of (f (value_of (c s)) (state_of (c s)))).
Proof.
  unfold bind, value_of, state_of, events_of.
  destruct (c s) as [[a s1] e1]; simpl.
  destruct (f a s1) as [[b s2] e2]; reflexivity.
Qed.

(** ** Strings *)

Lemma str_eqb_eq (a b : pystr) : str_eqb a b = true <-> a = b.
Proof.
  unfold str_eqb; destruct (list_eq_dec N.eq_dec a b); split; congruence.
Qed.

Lemma str_eqb_neq (a b : pystr) : str_eqb a b = false <-> a <> b.
Proof.
  unfold str_eqb; destruct (list_eq_dec N.eq_dec a b); split; congruence.
Qed.

Lemma str_eqb_refl (a : pystr) : str_eqb a a = true.
Proof. now apply str_eqb_eq. Qed.

Lemma truthy_false (s : pystr) : truthy s = false <-> s = [].
Proof. destruct s; simpl; split; congruence. Qed.

(** ** The matcher does not look at the case of the subject

    [f] stands for a change of case that [re.IGNORECASE] cannot see. *)

Section CaseMap.

Variable f : codepoint -> codepoint.
Hypothesis f_lower : forall ch, sre_lower (f ch) = sre_lower ch.
Hypothesis f_newline : forall ch, is_newline (f ch) = is_newline ch.

Lemma chr_test_map (c ch : codepoint) :
  chr_test true c (f ch) = chr_test true c ch.
Proof. unfold chr_test; now rewrite f_lower. Qed.

Lemma lit_match_map (s q : pystr) :
  lit_match true s (map f q) = option_map (map f) (lit_match true s q).
Proof.
  revert q; induction s as [|c s IH]; intros q; [reflexivity|].
  destruct q as [|ch q]; [reflexivity|].
  cbn [lit_match map]; rewrite chr_test_map.
  destruct (chr_test true c ch); [apply IH | reflexivity].
Qed.

Lemma at_eol_map (q : pystr) : at_eol (map f q) = at_eol q.
Proof.
  destruct q as [|c [|c' q]]; simpl; auto.
Qed.

Lemma dot_star_map (k k' : cursor -> option spans) :
  (forall st, k' (cmap f st) = k st) ->
  forall s p cs, dot_star k' p (map f s) cs = dot_star k p s cs.
Proof.
  intros Hk s; induction s as [|c s IH]; intros p cs; simpl.
  - apply (Hk (mkCursor p [] cs)).
  - rewrite f_newline, IH.
    pose proof (Hk (mkCursor p (c :: s) cs)) as E; unfold cmap in E; simpl in E.
    rewrite E; reflexivity.
Qed.

Lemma rmatch_map (r : regex) :
  forall k k' st,
    (forall st, k' (cmap f st) = k st) ->
    rmatch true r k' (cmap f st) = rmatch true r k st.
Proof.
  induction r as [ | | s | | r1 IH1 r2 IH2 | r1 IH1 r2 IH2 | n r IH];
    intros k k' st Hk; simpl.
  - destruct (pos st =? 0)%nat; [apply Hk | reflexivity].
  - rewrite at_eol_map; destruct (at_eol (rest st)); [apply Hk | reflexivity].
  - rewrite lit_match_map.
    destruct (lit_match true s (rest st)) as [rest'|]; simpl; [|reflexivity].
    apply (Hk (mkCursor (pos st + List.length s) rest' (caps st))).
  - destruct (rest st) as [|c s']; simpl; [reflexivity|].
    rewrite f_newline; destruct (is_newline c); [reflexivity|].
    now apply dot_star_map.
  - apply IH1; intros st1; now apply IH2.
  - rewrite (IH1 k k' st Hk), (IH2 k k' st Hk); reflexivity.
  - apply IH; intros st1.
    apply (Hk (mkCursor (pos st1) (rest st1) ((n, (pos st, pos st1)) :: caps st1))).
Qed.

(** The same groups match at the same places. *)
Lemma pattern_match_map (p : pattern) (q : pystr) :
  ignorecase p = true ->
  pattern_match p (map f q) =
  option_map (fun m => mkMatch (map f q) (m_spans m)) (pattern_match p q).
Proof.
  intros Hic; unfold pattern_match; rewrite Hic.
  change (mkCursor 0 (map f q) []) with (cmap f (mkCursor 0 q [])).
  rewrite (@rmatch_map (rx p) (fun st => Some (caps st)) (fun st => Some (caps st)))
    by reflexivity.
  destruct (rmatch true (rx p) _ _); reflexivity.
Qed.

Lemma detect_in_map (table : list (pystr * pattern)) (q : pystr) :
  Forall (fun e => ignorecase (snd e) = true) table ->
  NLPProcessor.detect_in table (map f q) =
  option_map (fun im => (fst im, mkMatch (map f q) (m_spans (snd im))))
    (NLPProcessor.detect_in table q).
Proof.
  induction 1 as [|[intent p] table Hp _ IH]; simpl; [reflexivity|].
  simpl in Hp; rewrite (pattern_match_map p q Hp).
  destruct (pattern_match p q); simpl; [reflexivity | apply IH].
Qed.

End CaseMap.

Lemma sre_lower_chr_lower (ch : codepoint) : sre_lower (chr_lower ch) = sre_lower ch.
Proof.
  unfold chr_lower, is_ascii_upper; split_codepoint ch;
    unfold sre_lower, is_ascii_upper; solve_codepoint.
Qed.

Lemma sre_lower_chr_upper (ch : codepoint) : sre_lower (chr_upper ch) = sre_lower ch.
Proof.
  unfold chr_upper, is_ascii_lower; split_codepoint ch;
    unfold sre_lower, is_ascii_upper; solve_codepoint.
Qed.

Lemma is_newline_chr_lower (ch : codepoint) : is_newline (chr_lower ch) = is_newline ch.
Proof.
  unfold chr_lower, is_ascii_upper; split_codepoint ch;
    unfold is_newline; solve_codepoint.
Qed.

Lemma is_newline_chr_upper (ch : codepoint) : is_newline (chr_upper ch) = is_newline ch.
Proof.
  unfold chr_upper, is_ascii_lower; split_codepoint ch;
    unfold is_newline; solve_codepoint.
Qed.

(** ** The command matcher *)

Lemma command_patterns_ignorecase :
  Forall (fun e => ignorecase (snd e) = true) NLPProcessor.command_patterns.
Proof. repeat constructor. Qed.

Lemma detect_lower (q : pystr) :
  NLPProcessor._detect_command_intent (lower q) =
  option_map (fun im => (fst im, mkMatch (lower q) (m_spans (snd im))))
    (NLPProcessor._detect_command_intent q).
Proof.
  apply detect_in_map;
    auto using sre_lower_chr_lower, is_newline_chr_lower, command_patterns_ignorecase.
Qed.

Lemma detect_upper (q : pystr) :
  NLPProcessor._detect_command_intent (upper q) =
  option_map (fun im => (fst im, mkMatch (upper q) (m_spans (snd im))))
    (NLPProcessor._detect_command_intent q).
Proof.
  apply detect_in_map;
    auto using sre_lower_chr_upper, is_newline_chr_upper, command_patterns_ignorecase.
Qed.

Lemma intent_of_lower (q : pystr) :
  intent_of (NLPProcessor._detect_command_intent (lower q)) =
  intent_of (NLPProcessor._detect_command_intent q).
Proof.
  rewrite detect_lower; now destruct (NLPProcessor._detect_command_intent q).
Qed.

Lemma intent_of_upper (q : pystr) :
  intent_of (NLPProcessor._detect_command_intent (upper q)) =
  intent_of (NLPProcessor._detect_command_intent q).
Proof.
  rewrite detect_upper; now destruct (NLPProcessor._detect_command_intent q).
Qed.

Lemma pattern_match_string (p : pattern) (q : pystr) (m : Match) :
  pattern_match p q = Some m -> m_string m = q.
Proof.
  unfold pattern_match; destruct (rmatch _ _ _ _); intros E; inversion E; reflexivity.
Qed.

(** The loop returns the first entry that matches, and [None] if none does. *)
Lemma detect_in_first (table : list (pystr * pattern)) (q intent : pystr) (m : Match) :
  NLPProcessor.detect_in table q = Some (intent, m) <->
  exists before pat rest_,
    table = before ++ (intent, pat) :: rest_
    /\ pattern_match pat q = Some m
    /\ Forall (fun e => pattern_match (snd e) q = None) before.
Proof.
  induction table as [|[i p] table IH]; simpl.
  - split; [discriminate|].
    intros (before & pat & rest_ & E & _); destruct before; discriminate.
  - destruct (pattern_match p q) as [m'|] eqn:Ep.
    + split.
      * intros E; inversion E; subst.
        exists [], p, table; repeat split; auto.
      * intros (before & pat & rest_ & E & Em & Hb).
        destruct before as [|e before]; simpl in E; inversion E; subst.
        -- congruence.
        -- inversion Hb; simpl in *; congruence.
    + rewrite IH; split.
      * intros (before & pat & rest_ & E & Em & Hb).
        exists ((i, p) :: before), pat, rest_; subst; repeat split; auto.
      * intros (before & pat & rest_ & E & Em & Hb).
        destruct before as [|e before]; simpl in E; inversion E; subst.
        -- congruence.
        -- inversion Hb; subst. exists before, pat, rest_; auto.
Qed.

Lemma detect_in_none (table : list (pystr * pattern)) (q : pystr) :
  NLPProcessor.detect_in table q = None <->
  Forall (fun e => pattern_match (snd e) q = None) table.
Proof.
  induction table as [|[i p] table IH]; simpl.
  - split; auto.
  - destruct (pattern_match p q) eqn:Ep.
    + split; [discriminate|]. intros H; inversion H; simpl in *; congruence.
    + rewrite IH; split; [now constructor | now inversion 1].
Qed.

Lemma detect_string (q intent : pystr) (m : Match) :
  NLPProcessor._detect_command_intent q = Some (intent, m) -> m_string m = q.
Proof.
  intros H; apply detect_in_first in H as (? & pat & ? & _ & Hm & _).
  eapply pattern_match_string; eauto.
Qed.

(** From the match of the lower-cased utterance to that of the utterance. *)
Lemma detect_from_lower (q intent : pystr) (sp : spans) :
  NLPProcessor._detect_command_intent (lower q) = Some (intent, mkMatch (lower q) sp) ->
  NLPProcessor._detect_command_intent q = Some (intent, mkMatch q sp).
Proof.
  rewrite detect_lower.
  destruct (NLPProcessor._detect_command_intent q) as [[i [s c]]|] eqn:E;
    simpl; [|discriminate].
  intros H; inversion H; subst.
  apply detect_string in E; simpl in E; subst; reflexivity.
Qed.

Lemma lower_app (a b : pystr) : lower (a ++ b) = lower a ++ lower b.
Proof. apply map_app. Qed.

Lemma phrased_intent (ph : phrasing) (i : CommandIntent) (q : pystr) :
  In (ph, i) recognized_phrasings ->
  phrased ph q = true ->
  intent_of (NLPProcessor._detect_command_intent q) = Some (intent_key i).
Proof.
  intros Hin Hq; rewrite <- intent_of_lower.
  assert (Hs : forall s, phrased (StartsWith s) q = true ->
                         lower q = s ++ lower (skipn (List.length s) q)).
  { intros s H; apply str_eqb_eq in H.
    rewrite <- (firstn_skipn (List.length s) q) at 1.
    now rewrite lower_app, H. }
  simpl in Hin;
    repeat (destruct Hin as [Hin|Hin];
            [inversion Hin; subst; clear Hin | ]); try contradiction;
    first [ apply Hs in Hq; rewrite Hq;
            match goal with
            | |- context [lower (skipn ?n q)] => generalize (lower (skipn n q))
            end; intros t; vm_compute; reflexivity
          | unfold phrased in Hq; apply str_eqb_eq in Hq; rewrite Hq;
            vm_compute; reflexivity ].
Qed.

(** The matcher on a few utterances. *)
Example detect_upper_case :
  intent_of (NLPProcessor._detect_command_intent (py "HELP")) = Some (py "help").
Proof. reflexivity. Qed.

Example detect_longer_text :
  NLPProcessor._detect_command_intent (py "help me") = None.
Proof. reflexivity. Qed.

Example detect_prefix_phrasing :
  intent_of (NLPProcessor._detect_command_intent (py "What did you say just now?"))
  = Some (py "repeat").
Proof. reflexivity. Qed.

Example detect_final_newline :
  intent_of (NLPProcessor._detect_command_intent (py "quit" ++ NLPProcessor.nl))
  = Some (py "exit").
Proof. reflexivity. Qed.

Example detect_name :
  option_map (fun im => (fst im, group 1 (snd im), group 2 (snd im)))
    (NLPProcessor._detect_command_intent (py "Call my name to Bob Smith"))
  = Some (py "set_user_name", py "Call", py "Bob Smith").
Proof. reflexivity. Qed.

Example detect_empty_name :
  NLPProcessor._detect_command_intent (py "set my name to ") = None.
Proof. reflexivity. Qed.

(** Under IGNORECASE the letter s also matches U+017F, the long s, which
    [lower] leaves as it is: the type that the command then stores is
    neither staff nor student. *)
Example detect_long_s :
  let q := py "i am a " ++ [383%N] ++ py "taff" in
  let r := NLPProcessor.process_query config.defaults answering_service q
             (NLPProcessor.init config.defaults) in
  intent_of (NLPProcessor._detect_command_intent q) = Some (py "set_user_type")
  /\ NLPProcessor.user_type (state_of r) = [383%N] ++ py "taff"
  /\ valid_user_type (NLPProcessor.user_type (state_of r)) = false.
Proof. vm_compute; repeat split. Qed.

(** [.+] takes the whole rest of a line when the pattern can end there. *)
Lemma dot_star_all (k : cursor -> option spans) (x : pystr) :
  forall p cs r,
    has_newline x = false ->
    k (mkCursor (p + List.length x) [] cs) = Some r ->
    dot_star k p x cs = Some r.
Proof.
  induction x as [|c x IH]; intros p cs r Hnl Hk; simpl in *.
  - now rewrite Nat.add_0_r in Hk.
  - apply orb_false_iff in Hnl as [Hc Hx]; rewrite Hc.
    rewrite (IH (S p) cs r Hx); [reflexivity|].
    now replace (S p + List.length x) with (p + S (List.length x)) by lia.
Qed.

Lemma has_newline_lower (x : pystr) : has_newline (lower x) = has_newline x.
Proof.
  induction x as [|c x IH]; simpl; [reflexivity|].
  now rewrite is_newline_chr_lower, IH.
Qed.

Lemma lower_length (x : pystr) : List.length (lower x) = List.length x.
Proof. apply length_map. Qed.

(** The set-user-type phrasings: group 1 is the type as it was typed. *)
Lemma detect_set_user_type (q lit : pystr) :
  In lit [py "staff"; py "student"] ->
  lower q = py "i am a " ++ lit ->
  NLPProcessor._detect_command_intent q
  = Some (py "set_user_type", mkMatch q [(1, (7, List.length q))])
  /\ group 1 (mkMatch q [(1, (7, List.length q))]) = skipn 7 q
  /\ lower (skipn 7 q) = lit.
Proof.
  intros Hlit Hq.
  assert (Hlen : List.length q = 7 + List.length lit).
  { rewrite <- lower_length, Hq, length_app; reflexivity. }
  split; [|split].
  - apply detect_from_lower; rewrite Hq, Hlen.
    destruct Hlit as [<-|[<-|[]]]; vm_compute; reflexivity.
  - unfold group, slice; cbn [span_of m_spans m_string Nat.eqb].
    apply firstn_all2; rewrite length_skipn; lia.
  - unfold lower in *. rewrite <- skipn_map, Hq.
    destruct Hlit as [<-|[<-|[]]]; reflexivity.
Qed.

(** The set-user-name phrasing on a lower-case verb and separator. *)
Lemma detect_set_user_name_lower (lv x : pystr) :
  In lv [py "set"; py "call"; py "change"] ->
  x <> [] ->
  has_newline x = false ->
  NLPProcessor._detect_command_intent (lv ++ py " my name to " ++ x)
  = Some (py "set_user_name",
          mkMatch (lv ++ py " my name to " ++ x)
            [(2, (List.length lv + 12, List.length lv + 12 + List.length x));
             (1, (0, List.length lv))]).
Proof.
  intros Hv Hx Hnl.
  destruct x as [|c x]; [congruence|]; simpl in Hnl.
  apply orb_false_iff in Hnl as [Hc Hnl].
  destruct Hv as [<-|[<-|[<-|[]]]];
    cbv - [is_newline dot_star List.length];
    rewrite Hc;
    (erewrite dot_star_all;
     [ | exact Hnl | cbv - [List.length Nat.add]; reflexivity ]);
    cbn [List.length]; repeat f_equal; lia.
Qed.

(** The set-user-name phrasings: group 2 is the name as it was typed. *)
Lemma detect_set_user_name (v sep x : pystr) :
  In (lower v) [py "set"; py "call"; py "change"] ->
  lower sep = py " my name to " ->
  x <> [] ->
  has_newline x = false ->
  let q := v ++ sep ++ x in
  let m := mkMatch q [(2, (List.length v + 12, List.length q));
                      (1, (0, List.length v))] in
  NLPProcessor._detect_command_intent q = Some (py "set_user_name", m)
  /\ group 1 m = v
  /\ group 2 m = x.
Proof.
  intros Hv Hsep Hx Hnl q m.
  assert (Hls : List.length sep = 12).
  { now rewrite <- lower_length, Hsep. }
  split; [|split].
  - apply detect_from_lower; subst q m.
    rewrite !lower_app, Hsep.
    rewrite detect_set_user_name_lower;
      [ | assumption | now destruct x | now rewrite has_newline_lower ].
    rewrite !length_app, !lower_length, Hls, Nat.add_assoc.
    reflexivity.
  - subst q m; unfold group, slice; cbn [span_of m_spans m_string Nat.eqb skipn].
    rewrite Nat.sub_0_r, firstn_app, Nat.sub_diag, firstn_all; simpl.
    apply app_nil_r.
  - subst q m; unfold group, slice; cbn [span_of m_spans m_string Nat.eqb].
    rewrite app_assoc, skipn_app, !length_app, Hls.
    rewrite skipn_all2 by (rewrite length_app; lia).
    replace (List.length v + 12 - (List.length v + 12)) with 0 by lia.
    simpl. apply firstn_all2; lia.
Qed.

(** C1. The command matcher is a function of the utterance alone. It goes
    through the table in the order help, exit, repeat, set_user_type,
    set_user_name, get_assistant_name and returns the intent and match of the
    first entry whose pattern matches, and [None] exactly when no pattern
    matches. The intent does not depend on the case of the utterance; every
    listed phrasing, in any case, yields its intent; and the match carries
    the parameter: the type as typed in group 1 of set_user_type, the name as
    typed in group 2 of set_user_name. *)
Theorem command_matcher_first_match (q : pystr) :
  map fst NLPProcessor.command_patterns
  = map intent_key [Help; Exit; Repeat; SetUserType; SetUserName; GetAssistantName]
  /\ (forall intent m,
        NLPProcessor._detect_command_intent q = Some (intent, m) <->
        exists before pat rest_,
          NLPProcessor.command_patterns = before ++ (intent, pat) :: rest_
          /\ pattern_match pat q = Some m
          /\ Forall (fun e => pattern_match (snd e) q = None) before)
  /\ (NLPProcessor._detect_command_intent q = None <->
      Forall (fun e => pattern_match (snd e) q = None) NLPProcessor.command_patterns)
  /\ intent_of (NLPProcessor._detect_command_intent (upper q))
     = intent_of (NLPProcessor._detect_command_intent q)
  /\ intent_of (NLPProcessor._detect_command_intent (lower q))
     = intent_of (NLPProcessor._detect_command_intent q)
  /\ (forall ph i,
        In (ph, i) recognized_phrasings ->
        phrased ph q = true ->
        intent_of (NLPProcessor._detect_command_intent q) = Some (intent_key i))
  /\ (forall lit,
        In lit [py "staff"; py "student"] ->
        lower q = py "i am a " ++ lit ->
        exists m,
          NLPProcessor._detect_command_intent q = Some (intent_key SetUserType, m)
          /\ group 1 m = skipn 7 q
          /\ lower (group 1 m) = lit)
  /\ (forall v sep x,
        q = v ++ sep ++ x ->
        In (lower v) [py "set"; py "call"; py "change"] ->
        lower sep = py " my name to " ->
        x <> [] ->
        has_newline x = false ->
        exists m,
          NLPProcessor._detect_command_intent q = Some (intent_key SetUserName, m)
          /\ group 2 m = x).
Proof.
  repeat split.
  - apply detect_in_first.
  - apply detect_in_first.
  - apply detect_in_none.
  - apply detect_in_none.
  - apply intent_of_upper.
  - apply intent_of_lower.
  - intros ph i; apply phrased_intent.
  - intros lit Hlit Hq.
    destruct (detect_set_user_type q Hlit Hq) as (Hd & Hg & Hl).
    eexists; split; [exact Hd|]; split; [exact Hg|].
    now rewrite Hg.
  - intros v sep x -> Hv Hsep Hx Hnl.
    destruct (detect_set_user_name v sep Hv Hsep Hx Hnl) as (Hd & _ & Hg).
    eexists; split; [exact Hd | exact Hg].
Qed.

(** ** The text turn *)

(** A turn on a non-empty text, in terms of what [process_query] returns. *)
Lemma process_text_input_run (cfg : config.t) (srv : RAG.service)
    (text : pystr) (st : AssistantManager.t) :
  text <> [] ->
  let r := NLPProcessor.process_query cfg srv text
             (AssistantManager.nlp_processor st) in
  AssistantManager.process_text_input cfg srv text st
  = (tt, after_turn st text (value_of r) (state_of r),
     events_of r ++ turn_events st (value_of r) (state_of r)).
Proof.
  intros Htext r; subst r.
  unfold AssistantManager.process_text_input.
  destruct text as [|c text]; [congruence|]; cbn [truthy negb].
  unfold AssistantManager.sync_user_info, AssistantManager.append_history,
    AssistantManager._speak_response, turn_events, user_info_differs, after_turn.
  unfold_monad.
  destruct st as [nlp sr li sp lq lr h un ut c1 c2 c3 c4 c5 c6]; simpl.
  destruct (NLPProcessor.process_query cfg srv (c :: text) nlp) as [[record nlp'] ev].
  simpl.
  destruct (str_eqb un (NLPProcessor.user_name nlp')) eqn:En;
    destruct (str_eqb ut (NLPProcessor.user_type nlp')) eqn:Et;
    try apply str_eqb_eq in En; try apply str_eqb_eq in Et; subst;
    destruct c5, c6; simpl; rewrite ?app_nil_r; reflexivity.
Qed.

Lemma process_text_input_empty (cfg : config.t) (srv : RAG.service)
    (st : AssistantManager.t) :
  AssistantManager.process_text_input cfg srv [] st = (tt, st, []).
Proof. reflexivity. Qed.

(** ** The dispatcher *)

Lemma process_query_free_form (cfg : config.t) (srv : RAG.service)
    (q : pystr) (nlp : NLPProcessor.t) :
  q <> [] ->
  NLPProcessor._detect_command_intent q = None ->
  NLPProcessor.process_query cfg srv q nlp
  = (match srv (payload_of cfg nlp q) with
     | RAG.HttpJson d =>
         let rag := RAG.mkRag (get_or (RAG.j_response d) [])
                      (get_or (RAG.j_confidence d) 0%Q)
                      (get_or (RAG.j_sources d) []) q d in
         NLPProcessor.query_response q (RAG.answer rag) true (Some rag) None
     | RAG.RequestException e =>
         NLPProcessor.query_response q apology false None
           (Some (py "Failed to connect to RAG API: " ++ e))
     | RAG.JSONDecodeError e =>
         NLPProcessor.query_response q apology false None
           (Some (py "Invalid response from RAG API: " ++ e))
     | RAG.OtherException e =>
         NLPProcessor.query_response q apology false None (Some e)
     end,
     nlp, [HttpPost (payload_of cfg nlp q)]).
Proof.
  intros Hq Hd.
  unfold NLPProcessor.process_query, RAGAPIClient.query.
  destruct q as [|c q]; [congruence|]; cbn [truthy negb].
  rewrite Hd. unfold_monad. unfold payload_of.
  destruct (srv _); reflexivity.
Qed.

(** C2. A free-form utterance whose call to the answer service fails with a
    transport error, a timeout, a bad status or a reply that is not JSON:
    [process_query] returns (it does not raise) a record with
    [success = False], the apology as its text and a non-empty ['error'],
    and leaves the identity alone; the text turn appends that record to the
    history, caches it, calls the response callback when one is set and
    hands the apology to the speech output. *)
Theorem service_failure_is_a_response (cfg : config.t) (srv : RAG.service)
    (q : pystr) (st : AssistantManager.t) :
  q <> [] ->
  NLPProcessor._detect_command_intent q = None ->
  transport_or_parse_failure
    (srv (payload_of cfg (AssistantManager.nlp_processor st) q)) = true ->
  let nlp := AssistantManager.nlp_processor st in
  let r := NLPProcessor.process_query cfg srv q nlp in
  let record := value_of r in
  let turn := AssistantManager.process_text_input cfg srv q st in
  (success record = false
   /\ response record = apology
   /\ (exists e, error record = Some e /\ e <> [])
   /\ is_command record = false
   /\ query record = q
   /\ state_of r = nlp
   /\ events_of r = [HttpPost (payload_of cfg nlp q)])
  /\ AssistantManager.conversation_history (state_of turn)
     = AssistantManager.conversation_history st
       ++ [History.mk q record (NLPProcessor.user_name nlp)
             (NLPProcessor.user_type nlp)]
  /\ AssistantManager.last_response (state_of turn) = Some record
  /\ (AssistantManager.on_response_callback st = true ->
      In (OnResponse record) (events_of turn))
  /\ In (TtsSpeak apology) (events_of turn).
Proof.
  intros Hq Hd Hf nlp r record turn.
  subst turn; rewrite (process_text_input_run cfg srv st Hq).
  fold nlp; fold r; fold record.
  assert (Hr : r = (record, nlp, [HttpPost (payload_of cfg nlp q)])
               /\ success record = false /\ response record = apology
               /\ (exists e, error record = Some e /\ e <> [])
               /\ is_command record = false /\ query record = q).
  { subst record r; rewrite (process_query_free_form cfg srv nlp Hq Hd).
    fold nlp in Hf.
    destruct (srv (payload_of cfg nlp q)); try discriminate;
      cbn [value_of fst]; repeat split; eexists; (split; [reflexivity|]);
      discriminate. }
  destruct Hr as (Er & Hs & Hresp & He & Hc & Hqr).
  assert (Es : state_of r = nlp) by now rewrite Er.
  repeat split; auto.
  - now rewrite Er.
  - cbn [state_of fst snd after_turn AssistantManager.conversation_history].
    now rewrite Es.
  - intros Hcb; cbn [events_of snd]. unfold turn_events; rewrite Hcb.
    apply in_or_app; right; apply in_or_app; right; now left.
  - cbn [events_of snd]. unfold turn_events; rewrite Hresp.
    apply in_or_app; right; apply in_or_app; right; apply in_or_app; right;
      now left.
Qed.

(** A concrete failing call: the turn still ends in a spoken apology. *)
Lemma service_failure_witness :
  let q := py "what time is it" in
  q <> []
  /\ NLPProcessor._detect_command_intent q = None
  /\ success (value_of (NLPProcessor.process_query config.defaults failing_service q
                          (AssistantManager.nlp_processor observed))) = false
  /\ In (TtsSpeak apology)
       (events_of (AssistantManager.process_text_input config.defaults
                     failing_service q observed)).
Proof.
  intros q.
  assert (Hq : q <> []) by discriminate.
  assert (Hd : NLPProcessor._detect_command_intent q = None)
    by (vm_compute; reflexivity).
  assert (Hf : transport_or_parse_failure
                 (failing_service
                    (payload_of config.defaults
                       (AssistantManager.nlp_processor observed) q)) = true)
    by reflexivity.
  destruct (@service_failure_is_a_response config.defaults failing_service
              q observed Hq Hd Hf) as ((Hs & _) & _ & _ & _ & Hspeak).
  repeat split; assumption.
Defined.

(** ** Empty and blank text *)

(** Text of three spaces is empty after trimming, yet the turn runs: the
    answer service is called, a record is cached, the history grows. *)
Lemma blank_text_is_processed :
  let turn := AssistantManager.process_text_input config.defaults
                answering_service (py "   ") fresh in
  strip (py "   ") = []
  /\ AssistantManager.conversation_history fresh = []
  /\ List.length (AssistantManager.conversation_history (state_of turn)) = 1
  /\ AssistantManager.last_response (state_of turn) <> None
  /\ events_of turn
     = [HttpPost (RAG.mkPayload (py "User") (py "student") (py "   ") None);
        TtsSpeak (py "It is noon.")].
Proof.
  vm_compute; repeat split; try reflexivity; intros H; discriminate H.
Qed.

(** C3, amended. The guard of a text turn is on the empty string alone: the
    empty text changes nothing and reaches no collaborator; every other
    text, blank or not, goes through the whole pipeline: the query and the
    record are cached, one entry is appended to the history, and the
    record's text is handed to the speech output last. *)
Theorem text_turn_guard (cfg : config.t) (srv : RAG.service)
    (text : pystr) (st : AssistantManager.t) :
  let r := NLPProcessor.process_query cfg srv text
             (AssistantManager.nlp_processor st) in
  let turn := AssistantManager.process_text_input cfg srv text st in
  match text with
  | [] => turn = (tt, st, [])
  | _ :: _ =>
      turn = (tt, after_turn st text (value_of r) (state_of r),
              events_of r ++ turn_events st (value_of r) (state_of r))
      /\ AssistantManager.last_query (state_of turn) = Some text
      /\ AssistantManager.last_response (state_of turn) = Some (value_of r)
      /\ List.length (AssistantManager.conversation_history (state_of turn))
         = S (List.length (AssistantManager.conversation_history st))
      /\ exists before,
           events_of turn = before ++ [TtsSpeak (response (value_of r))]
  end.
Proof.
  intros r turn; destruct text as [|c text]; [reflexivity|].
  assert (E : turn = (tt, after_turn st (c :: text) (value_of r) (state_of r),
                      events_of r ++ turn_events st (value_of r) (state_of r))).
  { subst turn r; apply process_text_input_run; discriminate. }
  split; [exact E|]; rewrite E; cbn [state_of events_of fst snd after_turn
    AssistantManager.last_query AssistantManager.last_response
    AssistantManager.conversation_history].
  repeat split.
  - rewrite length_app; simpl; lia.
  - unfold turn_events; eexists; rewrite !app_assoc; reflexivity.
Qed.

(** ** The repeat command *)

Lemma process_query_repeat (cfg : config.t) (srv : RAG.service)
    (nlp : NLPProcessor.t) :
  NLPProcessor.process_query cfg srv (py "repeat") nlp
  = (repeat_record (py "repeat"), nlp, []).
Proof. reflexivity. Qed.

(** C4, at the failing input. The utterance "repeat" on a fresh manager, and
    after one answered question: each time a new entry is appended and the
    text that is spoken is the acknowledgement, not the fixed message and not
    the last answer. The record of the turn replaces the cached answer, so
    the answer that [repeat_last_response] would have spoken before the turn
    is lost to it after the turn. *)
Lemma repeat_utterance_is_a_turn :
  let ack := py "I'll repeat my last response." in
  let first := AssistantManager.process_text_input config.defaults
                 answering_service (py "repeat") fresh in
  let asked := state_of (AssistantManager.process_text_input config.defaults
                           answering_service (py "what time is it") fresh) in
  let second := AssistantManager.process_text_input config.defaults
                  answering_service (py "repeat") asked in
  (AssistantManager.conversation_history fresh = []
   /\ List.length (AssistantManager.conversation_history (state_of first)) = 1
   /\ events_of first = [TtsSpeak ack]
   /\ ack <> nothing_said)
  /\ (option_map response (AssistantManager.last_response asked)
      = Some (py "It is noon.")
      /\ List.length (AssistantManager.conversation_history asked) = 1
      /\ List.length (AssistantManager.conversation_history (state_of second)) = 2
      /\ events_of second = [TtsSpeak ack]
      /\ ack <> py "It is noon.")
  /\ (option_map should_repeat (AssistantManager.last_response (state_of second))
      = Some true
      /\ events_of (AssistantManager.repeat_last_response fresh)
         = [TtsSpeak nothing_said]
      /\ events_of (AssistantManager.repeat_last_response asked)
         = [TtsSpeak (py "It is noon.")]
      /\ events_of (AssistantManager.repeat_last_response (state_of second))
         = [TtsSpeak ack]).
Proof.
  cbv zeta; split; [|split].
  - split; [reflexivity|]; split; [vm_compute; reflexivity|].
    split; [vm_compute; reflexivity|].
    intros H; vm_compute in H; discriminate H.
  - split; [vm_compute; reflexivity|]; split; [vm_compute; reflexivity|].
    split; [vm_compute; reflexivity|]; split; [vm_compute; reflexivity|].
    intros H; vm_compute in H; discriminate H.
  - split; [vm_compute; reflexivity|]; split; [vm_compute; reflexivity|].
    split; vm_compute; reflexivity.
Qed.

(** The two repeat paths, in every state. The utterance "repeat" is handled
    as a command turn like any other: its record carries the acknowledgement
    and [should_repeat], which no method of the manager reads, and the turn
    caches the record and appends it to the history. The sibling operation
    [repeat_last_response] does what the acknowledgement announces: it
    appends nothing and changes nothing but the speaking flag, and hands the
    cached record's text to the speech output verbatim, or the fixed message
    when there is no cached record. *)
Theorem repeat_command (cfg : config.t) (srv : RAG.service)
    (st : AssistantManager.t) :
  let nlp := AssistantManager.nlp_processor st in
  let record := repeat_record (py "repeat") in
  let turn := AssistantManager.process_text_input cfg srv (py "repeat") st in
  let again := AssistantManager.repeat_last_response st in
  (intent_of (NLPProcessor._detect_command_intent (py "repeat")) = Some (py "repeat")
   /\ value_of (NLPProcessor.process_query cfg srv (py "repeat") nlp) = record
   /\ response record = py "I'll repeat my last response."
   /\ should_repeat record = true
   /\ is_command record = true)
  /\ (AssistantManager.conversation_history (state_of turn)
      = AssistantManager.conversation_history st
        ++ [History.mk (py "repeat") record (NLPProcessor.user_name nlp)
              (NLPProcessor.user_type nlp)]
      /\ AssistantManager.last_response (state_of turn) = Some record)
  /\ (state_of again = AssistantManager.set_is_speaking true st
      /\ AssistantManager.conversation_history (state_of again)
         = AssistantManager.conversation_history st
      /\ events_of again
         = [TtsSpeak (match AssistantManager.last_response st with
                      | Some last => response last
                      | None => nothing_said
                      end)]).
Proof.
  intros nlp record turn again.
  split; [|split].
  - repeat split.
  - subst turn.
    rewrite process_text_input_run by discriminate.
    fold nlp; rewrite process_query_repeat.
    split; reflexivity.
  - subst again; unfold AssistantManager.repeat_last_response,
      AssistantManager._speak_response; unfold_monad.
    destruct (AssistantManager.last_response st); repeat split.
Qed.

(** ** Setting the identity *)

(** A type outside the two values, sent where the current type is student:
    the caller gets what an accepted update to student returns, the same
    state and the same call of the change callback, so nothing tells the
    rejection from a success. *)
Lemma invalid_type_is_not_reported :
  let bad := AssistantManager.set_user_info None (Some (py "admin")) observed in
  let good := AssistantManager.set_user_info None (Some (py "student")) observed in
  valid_user_type (py "admin") = false
  /\ bad = good
  /\ value_of bad = tt
  /\ events_of bad = [OnUserInfoChange (py "User") (py "student")].
Proof.
  vm_compute; repeat split.
Qed.

Lemma set_user_info_type (new_name new_type : option pystr)
    (st : AssistantManager.t) :
  let st' := state_of (AssistantManager.set_user_info new_name new_type st) in
  AssistantManager.user_type st'
  = match new_type with
    | Some ty => if truthy ty && valid_user_type ty
                 then ty else AssistantManager.user_type st
    | None => AssistantManager.user_type st
    end
  /\ NLPProcessor.user_type (AssistantManager.nlp_processor st')
     = match new_type with
       | Some ty => if truthy ty && valid_user_type ty
                    then ty
                    else NLPProcessor.user_type (AssistantManager.nlp_processor st)
       | None => NLPProcessor.user_type (AssistantManager.nlp_processor st)
       end
  /\ AssistantManager.user_name st'
     = match new_name with
       | Some n => if truthy n then n else AssistantManager.user_name st
       | None => AssistantManager.user_name st
       end.
Proof.
  unfold AssistantManager.set_user_info, valid_user_type; unfold_monad.
  destruct st as [nlp sr li sp lq lr h un ut c1 c2 c3 c4 c5 c6].
  destruct new_name as [[|a n]|], new_type as [[|b ty]|]; simpl;
    try (destruct (str_eqb (b :: ty) (py "staff") || str_eqb (b :: ty) (py "student")));
    simpl; destruct c6; simpl; repeat split.
Qed.

(** C5, amended. Setting name Alice and type student, then reading the
    identity, gives exactly (Alice, student). A type outside staff and
    student is not stored: with no name given the whole state is unchanged,
    and with a name only the name changes. The call returns nothing in every
    case, and when the change callback is set it is still called, with the
    identity as it stands. So [set_user_info] never takes the type out of
    the two values. *)
Theorem set_user_info_round_trip (new_name new_type : option pystr)
    (st : AssistantManager.t) :
  value_of (AssistantManager.get_user_info
              (state_of (AssistantManager.set_user_info
                           (Some (py "Alice")) (Some (py "student")) st)))
  = (py "Alice", py "student")
  /\ (forall ty,
        valid_user_type ty = false ->
        state_of (AssistantManager.set_user_info None (Some ty) st) = st
        /\ AssistantManager.user_type
             (state_of (AssistantManager.set_user_info new_name (Some ty) st))
           = AssistantManager.user_type st
        /\ value_of (AssistantManager.set_user_info new_name (Some ty) st) = tt
        /\ (ty <> [] ->
            AssistantManager.on_user_info_change_callback st = true ->
            events_of (AssistantManager.set_user_info None (Some ty) st)
            = [OnUserInfoChange (AssistantManager.user_name st)
                 (AssistantManager.user_type st)]))
  /\ (valid_user_type (AssistantManager.user_type st) = true ->
      valid_user_type
        (AssistantManager.user_type
           (state_of (AssistantManager.set_user_info new_name new_type st)))
      = true).
Proof.
  split; [|split].
  - destruct st as [? ? ? ? ? ? ? ? ? ? ? ? ? ? c6]; destruct c6; reflexivity.
  - intros ty Hty. repeat split.
    + unfold AssistantManager.set_user_info; unfold_monad.
      unfold valid_user_type in Hty.
      destruct st as [? ? ? ? ? ? ? ? ? ? ? ? ? ? c6], ty; simpl; [reflexivity|].
      rewrite Hty; destruct c6; reflexivity.
    + destruct (set_user_info_type new_name (Some ty) st) as (E & _).
      rewrite E, Hty, andb_false_r; reflexivity.
    + now destruct (value_of _).
    + intros Hne Hcb.
      unfold AssistantManager.set_user_info; unfold_monad.
      unfold valid_user_type in Hty.
      destruct st, ty; [congruence|]; simpl in *.
      rewrite Hty, Hcb; reflexivity.
  - intros Hv.
    destruct (set_user_info_type new_name new_type st) as (E & _); rewrite E.
    destruct new_type as [ty|]; [|exact Hv].
    destruct (truthy ty && valid_user_type ty) eqn:Ht; [|exact Hv].
    now apply andb_true_iff in Ht.
Qed.

(** ** The set-user-type command *)

Lemma process_query_staff (cfg : config.t) (srv : RAG.service)
    (nlp : NLPProcessor.t) :
  state_of (NLPProcessor.process_query cfg srv (py "i am a staff") nlp)
  = NLPProcessor.set_user_type (py "staff") nlp
  /\ events_of (NLPProcessor.process_query cfg srv (py "i am a staff") nlp) = []
  /\ user_type_changed
       (value_of (NLPProcessor.process_query cfg srv (py "i am a staff") nlp))
     = true.
Proof. repeat split. Qed.

(** "i am a staff", said twice to a manager with all callbacks set: the
    first turn calls the change callback, the second, with the type at staff
    already, does not. *)
Lemma staff_again_fires_nothing :
  let turn1 := AssistantManager.process_text_input config.defaults
                 answering_service (py "i am a staff") observed in
  let turn2 := AssistantManager.process_text_input config.defaults
                 answering_service (py "i am a staff") (state_of turn1) in
  AssistantManager.on_user_info_change_callback (state_of turn1) = true
  /\ AssistantManager.user_type (state_of turn1) = py "staff"
  /\ filter is_user_info_change (events_of turn1)
     = [OnUserInfoChange (py "User") (py "staff")]
  /\ AssistantManager.user_type (state_of turn2) = py "staff"
  /\ filter is_user_info_change (events_of turn2) = [].
Proof.
  vm_compute; repeat split.
Qed.

(** C6, amended. "i am a staff" matches the set_user_type pattern and leaves
    the type at staff, in the processor and in the manager. The change
    callback is called, when it is set, exactly if the manager's copy of the
    identity differed from the processor's after the command, that is, if
    the type was not staff already (or the names had diverged). "i am a
    teacher" matches no pattern: the turn starts with the request to the
    answer service and the processor's identity stays as it was. *)
Theorem set_user_type_command (cfg : config.t) (srv : RAG.service)
    (st : AssistantManager.t) :
  let nlp := AssistantManager.nlp_processor st in
  let staff := AssistantManager.process_text_input cfg srv (py "i am a staff") st in
  let teacher := AssistantManager.process_text_input cfg srv (py "i am a teacher") st in
  (intent_of (NLPProcessor._detect_command_intent (py "i am a staff"))
   = Some (intent_key SetUserType)
   /\ AssistantManager.user_type (state_of staff) = py "staff"
   /\ NLPProcessor.user_type (AssistantManager.nlp_processor (state_of staff))
      = py "staff"
   /\ filter is_user_info_change (events_of staff)
      = if (negb (str_eqb (AssistantManager.user_name st) (NLPProcessor.user_name nlp))
            || negb (str_eqb (AssistantManager.user_type st) (py "staff")))
           && AssistantManager.on_user_info_change_callback st
        then [OnUserInfoChange (NLPProcessor.user_name nlp) (py "staff")]
        else [])
  /\ (NLPProcessor._detect_command_intent (py "i am a teacher") = None
      /\ (exists rest_,
            events_of teacher
            = HttpPost (payload_of cfg nlp (py "i am a teacher")) :: rest_)
      /\ AssistantManager.nlp_processor (state_of teacher) = nlp).
Proof.
  intros nlp staff teacher; split.
  - subst staff; rewrite process_text_input_run by discriminate.
    fold nlp.
    destruct (process_query_staff cfg srv nlp) as (Es & Ee & _).
    rewrite Es, Ee.
    repeat split.
    cbn [events_of snd app]; unfold turn_events, user_info_differs.
    cbn [NLPProcessor.set_user_type NLPProcessor.user_name NLPProcessor.user_type].
    destruct (_ && AssistantManager.on_user_info_change_callback st);
      destruct (AssistantManager.on_response_callback st); reflexivity.
  - assert (Hd : NLPProcessor._detect_command_intent (py "i am a teacher") = None)
      by (vm_compute; reflexivity).
    subst teacher; rewrite process_text_input_run by discriminate.
    fold nlp.
    rewrite (process_query_free_form cfg srv nlp) by (discriminate || exact Hd).
    repeat split; auto.
    eexists; reflexivity.
Qed.

(** ** One listening turn at a time *)

Lemma after_recognition_text (cfg : config.t) (srv : RAG.service)
    (c : codepoint) (text : pystr) :
  AssistantManager.after_recognition cfg srv (Some (c :: text))
  = AssistantManager.process_text_input cfg srv (c :: text).
Proof. reflexivity. Qed.

Lemma after_recognition_idle (cfg : config.t) (srv : RAG.service)
    (heard : option pystr) (st : AssistantManager.t) :
  AssistantManager.is_listening st = false ->
  AssistantManager.is_listening
    (state_of (AssistantManager.after_recognition cfg srv heard st)) = false.
Proof.
  intros Hl; destruct heard as [[|c text]|]; try reflexivity.
  rewrite after_recognition_text, process_text_input_run by discriminate.
  exact Hl.
Qed.

Lemma listen_and_respond_run (st : AssistantManager.t) :
  AssistantManager.listen_and_respond st
  = (tt, st, if AssistantManager.is_listening st then [] else [ThreadStart]).
Proof.
  unfold AssistantManager.listen_and_respond; unfold_monad.
  destruct (AssistantManager.is_listening st); reflexivity.
Qed.

Lemma bind_state {S A B : Type} (c : M S A) (f : A -> M S B) (s : S) :
  state_of (bind c f s) = state_of (f (value_of (c s)) (state_of (c s))).
Proof. now rewrite bind_run. Qed.

(** However listening ends, the thread leaves the listening flag cleared. *)
Lemma listening_over (cfg : config.t) (srv : RAG.service)
    (w : listen_outcome) (st : AssistantManager.t) :
  AssistantManager.is_listening
    (state_of
       (bind (SpeechRecognizer.after_listen
                AssistantManager.set_speech_recognizer
                (Some AssistantManager._on_listening_end) w)
          (AssistantManager.after_recognition cfg srv) st)) = false.
Proof.
  rewrite bind_state.
  set (X := SpeechRecognizer.after_listen _ _ _ st).
  assert (E : match value_of X with
              | Some (_ :: _) => AssistantManager.is_listening (state_of X) = false
              | _ => True
              end).
  { subst X; unfold SpeechRecognizer.after_listen, SpeechRecognizer.call,
      AssistantManager._on_listening_end; unfold_monad.
    destruct st as [? ? ? ? ? ? ? ? ? ? c2]; simpl.
    destruct w as [|[[|c text]| |e]]; simpl; destruct c2; simpl; auto. }
  destruct (value_of X) as [[|c text]|]; try reflexivity.
  now apply after_recognition_idle.
Qed.

(** A thread that does not block (the recognizer is busy, or the microphone
    does not open) ends with the listening flag cleared. *)
Lemma thread_done_idle (cfg : config.t) (srv : RAG.service) (mic_ok : bool)
    (st : AssistantManager.t) :
  let thread := AssistantManager._listen_and_respond_thread cfg srv mic_ok st in
  match value_of thread with
  | Done _ => AssistantManager.is_listening (state_of thread) = false
  | Listening _ => True
  end.
Proof.
  unfold AssistantManager._listen_and_respond_thread,
    SpeechRecognizer.recognize_from_microphone,
    AssistantManager._on_listening_start, SpeechRecognizer.call.
  destruct st as [nlp [b] li sp lq lr h un ut c1 c2 c3 c4 c5 c6].
  unfold_monad; simpl.
  destruct b, mic_ok; simpl; try destruct c1; simpl; auto.
Qed.

(** The thread of an accepted request, with an idle recognizer and a
    microphone that opens, blocks with both flags raised. *)
Lemma thread_blocks (cfg : config.t) (srv : RAG.service)
    (st : AssistantManager.t) :
  SpeechRecognizer.is_listening (AssistantManager.speech_recognizer st) = false ->
  AssistantManager._listen_and_respond_thread cfg srv true st
  = (Listening (thread_resume cfg srv),
     AssistantManager.set_speech_recognizer (SpeechRecognizer.mk true)
       (AssistantManager.set_is_listening true st),
     MicOpen :: if AssistantManager.on_listening_start_callback st
                then [OnListeningStart] else []).
Proof.
  intros Hsr.
  unfold AssistantManager._listen_and_respond_thread,
    SpeechRecognizer.recognize_from_microphone,
    AssistantManager._on_listening_start, SpeechRecognizer.call.
  destruct st as [nlp [b] li sp lq lr h un ut c1 c2 c3 c4 c5 c6].
  simpl in Hsr; subst b.
  unfold_monad; simpl; destruct c1; reflexivity.
Qed.

(** A thread that ends without blocking. *)
Lemma thread_ends (cfg : config.t) (srv : RAG.service) (mic_ok : bool)
    (st : AssistantManager.t) :
  (if SpeechRecognizer.is_listening (AssistantManager.speech_recognizer st)
   then true else negb mic_ok) = true ->
  AssistantManager._listen_and_respond_thread cfg srv mic_ok st
  = (Done tt,
     if SpeechRecognizer.is_listening (AssistantManager.speech_recognizer st)
     then AssistantManager.set_is_listening false st
     else listening_cleared st,
     if SpeechRecognizer.is_listening (AssistantManager.speech_recognizer st)
     then [] else [MicOpen]).
Proof.
  unfold AssistantManager._listen_and_respond_thread,
    SpeechRecognizer.recognize_from_microphone,
    AssistantManager._on_listening_start, SpeechRecognizer.call.
  destruct st as [nlp [b] li sp lq lr h un ut c1 c2 c3 c4 c5 c6].
  unfold_monad; simpl.
  destruct b, mic_ok; simpl; intros H; try discriminate; reflexivity.
Qed.

Lemma thread_resume_text (cfg : config.t) (srv : RAG.service)
    (c : codepoint) (text : pystr) (st : AssistantManager.t) :
  thread_resume cfg srv (Audio (Text (c :: text))) st
  = (tt,
     state_of (AssistantManager.process_text_input cfg srv (c :: text)
                 (listening_cleared st)),
     (if AssistantManager.on_listening_end_callback st
      then [OnListeningEnd] else [])
     ++ events_of (AssistantManager.process_text_input cfg srv (c :: text)
                     (listening_cleared st))).
Proof.
  unfold thread_resume, SpeechRecognizer.after_listen, SpeechRecognizer.call,
    AssistantManager._on_listening_end.
  rewrite !bind_run.
  assert (E : forall (X : unit * AssistantManager.t * list event),
             (value_of X, state_of X, events_of X) = X)
    by (intros [[[] ?] ?]; reflexivity).
  destruct st as [nlp sr li sp lq lr h un ut c1 c2 c3 c4 c5 c6].
  unfold AssistantManager.fire, gets, modify, ret, when, emit.
  destruct c2; cbn -[AssistantManager.after_recognition
                      AssistantManager.process_text_input];
    rewrite after_recognition_text;
    match goal with
    | |- (value_of ?X, _, _) = _ => destruct (value_of X)
    end; reflexivity.
Qed.

Lemma thread_resume_nothing (cfg : config.t) (srv : RAG.service)
    (w : listen_outcome) (st : AssistantManager.t) :
  nothing_heard w = true ->
  thread_resume cfg srv w st
  = (tt, listening_cleared st,
     match w with
     | Audio _ => if AssistantManager.on_listening_end_callback st
                  then [OnListeningEnd] else []
     | WaitTimeoutError => []
     end).
Proof.
  intros Hw.
  unfold thread_resume, SpeechRecognizer.after_listen, SpeechRecognizer.call,
    AssistantManager._on_listening_end, AssistantManager.after_recognition.
  destruct st as [nlp sr li sp lq lr h un ut c1 c2 c3 c4 c5 c6].
  unfold_monad.
  destruct w as [|[[|c text]| |e]]; try discriminate; simpl;
    try destruct c2; reflexivity.
Qed.









(** Two requests and a third, on a manager with all callbacks set: the first
    starts a thread, which waits for speech; the second, meanwhile, does
    nothing; when the speech has been answered the third starts a thread. *)
Example listening_scenario :
  let first := AssistantManager.listen_and_respond observed in
  let thread := AssistantManager._listen_and_respond_thread config.defaults
                  answering_service true (state_of first) in
  let second := AssistantManager.listen_and_respond (state_of thread) in
  events_of first = [ThreadStart]
  /\ events_of thread = [MicOpen; OnListeningStart]
  /\ second = (tt, state_of thread, [])
  /\ match value_of thread with
     | Listening resume =>
         let heard := resume (Audio (Text (py "what time is it"))) (state_of second) in
         events_of heard
         = [OnListeningEnd;
            HttpPost (RAG.mkPayload (py "User") (py "student")
                        (py "what time is it") None);
            OnResponse (NLPProcessor.query_response (py "what time is it")
                          (py "It is noon.") true
                          (Some (RAG.mkRag (py "It is noon.") 0%Q []
                                   (py "what time is it")
                                   (RAG.mkJson (Some (py "It is noon.")) None None)))
                          None);
            TtsSpeak (py "It is noon.")]
         /\ events_of (AssistantManager.listen_and_respond (state_of heard))
            = [ThreadStart]
     | Done _ => False
     end.
Proof.
  vm_compute; repeat split.
Qed.

(** ** The set-user-name command *)

(** C8, at the failing input. "set my name to" followed by two spaces
    matches the set_user_name pattern with a single space in group 2; the
    trimmed name is empty and is stored all the same, in the processor and,
    through the turn, in the manager, and the change callback reports it.
    The sibling path [set_user_info] skips an empty name. *)
Theorem blank_name_is_stored :
  let q := py "set my name to  " in
  let r := NLPProcessor.process_query config.defaults answering_service q
             (AssistantManager.nlp_processor observed) in
  let turn := AssistantManager.process_text_input config.defaults
                answering_service q observed in
  (exists m,
     NLPProcessor._detect_command_intent q = Some (intent_key SetUserName, m)
     /\ group 2 m = py " "
     /\ strip (group 2 m) = [])
  /\ NLPProcessor.user_name (AssistantManager.nlp_processor observed) = py "User"
  /\ NLPProcessor.user_name (state_of r) = []
  /\ user_name_changed (value_of r) = true
  /\ success (value_of r) = true
  /\ AssistantManager.user_name (state_of turn) = []
  /\ In (OnUserInfoChange [] (py "student")) (events_of turn)
  /\ AssistantManager.user_name
       (state_of (AssistantManager.set_user_info (Some []) None observed))
     = py "User".
Proof.
  intros q r turn; split.
  - eexists; split; [vm_compute; reflexivity|]; split; vm_compute; reflexivity.
  - vm_compute; repeat split; auto.
Qed.

(** ** Commands and queries that leave the identity alone *)

Lemma handle_command_frame (intent : pystr) (m : Match) (q : pystr)
    (nlp : NLPProcessor.t) :
  intent <> py "set_user_type" ->
  intent <> py "set_user_name" ->
  state_of (NLPProcessor._handle_command intent m q nlp) = nlp.
Proof.
  intros Ht Hn; unfold NLPProcessor._handle_command.
  apply str_eqb_neq in Ht, Hn; rewrite Ht, Hn.
  repeat match goal with
         | |- context [if str_eqb intent ?s then _ else _] =>
             destruct (str_eqb intent s)
         end; reflexivity.
Qed.

(** The two copies of the identity agree at the start and after every
    operation that writes one of them. *)
Lemma in_sync_reachable (cfg : config.t) (srv : RAG.service)
    (st : AssistantManager.t) :
  in_sync (AssistantManager.init cfg)
  /\ (forall new_name new_type,
        in_sync st ->
        in_sync (state_of (AssistantManager.set_user_info new_name new_type st)))
  /\ (forall text,
        in_sync st ->
        in_sync (state_of (AssistantManager.process_text_input cfg srv text st))).
Proof.
  split; [split; reflexivity|]; split.
  - intros new_name new_type [Hn Ht]; unfold in_sync.
    unfold AssistantManager.set_user_info; unfold_monad.
    destruct st as [nlp sr li sp lq lr h un ut c1 c2 c3 c4 c5 c6]; simpl in *.
    destruct new_name as [[|a n]|], new_type as [[|b ty]|]; simpl;
      try (destruct (str_eqb (b :: ty) (py "staff")
                     || str_eqb (b :: ty) (py "student")));
      simpl; destruct c6; simpl; auto.
  - intros [|c text] Hs; [exact Hs|].
    rewrite process_text_input_run by discriminate.
    split; reflexivity.
Qed.

(** C9. If the utterance is not detected as set_user_type or set_user_name
    (so: help, exit, repeat, get_assistant_name, a free-form query whatever
    the answer service does, or the empty utterance), [process_query] leaves
    the processor's name and type as they were; and a text turn on it leaves
    the manager's name and type as they were whenever these agreed with the
    processor's. *)
Theorem identity_frame (cfg : config.t) (srv : RAG.service) (q : pystr)
    (st : AssistantManager.t) :
  intent_of (NLPProcessor._detect_command_intent q) <> Some (intent_key SetUserType) ->
  intent_of (NLPProcessor._detect_command_intent q) <> Some (intent_key SetUserName) ->
  let nlp := AssistantManager.nlp_processor st in
  let nlp' := state_of (NLPProcessor.process_query cfg srv q nlp) in
  let st' := state_of (AssistantManager.process_text_input cfg srv q st) in
  NLPProcessor.user_name nlp' = NLPProcessor.user_name nlp
  /\ NLPProcessor.user_type nlp' = NLPProcessor.user_type nlp
  /\ AssistantManager.nlp_processor st' = nlp
  /\ (AssistantManager.user_name st = NLPProcessor.user_name nlp ->
      AssistantManager.user_type st = NLPProcessor.user_type nlp ->
      AssistantManager.user_name st' = AssistantManager.user_name st
      /\ AssistantManager.user_type st' = AssistantManager.user_type st).
Proof.
  intros Ht Hn nlp nlp' st'.
  assert (E : nlp' = nlp).
  { subst nlp'; destruct q as [|c q]; [reflexivity|].
    destruct (NLPProcessor._detect_command_intent (c :: q)) as [[i m]|] eqn:Hd.
    - unfold NLPProcessor.process_query; cbn [truthy negb]; rewrite Hd.
      simpl in Ht, Hn.
      apply handle_command_frame; congruence.
    - now rewrite process_query_free_form by (discriminate || exact Hd). }
  assert (Es : q <> [] -> st' = after_turn st q
                 (value_of (NLPProcessor.process_query cfg srv q nlp)) nlp).
  { intros Hq; subst st'; rewrite process_text_input_run by exact Hq.
    fold nlp; fold nlp'; now rewrite E. }
  rewrite E; repeat split.
  - destruct q as [|c q]; [reflexivity|]. now rewrite Es by discriminate.
  - destruct q as [|c q]; [reflexivity|]. rewrite Es by discriminate; now simpl.
  - destruct q as [|c q]; [reflexivity|]. rewrite Es by discriminate; now simpl.
Qed.

(** The frame at "help", on a manager whose name was set to Alice. *)
Lemma identity_frame_witness :
  let st := state_of (AssistantManager.set_user_info (Some (py "Alice")) None observed) in
  let q := py "help" in
  intent_of (NLPProcessor._detect_command_intent q) <> Some (intent_key SetUserType)
  /\ intent_of (NLPProcessor._detect_command_intent q) <> Some (intent_key SetUserName)
  /\ NLPProcessor.user_name
       (state_of (NLPProcessor.process_query config.defaults answering_service q
                    (AssistantManager.nlp_processor st)))
     = py "Alice"
  /\ AssistantManager.nlp_processor
       (state_of (AssistantManager.process_text_input config.defaults
                    answering_service q st))
     = AssistantManager.nlp_processor st.
Proof.
  intros st q.
  assert (Ht : intent_of (NLPProcessor._detect_command_intent q)
               <> Some (intent_key SetUserType)) by (vm_compute; discriminate).
  assert (Hn : intent_of (NLPProcessor._detect_command_intent q)
               <> Some (intent_key SetUserName)) by (vm_compute; discriminate).
  destruct (@identity_frame config.defaults answering_service q st Ht Hn)
    as (H1 & _ & H3 & _).
  repeat split; assumption.
Defined.

(** ** Clearing the history *)

(** C10. [clear_conversation_history] empties the history and both caches
    and touches nothing else; [repeat_last_response] right after it hands
    the fixed message to the speech output, whatever was cached before, and
    its only other effect is the speaking flag. *)
Theorem clear_then_repeat (st : AssistantManager.t) :
  let cleared := state_of (AssistantManager.clear_conversation_history st) in
  let again := AssistantManager.repeat_last_response cleared in
  AssistantManager.conversation_history cleared = []
  /\ AssistantManager.last_query cleared = None
  /\ AssistantManager.last_response cleared = None
  /\ cleared
     = AssistantManager.set_last_response None
         (AssistantManager.set_last_query None
            (AssistantManager.set_conversation_history [] st))
  /\ events_of (AssistantManager.clear_conversation_history st) = []
  /\ again = (tt, AssistantManager.set_is_speaking true cleared,
              [TtsSpeak (py "I haven't said anything yet.")]).
Proof.
  repeat split.
Qed.

(** * Further properties *)

(** ** No utterance matches two entries of the table *)

Lemma chr_test_clash (c1 c2 ch : codepoint) :
  is_ascii_lower c1 = true ->
  is_ascii_lower c2 = true ->
  (c1 =? c2)%N = false ->
  chr_test true c1 ch = true ->
  chr_test true c2 ch = false.
Proof.
  unfold chr_test, is_ascii_lower, sre_equiv.
  intros H1 H2 Hne Ht.
  assert (L1 : sre_lower c1 = c1).
  { unfold sre_lower, is_ascii_upper. split_codepoint c1; solve_codepoint.
    all: apply andb_true_iff in H1 as [A B];
      apply N.leb_le in A; apply N.leb_le in B; lia. }
  assert (L2 : sre_lower c2 = c2).
  { unfold sre_lower, is_ascii_upper. split_codepoint c2; solve_codepoint.
    all: apply andb_true_iff in H2 as [A B];
      apply N.leb_le in A; apply N.leb_le in B; lia. }
  rewrite L1 in Ht; rewrite L2.
  generalize dependent (sre_lower ch); intros x Ht.
  apply andb_true_iff in H1 as [A1 B1]; apply andb_true_iff in H2 as [A2 B2].
  apply N.leb_le in A1, B1, A2, B2. apply N.eqb_neq in Hne.
  apply orb_false_iff; split.
  - apply N.eqb_neq; intros ->.
    rewrite !orb_true_iff, !andb_true_iff, !N.eqb_eq in Ht. lia.
  - rewrite !orb_true_iff, !andb_true_iff, !N.eqb_eq in Ht.
    rewrite !orb_false_iff, !andb_false_iff, !N.eqb_neq. lia.
Qed.

Lemma lit_match_clash (l1 l2 q : pystr) :
  clash l1 l2 = true ->
  is_some (lit_match true l1 q) = true ->
  lit_match true l2 q = None.
Proof.
  revert l2 q; induction l1 as [|c1 l1 IH]; intros [|c2 l2] q Hc Hm;
    try discriminate.
  destruct q as [|ch q]; [reflexivity|].
  cbn [lit_match clash] in *.
  destruct (chr_test true c1 ch) eqn:E1; [|discriminate].
  apply orb_true_iff in Hc as [Hc|Hc].
  - apply andb_true_iff in Hc as [Hc Hne]; apply andb_true_iff in Hc as [H1 H2].
    apply negb_true_iff in Hne.
    now rewrite (chr_test_clash c1 c2 ch H1 H2 Hne E1).
  - destruct (chr_test true c2 ch); [now apply IH | reflexivity].
Qed.

(** A match begins with one of the first literals of the pattern. *)
Lemma rmatch_first_lit (r : regex) :
  forall k st,
    is_some (rmatch true r k st) = true ->
    existsb (fun l => is_some (lit_match true l (rest st))) (first_lits r) = true.
Proof.
  induction r as [ | | s | | r1 IH1 r2 IH2 | r1 IH1 r2 IH2 | n r IH];
    intros k st H; cbn [rmatch first_lits] in *; try reflexivity.
  - cbn [existsb]. destruct (lit_match true s (rest st)); [reflexivity|discriminate].
  - destruct r1; cbn [zero_width]; try (eapply IH1; exact H).
    + cbn [rmatch] in H. destruct (pos st =? 0)%nat; [|discriminate].
      eapply IH2; exact H.
    + cbn [rmatch] in H. destruct (at_eol (rest st)); [|discriminate].
      eapply IH2; exact H.
  - rewrite existsb_app; apply orb_true_iff.
    destruct (rmatch true r1 k st) eqn:E.
    + left; eapply IH1; now rewrite E.
    + right; eapply IH2; exact H.
  - eapply IH; exact H.
Qed.

Lemma heads_clash_excludes (e1 e2 : pystr * pattern) (q : pystr) :
  ignorecase (snd e1) = true ->
  ignorecase (snd e2) = true ->
  heads_clash e1 e2 = true ->
  is_some (pattern_match (snd e2) q) = true ->
  pattern_match (snd e1) q = None.
Proof.
  intros I1 I2 Hc H2.
  destruct (pattern_match (snd e1) q) as [m1|] eqn:E1; [exfalso|reflexivity].
  unfold pattern_match in *; rewrite I1 in E1; rewrite I2 in H2.
  assert (F1 : is_some (rmatch true (rx (snd e1)) (fun st => Some (caps st))
                          (mkCursor 0 q [])) = true)
    by (destruct (rmatch true (rx (snd e1)) _ _); [reflexivity|discriminate]).
  assert (F2 : is_some (rmatch true (rx (snd e2)) (fun st => Some (caps st))
                          (mkCursor 0 q [])) = true)
    by (destruct (rmatch true (rx (snd e2)) _ _); [reflexivity|discriminate]).
  apply rmatch_first_lit in F1, F2; cbn [rest] in F1, F2.
  apply existsb_exists in F1 as (l1 & In1 & M1).
  apply existsb_exists in F2 as (l2 & In2 & M2).
  unfold heads_clash in Hc.
  rewrite forallb_forall in Hc; specialize (Hc l1 In1).
  rewrite forallb_forall in Hc; specialize (Hc l2 In2).
  rewrite (lit_match_clash l1 l2 q Hc M1) in M2; discriminate.
Qed.

Lemma exclusive_detect (table : list (pystr * pattern)) (q intent : pystr)
    (pat : pattern) (m : Match) :
  Forall (fun e => ignorecase (snd e) = true) table ->
  exclusive table = true ->
  In (intent, pat) table ->
  pattern_match pat q = Some m ->
  NLPProcessor.detect_in table q = Some (intent, m).
Proof.
  intros Hic; induction Hic as [|[i p] table Hp Hic IH]; intros Hx Hin Hm;
    [contradiction|].
  cbn [exclusive] in Hx; apply andb_true_iff in Hx as [Hh Hx].
  cbn [NLPProcessor.detect_in].
  destruct Hin as [E|Hin].
  - inversion E; subst; now rewrite Hm.
  - rewrite forallb_forall in Hh; specialize (Hh _ Hin).
    rewrite Forall_forall in Hic; specialize (Hic _ Hin).
    assert (E : pattern_match p q = None).
    { apply (@heads_clash_excludes (i, p) (intent, pat) q Hp Hic Hh).
      cbn [snd]; now rewrite Hm. }
    rewrite E; apply IH; auto.
Qed.

(** X1. An utterance matches the pattern of at most one intent: whichever
    entry of the table matches is the one that [_detect_command_intent]
    returns, so its result does not depend on the order of the table. *)
Theorem matcher_unambiguous (q intent : pystr) (pat : pattern) (m : Match) :
  In (intent, pat) NLPProcessor.command_patterns ->
  pattern_match pat q = Some m ->
  NLPProcessor._detect_command_intent q = Some (intent, m).
Proof.
  apply exclusive_detect.
  - apply command_patterns_ignorecase.
  - vm_compute; reflexivity.
Qed.

(** The last entry of the table, on "who are you". *)
Lemma matcher_unambiguous_witness :
  let pat := compile (Bol @@ Lit (py "what is your name") @@ Eol
                      ||| Bol @@ Lit (py "who are you") @@ Eol)%re true in
  In (py "get_assistant_name", pat) NLPProcessor.command_patterns
  /\ pattern_match pat (py "who are you") = Some (mkMatch (py "who are you") [])
  /\ NLPProcessor._detect_command_intent (py "who are you")
     = Some (py "get_assistant_name", mkMatch (py "who are you") []).
Proof.
  intros pat.
  assert (Hin : In (py "get_assistant_name", pat) NLPProcessor.command_patterns)
    by (simpl; auto 10).
  assert (Hm : pattern_match pat (py "who are you")
               = Some (mkMatch (py "who are you") [])) by reflexivity.
  split; [exact Hin|]; split; [exact Hm|].
  exact (@matcher_unambiguous (py "who are you") (py "get_assistant_name") pat
           (mkMatch (py "who are you") []) Hin Hm).
Defined.

(** ** What the handlers store *)

Lemma detect_entry (q intent : pystr) (m : Match) :
  NLPProcessor._detect_command_intent q = Some (intent, m) ->
  exists pat,
    In (intent, pat) NLPProcessor.command_patterns
    /\ pattern_match pat q = Some m.
Proof.
  intros H; apply detect_in_first in H as (before & pat & rest_ & E & Hm & _).
  exists pat; split; [|exact Hm].
  rewrite E; apply in_or_app; right; now left.
Qed.

Lemma lit_match_rest (ic : bool) (s q r : pystr) :
  lit_match ic s q = Some r -> r = skipn (List.length s) q.
Proof.
  revert q; induction s as [|c s IH]; intros q H; cbn [lit_match] in H.
  - now inversion H.
  - destruct q as [|ch q]; [discriminate|].
    destruct (chr_test ic c ch); [|discriminate].
    cbn [List.length skipn]; now apply IH.
Qed.

Lemma chr_test_ascii (c ch : codepoint) :
  (c <? 128)%N && negb (is_ascii_upper c) = true ->
  (ch <? 128)%N = true ->
  chr_test true c ch = true ->
  chr_lower ch = c.
Proof.
  unfold chr_test, sre_equiv, chr_lower.
  intros Hc Hch Ht.
  apply andb_true_iff in Hc as [Hc Hu]; apply negb_true_iff in Hu.
  apply N.ltb_lt in Hc, Hch.
  assert (Lc : sre_lower c = c).
  { unfold sre_lower; rewrite Hu.
    destruct (N.eqb_spec c 304); [lia|]. destruct (N.eqb_spec c 8490); [lia|].
    reflexivity. }
  assert (Lch : sre_lower ch = if is_ascii_upper ch then (ch + 32)%N else ch).
  { unfold sre_lower. destruct (is_ascii_upper ch); [reflexivity|].
    destruct (N.eqb_spec ch 304); [lia|]. destruct (N.eqb_spec ch 8490); [lia|].
    reflexivity. }
  rewrite Lc, <- Lch in *.
  assert (Hx : (sre_lower ch < 256)%N).
  { rewrite Lch. unfold is_ascii_upper.
    destruct (N.leb_spec 65 ch), (N.leb_spec ch 90); simpl; lia. }
  rewrite !orb_true_iff, !andb_true_iff, !N.eqb_eq in Ht. lia.
Qed.

Lemma lit_match_lower (s r r' : pystr) :
  lower_literal s = true ->
  is_ascii r = true ->
  lit_match true s r = Some r' ->
  lower (firstn (List.length s) r) = s.
Proof.
  revert r; induction s as [|c s IH]; intros r Hs Hr H; [reflexivity|].
  destruct r as [|ch r]; [discriminate|].
  cbn [lit_match lower_literal is_ascii forallb List.length firstn lower map] in *.
  apply andb_true_iff in Hs as [Hc Hs]; apply andb_true_iff in Hr as [Hch Hr].
  destruct (chr_test true c ch) eqn:E; [|discriminate].
  rewrite (chr_test_ascii c ch Hc Hch E).
  f_equal; now apply IH.
Qed.

Lemma is_ascii_skipn (n : nat) (q : pystr) :
  is_ascii q = true -> is_ascii (skipn n q) = true.
Proof.
  revert q; induction n as [|n IH]; intros q H; [exact H|].
  destruct q as [|c q]; [reflexivity|].
  cbn [skipn]; apply IH.
  cbn [is_ascii forallb] in H; now apply andb_true_iff in H as [_ H].
Qed.

(** What a match of the set-user-type pattern captures. *)
Lemma set_user_type_capture (q : pystr) (pat : pattern) (m : Match) :
  In (py "set_user_type", pat) NLPProcessor.command_patterns ->
  pattern_match pat q = Some m ->
  exists lit r',
    In lit [py "staff"; py "student"]
    /\ lit_match true lit (skipn 7 q) = Some r'
    /\ group 1 m = firstn (List.length lit) (skipn 7 q).
Proof.
  intros Hin Hm.
  simpl in Hin.
  repeat (destruct Hin as [Hin|Hin]; [inversion Hin; subst; clear Hin | ]);
    try contradiction.
  revert Hm; unfold pattern_match.
  cbn [rmatch rx ignorecase pos rest caps Nat.eqb].
  destruct (lit_match true (py "i am a ") q) as [r|] eqn:E1; [|discriminate].
  apply lit_match_rest in E1.
  change (List.length (py "i am a ")) with 7 in E1; subst r.
  assert (Hstudent :
    match lit_match true (py "student") (skipn 7 q) with
    | Some rest'0 =>
        if at_eol rest'0
        then Some [(1, (0 + List.length (py "i am a "),
                        0 + List.length (py "i am a ") + List.length (py "student")))]
        else None
    | None => None
    end = Some (m_spans m) ->
    m_string m = q ->
    exists lit r',
      In lit [py "staff"; py "student"]
      /\ lit_match true lit (skipn 7 q) = Some r'
      /\ group 1 m = firstn (List.length lit) (skipn 7 q)).
  { destruct (lit_match true (py "student") (skipn 7 q)) as [r2|] eqn:E3;
      [|discriminate].
    destruct (at_eol r2); [|discriminate].
    intros H Hs; inversion H as [Hsp].
    exists (py "student"), r2; split; [right; left; reflexivity|].
    split; [exact E3|].
    unfold group; rewrite <- Hsp, Hs; reflexivity. }
  destruct (lit_match true (py "staff") (skipn 7 q)) as [r1|] eqn:E2.
  - destruct (at_eol r1).
    + intros H; inversion H; subst; clear H.
      exists (py "staff"), r1; split; [left; reflexivity|].
      split; [exact E2 | reflexivity].
    + destruct (match lit_match true (py "student") (skipn 7 q) with
                | Some _ => _ | None => _ end) eqn:E; [|discriminate].
      intros H; inversion H; subst; clear H. now apply Hstudent.
  - destruct (match lit_match true (py "student") (skipn 7 q) with
              | Some _ => _ | None => _ end) eqn:E; [|discriminate].
    intros H; inversion H; subst; clear H. now apply Hstudent.
Qed.

Lemma handle_set_user_type (m : Match) (q : pystr) (nlp : NLPProcessor.t) :
  state_of (NLPProcessor._handle_command (py "set_user_type") m q nlp)
  = NLPProcessor.set_user_type (lower (group 1 m)) nlp.
Proof. reflexivity. Qed.

Lemma handle_set_user_name (m : Match) (q : pystr) (nlp : NLPProcessor.t) :
  state_of (NLPProcessor._handle_command (py "set_user_name") m q nlp)
  = NLPProcessor.set_user_name (strip (group 2 m)) nlp.
Proof. reflexivity. Qed.

(** The state after [process_query], by the detected intent. *)
Lemma process_query_state (cfg : config.t) (srv : RAG.service) (q : pystr)
    (nlp : NLPProcessor.t) :
  state_of (NLPProcessor.process_query cfg srv q nlp)
  = match NLPProcessor._detect_command_intent q with
    | Some (intent, m) =>
        if str_eqb intent (py "set_user_type")
        then NLPProcessor.set_user_type (lower (group 1 m)) nlp
        else if str_eqb intent (py "set_user_name")
             then NLPProcessor.set_user_name (strip (group 2 m)) nlp
             else nlp
    | None => nlp
    end.
Proof.
  destruct q as [|c q]; [reflexivity|].
  destruct (NLPProcessor._detect_command_intent (c :: q)) as [[i m]|] eqn:Hd.
  - unfold NLPProcessor.process_query; cbn [truthy negb]; rewrite Hd.
    destruct (str_eqb i (py "set_user_type")) eqn:Et.
    + apply str_eqb_eq in Et; subst i; apply handle_set_user_type.
    + destruct (str_eqb i (py "set_user_name")) eqn:En.
      * apply str_eqb_eq in En; subst i; apply handle_set_user_name.
      * apply handle_command_frame; now apply str_eqb_neq.
  - now rewrite process_query_free_form by (discriminate || exact Hd).
Qed.

(** X2. A text turn whose utterance is ASCII never takes the type out of
    staff and student: if the processor's and the manager's type are valid
    before [process_query] and [process_text_input], they are valid after.
    (Without the restriction the long s breaks it, see [detect_long_s].) *)
Theorem user_type_stays_valid (cfg : config.t) (srv : RAG.service) (q : pystr)
    (st : AssistantManager.t) :
  is_ascii q = true ->
  valid_user_type (NLPProcessor.user_type (AssistantManager.nlp_processor st)) = true ->
  valid_user_type (AssistantManager.user_type st) = true ->
  let nlp' := state_of (NLPProcessor.process_query cfg srv q
                          (AssistantManager.nlp_processor st)) in
  let st' := state_of (AssistantManager.process_text_input cfg srv q st) in
  valid_user_type (NLPProcessor.user_type nlp') = true
  /\ valid_user_type (AssistantManager.user_type st') = true
  /\ valid_user_type (NLPProcessor.user_type (AssistantManager.nlp_processor st'))
     = true.
Proof.
  intros Ha Hn Hm nlp' st'.
  assert (H' : valid_user_type (NLPProcessor.user_type nlp') = true).
  { subst nlp'; rewrite process_query_state.
    destruct (NLPProcessor._detect_command_intent q) as [[i m]|] eqn:Hd;
      [|exact Hn].
    destruct (str_eqb i (py "set_user_type")) eqn:Et.
    - apply str_eqb_eq in Et; subst i.
      destruct (detect_entry _ Hd) as (pat & Hin & Hpm).
      destruct (set_user_type_capture q Hin Hpm) as (lit & r' & Hlit & Hl & Hg).
      cbn [NLPProcessor.set_user_type NLPProcessor.user_type].
      rewrite Hg.
      assert (Hll : lower_literal lit = true)
        by (destruct Hlit as [<-|[<-|[]]]; reflexivity).
      rewrite (lit_match_lower lit (skipn 7 q) Hll (is_ascii_skipn 7 q Ha) Hl).
      destruct Hlit as [<-|[<-|[]]]; reflexivity.
    - destruct (str_eqb i (py "set_user_name")); exact Hn. }
  split; [exact H'|].
  subst st'; destruct q as [|c q]; [split; assumption|].
  rewrite process_text_input_run by discriminate.
  split; exact H'.
Qed.

Lemma user_type_stays_valid_witness :
  let q := py "I am a STAFF" in
  is_ascii q = true
  /\ valid_user_type (NLPProcessor.user_type (AssistantManager.nlp_processor observed))
     = true
  /\ valid_user_type (AssistantManager.user_type observed) = true
  /\ valid_user_type
       (AssistantManager.user_type
          (state_of (AssistantManager.process_text_input config.defaults
                       answering_service q observed))) = true.
Proof.
  intros q.
  assert (Ha : is_ascii q = true) by reflexivity.
  assert (Hn : valid_user_type
                 (NLPProcessor.user_type (AssistantManager.nlp_processor observed))
               = true) by reflexivity.
  assert (Hm : valid_user_type (AssistantManager.user_type observed) = true)
    by reflexivity.
  destruct (@user_type_stays_valid config.defaults answering_service q observed
              Ha Hn Hm) as (_ & H & _).
  split; [exact Ha|]; split; [exact Hn|]; split; [exact Hm | exact H].
Defined.

Lemma lstrip_snoc (x : pystr) (c : codepoint) :
  is_space c = false -> lstrip (x ++ [c]) = lstrip x ++ [c].
Proof.
  intros Hc; induction x as [|d x IH]; cbn [lstrip app].
  - now rewrite Hc.
  - destruct (is_space d); [exact IH | reflexivity].
Qed.

Lemma lstrip_head (s : pystr) :
  match lstrip s with
  | [] => True
  | c :: _ => is_space c = false
  end.
Proof.
  induction s as [|d s IH]; cbn [lstrip]; [exact I|].
  destruct (is_space d) eqn:E; [exact IH | exact E].
Qed.

Lemma strip_trimmed (s : pystr) : trimmed (strip s) = true.
Proof.
  unfold strip, rstrip.
  pose proof (lstrip_head s) as Hh.
  destruct (lstrip s) as [|c t]; [reflexivity|].
  cbn [rev]; rewrite (lstrip_snoc _ c Hh), rev_unit.
  cbn [trimmed]; rewrite Hh; cbn [negb andb].
  pose proof (lstrip_head (rev t)) as Ht.
  destruct (lstrip (rev t)) as [|d w]; cbn [rev].
  - cbn [last]; now rewrite Hh.
  - rewrite app_comm_cons, last_last, Ht; reflexivity.
Qed.

(** X3. The name that the set-user-name command stores is the captured text
    stripped, so it has no white space at either end; and whatever the
    utterance, [process_query] leaves a trimmed name trimmed. *)
Theorem stored_name_is_trimmed (cfg : config.t) (srv : RAG.service) (q : pystr)
    (nlp : NLPProcessor.t) :
  let nlp' := state_of (NLPProcessor.process_query cfg srv q nlp) in
  (forall m,
     NLPProcessor._detect_command_intent q = Some (py "set_user_name", m) ->
     NLPProcessor.user_name nlp' = strip (group 2 m)
     /\ trimmed (NLPProcessor.user_name nlp') = true
     /\ NLPProcessor.user_type nlp' = NLPProcessor.user_type nlp)
  /\ (trimmed (NLPProcessor.user_name nlp) = true ->
      trimmed (NLPProcessor.user_name nlp') = true).
Proof.
  intros nlp'; subst nlp'; rewrite process_query_state; split.
  - intros m ->; cbn. repeat split. apply strip_trimmed.
  - intros Ht.
    destruct (NLPProcessor._detect_command_intent q) as [[i m]|]; [|exact Ht].
    destruct (str_eqb i (py "set_user_type")); [exact Ht|].
    destruct (str_eqb i (py "set_user_name")); [apply strip_trimmed | exact Ht].
Qed.

(** ** When the answer service is called *)

Lemma detect_empty : NLPProcessor._detect_command_intent [] = None.
Proof. reflexivity. Qed.

(** The record of a command. *)
Lemma command_record (cfg : config.t) (srv : RAG.service) (q : pystr)
    (nlp : NLPProcessor.t) (i : pystr) (m : Match) :
  NLPProcessor._detect_command_intent q = Some (i, m) ->
  let r := NLPProcessor.process_query cfg srv q nlp in
  success (value_of r) = true
  /\ is_command (value_of r) = true
  /\ intent (value_of r) = Some i
  /\ query (value_of r) = q
  /\ response (value_of r) <> []
  /\ error (value_of r) = None
  /\ events_of r = [].
Proof.
  intros Hd r; subst r.
  destruct q as [|c q]; [rewrite detect_empty in Hd; discriminate|].
  unfold NLPProcessor.process_query; cbn [truthy negb]; rewrite Hd.
  destruct (detect_entry _ Hd) as (pat & Hin & _).
  simpl in Hin.
  repeat (destruct Hin as [Hin|Hin]; [inversion Hin; subst; clear Hin | ]);
    try contradiction;
    (repeat split; [vm_compute; intros H; discriminate H]).
Qed.

(** X4. [process_query] posts to the answer service exactly once when the
    utterance is non-empty and matches no pattern, and not at all otherwise.
    A command is answered locally and always succeeds: it is one of the six
    intents that [_handle_command] knows, so the record has
    [success = True], [is_command = True], the intent, the utterance, a
    non-empty text and no ['error']. *)
Theorem service_called_only_for_queries (cfg : config.t) (srv : RAG.service)
    (q : pystr) (nlp : NLPProcessor.t) :
  let r := NLPProcessor.process_query cfg srv q nlp in
  events_of r
  = (if truthy q && negb (is_some (NLPProcessor._detect_command_intent q))
     then [HttpPost (payload_of cfg nlp q)] else [])
  /\ (forall i m,
        NLPProcessor._detect_command_intent q = Some (i, m) ->
        success (value_of r) = true
        /\ is_command (value_of r) = true
        /\ intent (value_of r) = Some i
        /\ query (value_of r) = q
        /\ response (value_of r) <> []
        /\ error (value_of r) = None).
Proof.
  intros r; subst r; split.
  - destruct q as [|c q]; [reflexivity|].
    destruct (NLPProcessor._detect_command_intent (c :: q)) as [[i m]|] eqn:Hd.
    + cbn [truthy is_some negb andb].
      now destruct (@command_record cfg srv _ nlp _ _ Hd) as (_ & _ & _ & _ & _ & _ & E).
    + now rewrite process_query_free_form by (discriminate || exact Hd).
  - intros i m Hd.
    destruct (@command_record cfg srv _ nlp _ _ Hd) as (H1 & H2 & H3 & H4 & H5 & H6 & _).
    repeat split; assumption.
Qed.

(** ** The caches and the history *)

Lemma record_query (cfg : config.t) (srv : RAG.service) (q : pystr)
    (nlp : NLPProcessor.t) :
  query (value_of (NLPProcessor.process_query cfg srv q nlp)) = q.
Proof.
  destruct q as [|c q]; [reflexivity|].
  destruct (NLPProcessor._detect_command_intent (c :: q)) as [[i m]|] eqn:Hd.
  - now destruct (@command_record cfg srv _ nlp _ _ Hd) as (_ & _ & _ & E & _).
  - rewrite process_query_free_form by (discriminate || exact Hd).
    destruct (srv _); reflexivity.
Qed.

Lemma last_entry_snoc (h : list History.entry) (e : History.entry) :
  last_entry (h ++ [e]) = Some e.
Proof. unfold last_entry; now rewrite rev_unit. Qed.

Lemma coherent_turn (cfg : config.t) (srv : RAG.service) (text : pystr)
    (st : AssistantManager.t) :
  coherent st ->
  coherent (state_of (AssistantManager.process_text_input cfg srv text st)).
Proof.
  intros (Hq & Hr & Hh); destruct text as [|c text]; [now repeat split|].
  rewrite process_text_input_run by discriminate.
  unfold coherent; cbn [state_of fst snd after_turn AssistantManager.last_query
    AssistantManager.last_response AssistantManager.conversation_history].
  rewrite last_entry_snoc; repeat split.
  apply Forall_app; split; [exact Hh|].
  constructor; [|constructor].
  split; cbn [History.query History.response]; [discriminate | apply record_query].
Qed.

Lemma coherent_fields (st st' : AssistantManager.t) :
  AssistantManager.last_query st' = AssistantManager.last_query st ->
  AssistantManager.last_response st' = AssistantManager.last_response st ->
  AssistantManager.conversation_history st'
  = AssistantManager.conversation_history st ->
  coherent st -> coherent st'.
Proof. unfold coherent; intros -> -> ->; auto. Qed.

(** The two steps of a turn, and the fields that the second step writes. *)
Lemma turn_in_two_steps (cfg : config.t) (srv : RAG.service)
    (c : codepoint) (rest : pystr) (st : AssistantManager.t) :
  AssistantManager.process_text_input cfg srv (c :: rest) st
  = (turn_begun (c :: rest) ;; turn_finished cfg srv (c :: rest)) st
  /\ AssistantManager.after_recognition cfg srv (Some (c :: rest)) st
     = (turn_begun (c :: rest) ;; turn_finished cfg srv (c :: rest)) st.
Proof. split; reflexivity. Qed.

Lemma turn_finished_fields (cfg : config.t) (srv : RAG.service)
    (text : pystr) (st : AssistantManager.t) :
  let r := NLPProcessor.process_query cfg srv text
             (AssistantManager.nlp_processor st) in
  let over := state_of (turn_finished cfg srv text st) in
  AssistantManager.last_query over = AssistantManager.last_query st
  /\ AssistantManager.last_response over = Some (value_of r)
  /\ AssistantManager.conversation_history over
     = AssistantManager.conversation_history st
       ++ [History.mk text (value_of r) (NLPProcessor.user_name (state_of r))
             (NLPProcessor.user_type (state_of r))].
Proof.
  intros r over; subst r over.
  unfold turn_finished, AssistantManager.sync_user_info,
    AssistantManager.append_history, AssistantManager._speak_response.
  unfold_monad.
  destruct st as [nlp sr li sp lq lr h un ut c1 c2 c3 c4 c5 c6]; simpl.
  destruct (NLPProcessor.process_query cfg srv text nlp) as [[record nlp'] ev].
  simpl.
  destruct (str_eqb un (NLPProcessor.user_name nlp')) eqn:En;
    destruct (str_eqb ut (NLPProcessor.user_type nlp')) eqn:Et;
    try apply str_eqb_eq in En; try apply str_eqb_eq in Et; subst;
    destruct c5, c6; simpl; repeat split; reflexivity.
Qed.

(** X5. The caches follow the history, for operations that run to their end
    one after the other: in a fresh manager, and after every operation of
    the manager that starts from such a state, [last_query] and
    [last_response] are the utterance and the record of the most recent
    history entry (or [None] when the history is empty), and every entry
    pairs a non-empty utterance with the record made for it. So
    [repeat_last_response] hands the speech output the text of the most
    recent history entry, and the fixed message when the history is empty.
    It is no invariant of the threads: a turn assigns [last_query], blocks in
    the request to the answer service, and assigns [last_response] and
    appends the entry afterwards; a [clear_conversation_history] that runs in
    between leaves [last_query] at [None] beside a cached record and a
    history of one entry. *)
Theorem caches_follow_history (cfg : config.t) (srv : RAG.service)
    (text : pystr) (new_name new_type : option pystr) (mic_ok : bool)
    (w : listen_outcome) (st : AssistantManager.t) :
  coherent (AssistantManager.init cfg)
  /\ (coherent st ->
      coherent (state_of (AssistantManager.process_text_input cfg srv text st))
      /\ coherent (state_of (AssistantManager.set_user_info new_name new_type st))
      /\ coherent (state_of (AssistantManager.clear_conversation_history st))
      /\ coherent (state_of (AssistantManager.repeat_last_response st))
      /\ coherent (state_of (AssistantManager.listen_and_respond st))
      /\ coherent (state_of (AssistantManager._listen_and_respond_thread
                               cfg srv mic_ok st))
      /\ coherent (state_of (thread_resume cfg srv w st))
      /\ coherent (state_of (AssistantManager.stop_speaking st))
      /\ coherent (state_of (AssistantManager._on_speaking_end st))
      /\ events_of (AssistantManager.repeat_last_response st)
         = [TtsSpeak
              match last_entry (AssistantManager.conversation_history st) with
              | Some e => response (History.response e)
              | None => nothing_said
              end])
  /\ (forall c rest,
        let q := c :: rest in
        let cleared := state_of (AssistantManager.clear_conversation_history
                                   (state_of (turn_begun q st))) in
        let torn := state_of (turn_finished cfg srv q cleared) in
        AssistantManager.process_text_input cfg srv q st
        = (turn_begun q ;; turn_finished cfg srv q) st
        /\ AssistantManager.last_query torn = None
        /\ AssistantManager.last_response torn
           = Some (value_of (NLPProcessor.process_query cfg srv q
                               (AssistantManager.nlp_processor st)))
        /\ List.length (AssistantManager.conversation_history torn) = 1
        /\ ~ coherent torn).
Proof.
  split; [repeat split; constructor|].
  split; [intros Hc|].
  2:{ intros c rest q cleared torn.
      split; [apply turn_in_two_steps|].
      destruct (turn_finished_fields cfg srv q cleared) as (Hq & Hr & Hh).
      fold torn in Hq, Hr, Hh.
      assert (Hn : AssistantManager.nlp_processor cleared
                   = AssistantManager.nlp_processor st)
        by (subst cleared; destruct st; reflexivity).
      assert (Hl : AssistantManager.last_query cleared = None)
        by (subst cleared; destruct st; reflexivity).
      assert (He : AssistantManager.conversation_history cleared = [])
        by (subst cleared; destruct st; reflexivity).
      rewrite Hn in Hr, Hh; rewrite He in Hh; rewrite Hl in Hq.
      split; [exact Hq|]; split; [exact Hr|]; split; [now rewrite Hh|].
      intros (Hc & _); rewrite Hq, Hh in Hc; discriminate Hc. }
  split; [now apply coherent_turn|].
  split.
  { revert Hc; apply coherent_fields;
      unfold AssistantManager.set_user_info; unfold_monad;
      destruct st as [nlp sr li sp lq lr h un ut c1 c2 c3 c4 c5 c6];
      destruct new_name as [[|a n]|], new_type as [[|b ty]|]; simpl;
      try (destruct (str_eqb (b :: ty) (py "staff")
                     || str_eqb (b :: ty) (py "student")));
      simpl; destruct c6; reflexivity. }
  split; [repeat split; constructor|].
  split.
  { revert Hc; apply coherent_fields;
      unfold AssistantManager.repeat_last_response,
        AssistantManager._speak_response; unfold_monad;
      destruct st as [nlp sr li sp lq lr h un ut c1 c2 c3 c4 c5 c6];
      simpl; destruct lr; reflexivity. }
  split; [now rewrite listen_and_respond_run|].
  split.
  { destruct (SpeechRecognizer.is_listening (AssistantManager.speech_recognizer st))
      eqn:Eb.
    - rewrite thread_ends by now rewrite Eb.
      rewrite Eb; revert Hc; apply coherent_fields; reflexivity.
    - destruct mic_ok.
      + rewrite thread_blocks by exact Eb.
        revert Hc; apply coherent_fields; reflexivity.
      + rewrite thread_ends by now rewrite Eb.
        rewrite Eb; revert Hc; apply coherent_fields; reflexivity. }
  split.
  { destruct (nothing_heard w) eqn:Ew.
    - rewrite thread_resume_nothing by exact Ew.
      revert Hc; apply coherent_fields; reflexivity.
    - destruct w as [|[[|c t]| |e]]; try discriminate.
      rewrite thread_resume_text.
      apply coherent_turn. revert Hc; apply coherent_fields; reflexivity. }
  split; [revert Hc; apply coherent_fields; reflexivity|].
  split.
  { revert Hc; apply coherent_fields;
      unfold AssistantManager._on_speaking_end; unfold_monad;
      destruct st as [nlp sr li sp lq lr h un ut c1 c2 c3 c4 c5 c6];
      simpl; destruct c4; reflexivity. }
  destruct Hc as (_ & Hr & _).
  unfold AssistantManager.repeat_last_response, AssistantManager._speak_response.
  unfold_monad; rewrite Hr.
  destruct (last_entry _); reflexivity.
Qed.

(** ** The voice turn *)

(** X6. A voice turn that hears a non-empty text is the text turn on that
    text: when listening ends the thread lowers both listening flags, calls
    the end-of-listening callback if it is set, and from there on does
    exactly what [process_text_input] does, state and events alike. *)
Theorem voice_turn_is_text_turn (cfg : config.t) (srv : RAG.service)
    (text : pystr) (st st' : AssistantManager.t) :
  SpeechRecognizer.is_listening (AssistantManager.speech_recognizer st) = false ->
  text <> [] ->
  match value_of (AssistantManager._listen_and_respond_thread cfg srv true st) with
  | Listening resume =>
      let turn := AssistantManager.process_text_input cfg srv text
                    (listening_cleared st') in
      resume (Audio (Text text)) st'
      = (tt, state_of turn,
         (if AssistantManager.on_listening_end_callback st'
          then [OnListeningEnd] else []) ++ events_of turn)
  | Done _ => False
  end.
Proof.
  intros Hsr Ht; rewrite thread_blocks by exact Hsr.
  destruct text as [|c text]; [congruence|].
  cbn [value_of fst]. apply thread_resume_text.
Qed.

Lemma voice_turn_is_text_turn_witness :
  let heard := py "what time is it" in
  SpeechRecognizer.is_listening (AssistantManager.speech_recognizer observed) = false
  /\ heard <> []
  /\ match value_of (AssistantManager._listen_and_respond_thread config.defaults
                       answering_service true observed) with
     | Listening resume =>
         let turn := AssistantManager.process_text_input config.defaults
                       answering_service heard (listening_cleared observed) in
         resume (Audio (Text heard)) observed
         = (tt, state_of turn,
            (if AssistantManager.on_listening_end_callback observed
             then [OnListeningEnd] else []) ++ events_of turn)
     | Done _ => False
     end.
Proof.
  intros heard.
  assert (Hsr : SpeechRecognizer.is_listening
                  (AssistantManager.speech_recognizer observed) = false)
    by reflexivity.
  assert (Ht : heard <> []) by discriminate.
  split; [exact Hsr|]; split; [exact Ht|].
  exact (@voice_turn_is_text_turn config.defaults answering_service heard
           observed observed Hsr Ht).
Defined.

(** X7. A voice turn that hears nothing usable (timeout, speech that is not
    understood, a request error, an empty text), or whose thread ends before
    listening (recognizer busy, microphone not opening), changes nothing but
    the listening flags: no history entry, the caches and the identity as
    they were, no request to the answer service, no response callback,
    nothing handed to the speech output. *)
Theorem voice_turn_without_speech (cfg : config.t) (srv : RAG.service)
    (w : listen_outcome) (mic_ok : bool) (st : AssistantManager.t) :
  (nothing_heard w = true ->
   thread_resume cfg srv w st
   = (tt, listening_cleared st,
      match w with
      | Audio _ => if AssistantManager.on_listening_end_callback st
                   then [OnListeningEnd] else []
      | WaitTimeoutError => []
      end))
  /\ (SpeechRecognizer.is_listening (AssistantManager.speech_recognizer st) = false ->
      AssistantManager._listen_and_respond_thread cfg srv false st
      = (Done tt, listening_cleared st, [MicOpen]))
  /\ (SpeechRecognizer.is_listening (AssistantManager.speech_recognizer st) = true ->
      AssistantManager._listen_and_respond_thread cfg srv mic_ok st
      = (Done tt, AssistantManager.set_is_listening false st, []))
  /\ AssistantManager.conversation_history (listening_cleared st)
     = AssistantManager.conversation_history st
  /\ AssistantManager.last_response (listening_cleared st)
     = AssistantManager.last_response st
  /\ AssistantManager.nlp_processor (listening_cleared st)
     = AssistantManager.nlp_processor st
  /\ AssistantManager.user_name (listening_cleared st) = AssistantManager.user_name st
  /\ AssistantManager.user_type (listening_cleared st) = AssistantManager.user_type st.
Proof.
  split; [apply thread_resume_nothing|].
  split.
  { intros Hsr. rewrite thread_ends by now rewrite Hsr. now rewrite Hsr. }
  split.
  { intros Hsr. rewrite thread_ends by now rewrite Hsr. now rewrite Hsr. }
  repeat split.
Qed.

(** ** The recognizer *)

Section Recognizer.

Variable S : Type.
Variable self_ : S -> SpeechRecognizer.t.
Variable set_self : SpeechRecognizer.t -> S -> S.
Hypothesis self_set : forall v s, self_ (set_self v s) = v.

(** X8. [recognize_from_microphone], for any owner and any callbacks. If
    the recognizer is listening already it returns [None] at once: state
    unchanged, no microphone, no callback. Otherwise the microphone is
    opened; if that fails [None] is returned with the flag lowered; and
    once listening, however it ends the flag is lowered at the end, and a
    text is returned only for speech that was understood. *)
Theorem recognizer_guard_and_flag
    (on_listening_start on_listening_end : option (M S unit))
    (mic_ok : bool) (s : S) :
  let call_ := SpeechRecognizer.recognize_from_microphone self_ set_self
                 on_listening_start on_listening_end mic_ok s in
  (SpeechRecognizer.is_listening (self_ s) = true ->
   call_ = (Done None, s, []))
  /\ (SpeechRecognizer.is_listening (self_ s) = false ->
      (exists rest_, events_of call_ = MicOpen :: rest_)
      /\ match value_of call_ with
         | Done r =>
             mic_ok = false /\ r = None
             /\ SpeechRecognizer.is_listening (self_ (state_of call_)) = false
         | Listening resume =>
             mic_ok = true
             /\ forall w s',
                  SpeechRecognizer.is_listening
                    (self_ (state_of (resume w s'))) = false
                  /\ value_of (resume w s')
                     = match w with
                       | Audio (Text text) => Some text
                       | _ => None
                       end
         end).
Proof.
  intros call_; split.
  - intros Hb; subst call_; unfold SpeechRecognizer.recognize_from_microphone.
    unfold_monad; now rewrite Hb.
  - intros Hb.
    assert (E : call_
      = if mic_ok
        then (Listening (SpeechRecognizer.after_listen set_self on_listening_end),
              state_of (SpeechRecognizer.call on_listening_start
                          (set_self (SpeechRecognizer.mk true) s)),
              MicOpen :: events_of (SpeechRecognizer.call on_listening_start
                                      (set_self (SpeechRecognizer.mk true) s)))
        else (Done None,
              set_self (SpeechRecognizer.mk false)
                (set_self (SpeechRecognizer.mk true) s),
              [MicOpen])).
    { subst call_; unfold SpeechRecognizer.recognize_from_microphone.
      unfold bind at 1; unfold gets; rewrite Hb.
      destruct mic_ok; cbn [negb]; unfold_monad; cbn; [|reflexivity].
      destruct (SpeechRecognizer.call on_listening_start _) as [[[] s1] e1].
      cbn; now rewrite app_nil_r. }
    rewrite E; destruct mic_ok; cbn [value_of state_of events_of fst snd].
    + split; [eexists; reflexivity|]; split; [reflexivity|].
      intros w s'; unfold SpeechRecognizer.after_listen, SpeechRecognizer.call.
      unfold_monad.
      destruct w as [|[t| |e]], on_listening_end as [g|]; cbn;
        try (destruct (g s') as [[[] s2] e2]; cbn);
        rewrite ?self_set; split; reflexivity.
    + split; [eexists; reflexivity|]; repeat split; now rewrite self_set.
Qed.

End Recognizer.

(** The recognizer held by a manager, idle, with a microphone that fails. *)
Lemma recognizer_guard_and_flag_witness :
  (forall v s, AssistantManager.speech_recognizer
                 (AssistantManager.set_speech_recognizer v s) = v)
  /\ value_of (SpeechRecognizer.recognize_from_microphone
                 AssistantManager.speech_recognizer
                 AssistantManager.set_speech_recognizer
                 (Some AssistantManager._on_listening_start)
                 (Some AssistantManager._on_listening_end) false observed)
     = Done None.
Proof.
  assert (L : forall v s, AssistantManager.speech_recognizer
                            (AssistantManager.set_speech_recognizer v s) = v)
    by reflexivity.
  split; [exact L|].
  destruct (@recognizer_guard_and_flag AssistantManager.t
              AssistantManager.speech_recognizer
              AssistantManager.set_speech_recognizer L
              (Some AssistantManager._on_listening_start)
              (Some AssistantManager._on_listening_end) false observed)
    as (_ & H).
  specialize (H eq_refl); destruct H as (_ & H).
  destruct (value_of _) as [r|resume].
  - destruct H as (_ & -> & _); reflexivity.
  - destruct H as (H & _); discriminate H.
Defined.

(** ** The speech output *)

Lemma core_speak_run (text : pystr) (s : Core.t) :
  Core.speak text s
  = (if truthy text && negb (TextToSpeech.is_speaking (Core.text_to_speech s))
     then Some (TextToSpeech._speak_thread Core.text_to_speech
                  Core.set_text_to_speech text
                  (Some (zoom Core.manager Core.set_manager
                           AssistantManager._on_speaking_start))
                  (Some (zoom Core.manager Core.set_manager
                           AssistantManager._on_speaking_end)))
     else None,
     s, []).
Proof.
  unfold Core.speak, TextToSpeech.speak.
  destruct text as [|c text]; [reflexivity|]; cbn [truthy negb andb].
  unfold_monad.
  destruct (TextToSpeech.is_speaking (Core.text_to_speech s)); reflexivity.
Qed.

Lemma core_thread_begin (text : pystr) (s : Core.t) :
  TextToSpeech._speak_thread Core.text_to_speech Core.set_text_to_speech text
    (Some (zoom Core.manager Core.set_manager AssistantManager._on_speaking_start))
    (Some (zoom Core.manager Core.set_manager AssistantManager._on_speaking_end))
    s
  = (TextToSpeech.after_playback Core.text_to_speech Core.set_text_to_speech text
       (Some (zoom Core.manager Core.set_manager AssistantManager._on_speaking_end)),
     Core.set_text_to_speech
       (TextToSpeech.set_is_speaking true (Core.text_to_speech s)) s,
     if AssistantManager.on_speaking_start_callback (Core.manager s)
     then [OnSpeakingStart] else []).
Proof.
  unfold TextToSpeech._speak_thread, TextToSpeech.call,
    AssistantManager._on_speaking_start.
  destruct s as [[nlp sr li sp lq lr h un ut c1 c2 c3 c4 c5 c6] tts].
  unfold_monad; simpl; destruct c3; reflexivity.
Qed.

Lemma core_after_playback (text : pystr) (o : engine_outcome) (s : Core.t) :
  TextToSpeech.after_playback Core.text_to_speech Core.set_text_to_speech text
    (Some (zoom Core.manager Core.set_manager AssistantManager._on_speaking_end))
    o s
  = (tt,
     Core.mk (AssistantManager.set_is_speaking false (Core.manager s))
       (TextToSpeech._cleanup_temp_files
          (TextToSpeech.set_is_speaking false
             (TextToSpeech.engine_speaks text o (Core.text_to_speech s)))),
     if AssistantManager.on_speaking_end_callback (Core.manager s)
     then [OnSpeakingEnd] else []).
Proof.
  unfold TextToSpeech.after_playback, TextToSpeech.call,
    AssistantManager._on_speaking_end.
  destruct s as [[nlp sr li sp lq lr h un ut c1 c2 c3 c4 c5 c6] tts].
  unfold_monad; simpl; destruct c4; reflexivity.
Qed.

Lemma core_run_speak_response (text : pystr) (s : Core.t) :
  Core.run (AssistantManager._speak_response text) s
  = (tt,
     if truthy text && negb (TextToSpeech.is_speaking (Core.text_to_speech s))
     then [TextToSpeech._speak_thread Core.text_to_speech
             Core.set_text_to_speech text
             (Some (zoom Core.manager Core.set_manager
                      AssistantManager._on_speaking_start))
             (Some (zoom Core.manager Core.set_manager
                      AssistantManager._on_speaking_end))]
     else [],
     Core.set_manager (AssistantManager.set_is_speaking true (Core.manager s)) s,
     [TtsSpeak text]).
Proof.
  unfold Core.run, AssistantManager._speak_response.
  unfold bind at 1; unfold modify at 1; unfold emit at 1.
  cbn [Core.speak_requests flat_map app Core.speak_all].
  unfold bind at 1; rewrite core_speak_run.
  cbn [Core.text_to_speech Core.set_manager].
  destruct (truthy text && negb _); reflexivity.
Qed.

(** X9. One spoken response, from the request to the end of the playback.
    For a non-empty text and an engine that is not speaking,
    [_speak_response] raises the manager's speaking flag and starts one
    playback thread. The thread raises the engine's flag and calls the start
    callback; while it plays, every further request to speak is dropped.
    When the engine returns, whether or not the playback went through, both
    speaking flags are lowered, the end callback is called and the list of
    temporary files is empty. *)
Theorem playback_round_trip (text other : pystr) (o : engine_outcome)
    (s : Core.t) :
  text <> [] ->
  TextToSpeech.is_speaking (Core.text_to_speech s) = false ->
  let request := Core.run (AssistantManager._speak_response text) s in
  exists thread,
    fst (value_of request) = tt
    /\ snd (value_of request) = [thread]
    /\ AssistantManager.is_speaking (Core.manager (state_of request)) = true
    /\ events_of request = [TtsSpeak text]
    /\ let playing := thread (state_of request) in
       TextToSpeech.is_speaking (Core.text_to_speech (state_of playing)) = true
       /\ events_of playing
          = (if AssistantManager.on_speaking_start_callback (Core.manager s)
             then [OnSpeakingStart] else [])
       /\ Core.speak other (state_of playing) = (None, state_of playing, [])
       /\ let over := value_of playing o (state_of playing) in
          AssistantManager.is_speaking (Core.manager (state_of over)) = false
          /\ TextToSpeech.is_speaking (Core.text_to_speech (state_of over)) = false
          /\ TextToSpeech.temp_files (Core.text_to_speech (state_of over)) = []
          /\ events_of over
             = (if AssistantManager.on_speaking_end_callback (Core.manager s)
                then [OnSpeakingEnd] else [])
          /\ AssistantManager.conversation_history (Core.manager (state_of over))
             = AssistantManager.conversation_history (Core.manager s).
Proof.
  intros Ht Hidle request; subst request.
  rewrite core_run_speak_response, Hidle.
  destruct text as [|c text]; [congruence|]; cbn [truthy negb andb].
  eexists; cbn [value_of state_of events_of fst snd].
  split; [reflexivity|]; split; [reflexivity|]; split; [reflexivity|].
  split; [reflexivity|].
  rewrite core_thread_begin; cbn [value_of state_of events_of fst snd].
  split; [reflexivity|]; split; [reflexivity|].
  split.
  { rewrite core_speak_run; cbn.
    now rewrite andb_false_r. }
  rewrite core_after_playback; cbn [value_of state_of events_of fst snd].
  repeat split.
Qed.

Lemma playback_round_trip_witness :
  let s := Core.mk observed (TextToSpeech.init (py "gTTS")) in
  let text := py "It is noon." in
  let o := mkOutcome (Some (py "/tmp/tmpab12.mp3")) false in
  text <> []
  /\ TextToSpeech.is_speaking (Core.text_to_speech s) = false
  /\ exists thread,
       snd (value_of (Core.run (AssistantManager._speak_response text) s)) = [thread]
       /\ let request := Core.run (AssistantManager._speak_response text) s in
          let playing := thread (state_of request) in
          let over := value_of playing o (state_of playing) in
          TextToSpeech.is_speaking (Core.text_to_speech (state_of over)) = false
          /\ TextToSpeech.temp_files (Core.text_to_speech (state_of over)) = []
          /\ events_of over = [OnSpeakingEnd].
Proof.
  intros s text o.
  assert (Ht : text <> []) by discriminate.
  assert (Hi : TextToSpeech.is_speaking (Core.text_to_speech s) = false)
    by reflexivity.
  split; [exact Ht|]; split; [exact Hi|].
  destruct (@playback_round_trip text [] o s Ht Hi)
    as (thread & _ & Hth & _ & _ & _ & _ & _ & _ & H1 & H2 & H3 & _).
  exists thread; split; [exact Hth|].
  split; [exact H1|]; split; [exact H2 | exact H3].
Defined.

Lemma process_query_events (cfg : config.t) (srv : RAG.service) (q : pystr)
    (nlp : NLPProcessor.t) :
  events_of (NLPProcessor.process_query cfg srv q nlp)
  = if truthy q && negb (is_some (NLPProcessor._detect_command_intent q))
    then [HttpPost (payload_of cfg nlp q)] else [].
Proof.
  destruct q as [|c q]; [reflexivity|].
  destruct (NLPProcessor._detect_command_intent (c :: q)) as [[i m]|] eqn:Hd.
  - cbn [truthy is_some negb andb].
    now destruct (@command_record cfg srv _ nlp _ _ Hd) as (_ & _ & _ & _ & _ & _ & E).
  - now rewrite process_query_free_form by (discriminate || exact Hd).
Qed.

Lemma speak_requests_turn (cfg : config.t) (srv : RAG.service) (text : pystr)
    (st : AssistantManager.t) :
  let r := NLPProcessor.process_query cfg srv text
             (AssistantManager.nlp_processor st) in
  Core.speak_requests (events_of r ++ turn_events st (value_of r) (state_of r))
  = [response (value_of r)].
Proof.
  intros r; subst r; rewrite process_query_events.
  unfold turn_events, Core.speak_requests.
  rewrite !flat_map_app.
  destruct (truthy text && _), (user_info_differs st _ && _),
    (AssistantManager.on_response_callback st); reflexivity.
Qed.

(** A text turn with the speech output behind it. *)
Lemma core_run_turn (cfg : config.t) (srv : RAG.service) (text : pystr)
    (s : Core.t) :
  text <> [] ->
  let r := NLPProcessor.process_query cfg srv text
             (AssistantManager.nlp_processor (Core.manager s)) in
  Core.run (AssistantManager.process_text_input cfg srv text) s
  = (tt,
     if truthy (response (value_of r))
        && negb (TextToSpeech.is_speaking (Core.text_to_speech s))
     then [TextToSpeech._speak_thread Core.text_to_speech
             Core.set_text_to_speech (response (value_of r))
             (Some (zoom Core.manager Core.set_manager
                      AssistantManager._on_speaking_start))
             (Some (zoom Core.manager Core.set_manager
                      AssistantManager._on_speaking_end))]
     else [],
     Core.set_manager
       (after_turn (Core.manager s) text (value_of r) (state_of r)) s,
     events_of r ++ turn_events (Core.manager s) (value_of r) (state_of r)).
Proof.
  intros Ht r; unfold Core.run.
  rewrite process_text_input_run by exact Ht.
  pose proof (speak_requests_turn cfg srv text (Core.manager s)) as E.
  cbv zeta in E; cbv beta iota zeta; rewrite E; clear E.
  cbn [Core.speak_all]; unfold bind at 1; rewrite core_speak_run.
  cbn [Core.text_to_speech Core.set_manager].
  subst r.
  destruct (truthy (response (value_of _)) && negb _);
    cbn; now rewrite app_nil_r.
Qed.

(** Only [stop_speaking] and the end of a playback lower the speaking flag
    of the manager. *)
Lemma speaking_flag_kept (cfg : config.t) (srv : RAG.service) (text : pystr)
    (new_name new_type : option pystr) (mic_ok : bool) (w : listen_outcome) :
  keeps_speaking (AssistantManager.process_text_input cfg srv text)
  /\ keeps_speaking (AssistantManager.set_user_info new_name new_type)
  /\ keeps_speaking AssistantManager.clear_conversation_history
  /\ keeps_speaking AssistantManager.repeat_last_response
  /\ keeps_speaking AssistantManager.listen_and_respond
  /\ keeps_speaking (AssistantManager._listen_and_respond_thread cfg srv mic_ok)
  /\ keeps_speaking (thread_resume cfg srv w).
Proof.
  assert (Ht : forall q, keeps_speaking
                           (AssistantManager.process_text_input cfg srv q)).
  { intros [|c q] m Hm; [exact Hm|].
    now rewrite process_text_input_run by discriminate. }
  split; [apply Ht|]; split.
  { intros m Hm; unfold AssistantManager.set_user_info; unfold_monad.
    destruct m as [nlp sr li sp lq lr h un ut c1 c2 c3 c4 c5 c6];
      destruct new_name as [[|a n]|], new_type as [[|b ty]|]; simpl;
      try (destruct (str_eqb (b :: ty) (py "staff")
                     || str_eqb (b :: ty) (py "student")));
      simpl; destruct c6; exact Hm. }
  split; [intros m Hm; destruct m; exact Hm|]; split.
  { intros m Hm; unfold AssistantManager.repeat_last_response,
      AssistantManager._speak_response; unfold_monad.
    destruct (AssistantManager.last_response m); reflexivity. }
  split; [intros m Hm; now rewrite listen_and_respond_run|]; split.
  { intros m Hm.
    destruct (SpeechRecognizer.is_listening (AssistantManager.speech_recognizer m))
      eqn:Eb.
    - rewrite thread_ends by now rewrite Eb.
      rewrite Eb; destruct m; exact Hm.
    - destruct mic_ok.
      + rewrite thread_blocks by exact Eb. destruct m; exact Hm.
      + rewrite thread_ends by now rewrite Eb.
        rewrite Eb; destruct m; exact Hm. }
  intros m Hm; destruct (nothing_heard w) eqn:Ew.
  - rewrite thread_resume_nothing by exact Ew. destruct m; exact Hm.
  - destruct w as [|[[|c t]| |e]]; try discriminate.
    rewrite thread_resume_text; cbn [state_of fst snd].
    apply Ht; destruct m; exact Hm.
Qed.

(** X10. A response that the speech output drops. If the record of a text
    turn has an empty text, or the engine is still speaking, the turn raises
    [is_speaking] in the manager and starts no playback thread, and the
    engine is left as it was; the history entry and the response callback
    are as for any turn. With an empty text and an idle engine the
    manager's flag is then up beside an idle engine, and no method of the
    manager but [stop_speaking] and the end of a later playback lowers it.
    With a busy engine the response is never handed to the engine, and the
    flag is lowered when the playback in flight ends. An empty text is what
    a reply of the answer service without a ['response'] string yields, in
    a record that counts as a success. *)
Theorem dropped_speech_leaves_flag_up (cfg : config.t) (srv : RAG.service)
    (text other : pystr) (o : engine_outcome) (s : Core.t) :
  text <> [] ->
  let nlp := AssistantManager.nlp_processor (Core.manager s) in
  let record := value_of (NLPProcessor.process_query cfg srv text nlp) in
  let turn := Core.run (AssistantManager.process_text_input cfg srv text) s in
  let in_flight_over :=
    state_of (TextToSpeech.after_playback Core.text_to_speech
                Core.set_text_to_speech other
                (Some (zoom Core.manager Core.set_manager
                         AssistantManager._on_speaking_end))
                o (state_of turn)) in
  (response record = []
   \/ TextToSpeech.is_speaking (Core.text_to_speech s) = true ->
   snd (value_of turn) = []
   /\ AssistantManager.is_speaking (Core.manager (state_of turn)) = true
   /\ Core.text_to_speech (state_of turn) = Core.text_to_speech s
   /\ AssistantManager.last_response (Core.manager (state_of turn)) = Some record
   /\ In (TtsSpeak (response record)) (events_of turn))
  /\ (response record = [] ->
      TextToSpeech.is_speaking (Core.text_to_speech s) = false ->
      AssistantManager.is_speaking (Core.manager (state_of turn)) = true
      /\ TextToSpeech.is_speaking (Core.text_to_speech (state_of turn)) = false
      /\ forall text' new_name new_type mic_ok w,
           keeps_speaking (AssistantManager.process_text_input cfg srv text')
           /\ keeps_speaking (AssistantManager.set_user_info new_name new_type)
           /\ keeps_speaking AssistantManager.clear_conversation_history
           /\ keeps_speaking AssistantManager.repeat_last_response
           /\ keeps_speaking AssistantManager.listen_and_respond
           /\ keeps_speaking
                (AssistantManager._listen_and_respond_thread cfg srv mic_ok)
           /\ keeps_speaking (thread_resume cfg srv w))
  /\ (TextToSpeech.is_speaking (Core.text_to_speech s) = true ->
      AssistantManager.is_speaking (Core.manager in_flight_over) = false
      /\ TextToSpeech.is_speaking (Core.text_to_speech in_flight_over) = false
      /\ TextToSpeech.said (Core.text_to_speech in_flight_over)
         = TextToSpeech.said
             (TextToSpeech.engine_speaks other o (Core.text_to_speech s)))
  /\ (response record <> [] ->
      TextToSpeech.is_speaking (Core.text_to_speech s) = false ->
      exists thread, snd (value_of turn) = [thread])
  /\ (forall d,
        NLPProcessor._detect_command_intent text = None ->
        srv (payload_of cfg nlp text) = RAG.HttpJson d ->
        get_or (RAG.j_response d) [] = [] ->
        response record = [] /\ success record = true).
Proof.
  intros Ht nlp record turn in_flight_over.
  subst in_flight_over; rewrite core_after_playback.
  subst turn; rewrite core_run_turn by exact Ht.
  fold nlp; fold record.
  cbn [value_of state_of events_of fst snd].
  split; [|split; [|split; [|split]]].
  - intros Hdrop.
    assert (E : truthy (response record)
                && negb (TextToSpeech.is_speaking (Core.text_to_speech s)) = false).
    { destruct Hdrop as [-> | ->]; [reflexivity | apply andb_false_r]. }
    rewrite E; repeat split.
    apply in_or_app; right; unfold turn_events.
    apply in_or_app; right; apply in_or_app; right; now left.
  - intros Hr Hidle.
    split; [reflexivity|]; split; [exact Hidle|].
    intros text' new_name new_type mic_ok w.
    apply speaking_flag_kept.
  - intros Hbusy; repeat split.
  - intros Hne Hidle; rewrite Hidle.
    destruct (response record); [congruence|].
    eexists; reflexivity.
  - intros d Hd Hs Hr; subst record.
    rewrite process_query_free_form by assumption.
    fold nlp; rewrite Hs; cbn; now rewrite Hr.
Qed.

Lemma dropped_speech_leaves_flag_up_witness :
  let mute : RAG.service := fun _ => RAG.HttpJson (RAG.mkJson None None None) in
  let s := Core.mk observed (TextToSpeech.init (py "pyttsx3")) in
  let text := py "what time is it" in
  text <> []
  /\ response (value_of (NLPProcessor.process_query config.defaults mute text
                           (AssistantManager.nlp_processor (Core.manager s)))) = []
  /\ snd (value_of (Core.run (AssistantManager.process_text_input
                                config.defaults mute text) s)) = []
  /\ AssistantManager.is_speaking
       (Core.manager
          (state_of (Core.run (AssistantManager.process_text_input
                                 config.defaults mute text) s))) = true.
Proof.
  intros mute s text.
  assert (Ht : text <> []) by discriminate.
  assert (Hr : response (value_of (NLPProcessor.process_query config.defaults
                                     mute text
                                     (AssistantManager.nlp_processor
                                        (Core.manager s)))) = [])
    by reflexivity.
  destruct (@dropped_speech_leaves_flag_up config.defaults mute text []
              (mkOutcome None true) s Ht)
    as (H & _).
  destruct (H (or_introl Hr)) as (H1 & H2 & _).
  split; [exact Ht|]; split; [exact Hr|]; split; [exact H1 | exact H2].
Defined.

(** ** The window *)

Lemma manager_call_run {A : Type} (method : M AssistantManager.t A)
    (w : MainWindow.t) :
  MainWindow.manager_call method w
  = (value_of (method (MainWindow.assistant_manager w)),
     fold_left (fun w e => MainWindow.callback e w)
       (events_of (method (MainWindow.assistant_manager w)))
       (MainWindow.set_assistant_manager
          (state_of (method (MainWindow.assistant_manager w))) w),
     events_of (method (MainWindow.assistant_manager w))).
Proof.
  unfold MainWindow.manager_call, value_of, state_of, events_of.
  destruct (method _) as [[a m] e]; reflexivity.
Qed.

(** The callbacks of a text turn, one after the other. *)
Lemma turn_callbacks (cfg : config.t) (srv : RAG.service) (text : pystr)
    (st : AssistantManager.t) (w : MainWindow.t) :
  let r := NLPProcessor.process_query cfg srv text
             (AssistantManager.nlp_processor st) in
  fold_left (fun w e => MainWindow.callback e w)
    (events_of r ++ turn_events st (value_of r) (state_of r)) w
  = (let w1 := if user_info_differs st (state_of r)
                  && AssistantManager.on_user_info_change_callback st
               then MainWindow.on_user_info_change
                      (NLPProcessor.user_name (state_of r))
                      (NLPProcessor.user_type (state_of r)) w
               else w in
     if AssistantManager.on_response_callback st
     then MainWindow.on_response (value_of r) w1 else w1).
Proof.
  intros r; subst r; rewrite process_query_events.
  unfold turn_events; rewrite !fold_left_app.
  destruct (truthy text && _), (user_info_differs st _ && _),
    (AssistantManager.on_response_callback st); reflexivity.
Qed.

Lemma on_send_text_run (w : MainWindow.t) :
  MainWindow.on_send_text w
  = (if truthy (strip (MainWindow.input_text w))
     then Some (strip (MainWindow.input_text w)) else None,
     if truthy (strip (MainWindow.input_text w))
     then MainWindow.set_input_text []
            (MainWindow.add_to_conversation (py "You")
               (strip (MainWindow.input_text w)) w)
     else w,
     []).
Proof.
  unfold MainWindow.on_send_text; unfold_monad.
  destruct (truthy (strip (MainWindow.input_text w))); reflexivity.
Qed.

(** X11. What the window sends to the pipeline. With an entry that is empty
    or blank, [on_send_text] does nothing at all; otherwise it shows the
    stripped text as a line of the user, empties the entry and starts the
    text turn on the stripped text, which is not empty and has no white
    space at either end. *)
Theorem send_text_guard (w : MainWindow.t) :
  let text := strip (MainWindow.input_text w) in
  MainWindow.on_send_text w
  = (if truthy text then Some text else None,
     if truthy text
     then MainWindow.set_input_text []
            (MainWindow.add_to_conversation (py "You") text w)
     else w,
     [])
  /\ trimmed text = true
  /\ (MainWindow.input_text w = [] -> text = [])
  /\ (forall started,
        value_of (MainWindow.on_send_text w) = Some started ->
        started <> [] /\ started = text).
Proof.
  intros text; subst text.
  pose proof (on_send_text_run w) as E.
  split; [exact E|]; split; [apply strip_trimmed|]; split.
  - now intros ->.
  - intros started; rewrite E; cbn [value_of fst].
    destruct (strip (MainWindow.input_text w)); cbn [truthy];
      intros H; inversion H; split; [discriminate | reflexivity].
Qed.

Lemma conversation_on_response (record : response_data) (w : MainWindow.t) :
  MainWindow.conversation_text (MainWindow.on_response record w)
  = MainWindow.conversation_text w
    ++ (if truthy (query record) && negb (is_command record)
        then line (py "You") (query record) else [])
    ++ (if truthy (response record)
        then line (py "Assistant") (response record) else [])%list.
Proof.
  unfold MainWindow.on_response, MainWindow.add_to_conversation, line.
  destruct (truthy (query record) && negb (is_command record)),
    (truthy (response record));
    cbn [MainWindow.conversation_text MainWindow.set_conversation_text];
    rewrite ?app_nil_r, <- ?app_assoc; reflexivity.
Qed.

Lemma conversation_after_turn (cfg : config.t) (srv : RAG.service)
    (text : pystr) (w : MainWindow.t) :
  text <> [] ->
  let m := MainWindow.assistant_manager w in
  let record := value_of (NLPProcessor.process_query cfg srv text
                            (AssistantManager.nlp_processor m)) in
  MainWindow.conversation_text (state_of (MainWindow.text_thread cfg srv text w))
  = MainWindow.conversation_text w
    ++ if AssistantManager.on_response_callback m
       then (if is_command record then [] else line (py "You") text)
            ++ (if truthy (response record)
                then line (py "Assistant") (response record) else [])
       else [].
Proof.
  intros Ht m record.
  unfold MainWindow.text_thread; rewrite manager_call_run.
  cbn [state_of fst snd].
  rewrite process_text_input_run by exact Ht.
  cbn [state_of events_of fst snd].
  rewrite turn_callbacks. fold m; fold record.
  assert (Hq : query record = text) by apply record_query.
  destruct (AssistantManager.on_response_callback m).
  - rewrite conversation_on_response, Hq.
    destruct text as [|c text']; [congruence|]; cbn [truthy andb].
    destruct (user_info_differs _ _ && _), (is_command record); reflexivity.
  - destruct (user_info_differs _ _ && _); now rewrite app_nil_r.
Qed.

(** X12. What a typed turn adds to the conversation display, when the
    response callback is set. [on_send_text] shows the text once; the turn's
    [on_response] shows it again unless the record is a command, and then the
    text of the record unless that is empty. So a typed free-form query
    appears twice, a typed command once. *)
Theorem typed_query_shown_twice (cfg : config.t) (srv : RAG.service)
    (w : MainWindow.t) :
  AssistantManager.on_response_callback (MainWindow.assistant_manager w) = true ->
  let text := strip (MainWindow.input_text w) in
  text <> [] ->
  let sent := state_of (MainWindow.on_send_text w) in
  let record := value_of (NLPProcessor.process_query cfg srv text
                            (AssistantManager.nlp_processor
                               (MainWindow.assistant_manager w))) in
  MainWindow.conversation_text (state_of (MainWindow.text_thread cfg srv text sent))
  = MainWindow.conversation_text w
    ++ line (py "You") text
    ++ (if is_command record then [] else line (py "You") text)
    ++ (if truthy (response record)
        then line (py "Assistant") (response record) else [])
  /\ (is_command record = false <->
      NLPProcessor._detect_command_intent text = None).
Proof.
  intros Hcb text Ht sent record.
  pose proof (on_send_text_run w) as E.
  fold text in E.
  assert (Es : sent = MainWindow.set_input_text []
                        (MainWindow.add_to_conversation (py "You") text w)).
  { subst sent; rewrite E. destruct text; [congruence | reflexivity]. }
  split.
  - rewrite Es, conversation_after_turn by exact Ht.
    cbn [MainWindow.assistant_manager MainWindow.set_input_text
         MainWindow.add_to_conversation MainWindow.set_conversation_text
         MainWindow.conversation_text].
    rewrite Hcb; fold record; fold (line (py "You") text).
    now rewrite <- app_assoc.
  - subst record.
    destruct (NLPProcessor._detect_command_intent text) as [[i m]|] eqn:Hd.
    + destruct (@command_record cfg srv _ (AssistantManager.nlp_processor
                  (MainWindow.assistant_manager w)) _ _ Hd) as (_ & Hc & _).
      rewrite Hc; split; discriminate.
    + rewrite process_query_free_form by assumption.
      destruct (srv _); split; reflexivity.
Qed.

Lemma typed_query_shown_twice_witness :
  let w := MainWindow.set_input_text (py "  what time is it ") window in
  AssistantManager.on_response_callback (MainWindow.assistant_manager w) = true
  /\ strip (MainWindow.input_text w) <> []
  /\ MainWindow.conversation_text
       (state_of (MainWindow.text_thread config.defaults answering_service
                    (strip (MainWindow.input_text w))
                    (state_of (MainWindow.on_send_text w))))
     = line (py "You") (py "what time is it")
       ++ line (py "You") (py "what time is it")
       ++ line (py "Assistant") (py "It is noon.").
Proof.
  intros w.
  assert (Hcb : AssistantManager.on_response_callback
                  (MainWindow.assistant_manager w) = true) by reflexivity.
  assert (Ht : strip (MainWindow.input_text w) <> [])
    by (vm_compute; discriminate).
  destruct (@typed_query_shown_twice config.defaults answering_service w
              Hcb Ht) as (H & _).
  split; [exact Hcb|]; split; [exact Ht|].
  rewrite H; vm_compute; reflexivity.
Defined.

(** X13. The form of the user. A name that is empty after stripping, or an
    empty type, gets an error box and nothing else happens. Otherwise the
    stripped name is stored in the manager and the processor, the type is
    stored if it is staff or student and left as it was if not, the form
    then shows what the manager holds (when the change callback is set), and
    the success box is shown in both cases. *)
Theorem update_user_info_form (w : MainWindow.t) :
  let name := strip (MainWindow.user_name_var w) in
  let type := MainWindow.user_type_var w in
  let m := MainWindow.assistant_manager w in
  let done := MainWindow.on_update_user_info w in
  let m' := MainWindow.assistant_manager (state_of done) in
  (name = [] ->
   done = (tt, MainWindow.show (ShowError (py "Error")
                                  (py "User name cannot be empty")) w, []))
  /\ (name <> [] -> type = [] ->
      done = (tt, MainWindow.show (ShowError (py "Error")
                                     (py "Please select a user type")) w, []))
  /\ (name <> [] -> type <> [] ->
      AssistantManager.user_name m' = name
      /\ NLPProcessor.user_name (AssistantManager.nlp_processor m') = name
      /\ AssistantManager.user_type m'
         = (if valid_user_type type then type else AssistantManager.user_type m)
      /\ MainWindow.dialogs (state_of done)
         = MainWindow.dialogs w
           ++ [ShowInfo (py "Success") (py "User information updated")]
      /\ (AssistantManager.on_user_info_change_callback m = true ->
          mirrored (state_of done)
          /\ events_of done
             = [OnUserInfoChange name (AssistantManager.user_type m')])).
Proof.
  intros name type m done m'.
  assert (E : done
    = if negb (truthy name) then
        (tt, MainWindow.show (ShowError (py "Error")
                                (py "User name cannot be empty")) w, [])
      else if negb (truthy type) then
        (tt, MainWindow.show (ShowError (py "Error")
                                (py "Please select a user type")) w, [])
      else
        let r := MainWindow.manager_call
                   (AssistantManager.set_user_info (Some name) (Some type)) w in
        (tt, MainWindow.show (ShowInfo (py "Success")
                                (py "User information updated")) (state_of r),
         events_of r)).
  { subst done; unfold MainWindow.on_update_user_info.
    unfold bind at 1 2; unfold gets at 1 2. fold name; fold type.
    destruct (truthy name), (truthy type); cbn [negb]; try reflexivity.
    unfold_monad.
    destruct (MainWindow.manager_call _ w) as [[[] w1] e1]; cbn.
    now rewrite app_nil_r. }
  split; [|split].
  - intros Hn; rewrite E, Hn; reflexivity.
  - intros Hn Ht; rewrite E, Ht.
    destruct name; [congruence | reflexivity].
  - intros Hn Ht; subst m'; rewrite E.
    destruct name as [|a name'] eqn:En; [congruence|].
    destruct type as [|b type'] eqn:Et; [congruence|].
    cbn [truthy negb]; rewrite manager_call_run.
    cbn [state_of events_of fst snd].
    unfold AssistantManager.set_user_info, valid_user_type.
    fold m.
    destruct m as [nlp sr li sp lq lr h un ut c1 c2 c3 c4 c5 c6] eqn:Em.
    unfold_monad; cbn -[str_eqb py].
    destruct (str_eqb (b :: type') (py "staff")
              || str_eqb (b :: type') (py "student"));
      destruct c6; cbn -[str_eqb py];
      (split; [reflexivity|]; split; [reflexivity|]; split; [reflexivity|];
       split; [reflexivity|]; intros Hcb;
       first [ discriminate Hcb
             | split; [split; reflexivity | reflexivity] ]).
Qed.

Lemma update_user_info_form_blank :
  let w := MainWindow.set_user_name_var (py "   ") window in
  state_of (MainWindow.on_update_user_info w)
  = MainWindow.show (ShowError (py "Error") (py "User name cannot be empty")) w
  /\ AssistantManager.user_name
       (MainWindow.assistant_manager (state_of (MainWindow.on_update_user_info w)))
     = py "User".
Proof.
  intros w.
  destruct (update_user_info_form w) as (H & _).
  rewrite (H eq_refl); split; reflexivity.
Defined.

Lemma button_on_response (record : response_data) (w : MainWindow.t) :
  MainWindow.listen_button (MainWindow.on_response record w)
  = MainWindow.listen_button w.
Proof.
  unfold MainWindow.on_response.
  destruct (truthy (query record) && negb (is_command record)),
    (truthy (response record)); reflexivity.
Qed.

Lemma button_turn_callbacks (cfg : config.t) (srv : RAG.service) (text : pystr)
    (st : AssistantManager.t) (w : MainWindow.t) :
  let r := NLPProcessor.process_query cfg srv text
             (AssistantManager.nlp_processor st) in
  MainWindow.listen_button
    (fold_left (fun w e => MainWindow.callback e w)
       (events_of r ++ turn_events st (value_of r) (state_of r)) w)
  = MainWindow.listen_button w.
Proof.
  intros r; subst r; rewrite turn_callbacks; cbv zeta.
  destruct (user_info_differs _ _ && _),
    (AssistantManager.on_response_callback st);
    rewrite ?button_on_response; reflexivity.
Qed.

Lemma listen_thread_blocks (cfg : config.t) (srv : RAG.service)
    (w : MainWindow.t) :
  SpeechRecognizer.is_listening
    (AssistantManager.speech_recognizer (MainWindow.assistant_manager w)) = false ->
  MainWindow.listen_thread cfg srv true w
  = (Listening (fun o => MainWindow.manager_call (thread_resume cfg srv o)),
     fold_left (fun w e => MainWindow.callback e w)
       (MicOpen :: if AssistantManager.on_listening_start_callback
                        (MainWindow.assistant_manager w)
                   then [OnListeningStart] else [])
       (MainWindow.set_assistant_manager
          (AssistantManager.set_speech_recognizer (SpeechRecognizer.mk true)
             (AssistantManager.set_is_listening true
                (MainWindow.assistant_manager w))) w),
     MicOpen :: if AssistantManager.on_listening_start_callback
                     (MainWindow.assistant_manager w)
                then [OnListeningStart] else []).
Proof.
  intros Hsr; unfold MainWindow.listen_thread.
  unfold bind; rewrite manager_call_run, thread_blocks by exact Hsr.
  cbn [value_of state_of events_of fst snd ret].
  now rewrite app_nil_r.
Qed.

(** X14. The listen button after a turn in which nothing was said. With the
    callbacks of the window set, pressing the button disables it and starts
    the thread. If listening then ends with the timeout, the end-of-listening
    callback is never called: the manager is ready for a new turn, and the
    hotkey starts one, but the button stays disabled and the status stays at
    Listening. If audio was captured the button is enabled again, and for
    speech that is not understood the status stays at Processing. *)
Theorem listen_button_after_timeout (cfg : config.t) (srv : RAG.service)
    (w : MainWindow.t) :
  wired w ->
  AssistantManager.is_listening (MainWindow.assistant_manager w) = false ->
  SpeechRecognizer.is_listening
    (AssistantManager.speech_recognizer (MainWindow.assistant_manager w)) = false ->
  let pressed := MainWindow.on_listen_button w in
  let thread := MainWindow.listen_thread cfg srv true (state_of pressed) in
  events_of pressed = [ThreadStart]
  /\ MainWindow.listen_button (state_of pressed) = false
  /\ match value_of thread with
     | Listening resume =>
         (let over := state_of (resume WaitTimeoutError (state_of thread)) in
          MainWindow.listen_button over = false
          /\ MainWindow.status_label over = py "Listening..."
          /\ AssistantManager.is_listening (MainWindow.assistant_manager over) = false
          /\ events_of (MainWindow.on_hotkey over) = [ThreadStart])
         /\ (forall g,
               MainWindow.listen_button
                 (state_of (resume (Audio g) (state_of thread))) = true)
         /\ MainWindow.status_label
              (state_of (resume (Audio UnknownValueError) (state_of thread)))
            = py "Processing..."
     | Done _ => False
     end.
Proof.
  intros (H1 & H2 & H3 & H4) Hm Hsr pressed thread.
  assert (Ep : pressed
    = (tt, MainWindow.set_listen_button false
             (MainWindow.update_status (py "Listening...") w), [ThreadStart])).
  { subst pressed; unfold MainWindow.on_listen_button.
    unfold bind at 1; unfold gets at 1; rewrite Hm.
    unfold bind, modify. rewrite manager_call_run, listen_and_respond_run.
    cbn; rewrite Hm; reflexivity. }
  subst thread; rewrite Ep; cbn [state_of events_of fst snd].
  split; [reflexivity|]; split; [reflexivity|].
  rewrite listen_thread_blocks by exact Hsr.
  cbn [MainWindow.assistant_manager MainWindow.set_listen_button
       MainWindow.update_status value_of state_of fst snd].
  rewrite H1. cbn [fold_left MainWindow.callback].
  split; [|split].
  - rewrite manager_call_run, thread_resume_nothing by reflexivity.
    cbn [value_of state_of events_of fst snd fold_left].
    repeat split.
  - intros g. rewrite manager_call_run.
    destruct g as [[|c text]| |e].
    + rewrite thread_resume_nothing by reflexivity.
      cbn [value_of state_of events_of fst snd MainWindow.assistant_manager
           MainWindow.set_assistant_manager AssistantManager.on_listening_end_callback
           AssistantManager.set_speech_recognizer AssistantManager.set_is_listening
           MainWindow.on_listening_start MainWindow.set_listen_button
           MainWindow.update_status].
      rewrite H2; reflexivity.
    + rewrite thread_resume_text.
      cbn [value_of state_of events_of fst snd MainWindow.assistant_manager
           MainWindow.set_assistant_manager AssistantManager.on_listening_end_callback
           AssistantManager.set_speech_recognizer AssistantManager.set_is_listening
           MainWindow.on_listening_start MainWindow.set_listen_button
           MainWindow.update_status].
      rewrite H2. cbn [app fold_left MainWindow.callback].
      rewrite process_text_input_run by discriminate.
      cbn [events_of snd]. rewrite button_turn_callbacks. reflexivity.
    + rewrite thread_resume_nothing by reflexivity.
      cbn [value_of state_of events_of fst snd MainWindow.assistant_manager
           MainWindow.set_assistant_manager AssistantManager.on_listening_end_callback
           AssistantManager.set_speech_recognizer AssistantManager.set_is_listening
           MainWindow.on_listening_start MainWindow.set_listen_button
           MainWindow.update_status].
      rewrite H2; reflexivity.
    + rewrite thread_resume_nothing by reflexivity.
      cbn [value_of state_of events_of fst snd MainWindow.assistant_manager
           MainWindow.set_assistant_manager AssistantManager.on_listening_end_callback
           AssistantManager.set_speech_recognizer AssistantManager.set_is_listening
           MainWindow.on_listening_start MainWindow.set_listen_button
           MainWindow.update_status].
      rewrite H2; reflexivity.
  - rewrite manager_call_run, thread_resume_nothing by reflexivity.
    cbn [value_of state_of events_of fst snd MainWindow.assistant_manager
         MainWindow.set_assistant_manager AssistantManager.on_listening_end_callback
         AssistantManager.set_speech_recognizer AssistantManager.set_is_listening
         MainWindow.on_listening_start MainWindow.set_listen_button
         MainWindow.update_status].
    rewrite H2; reflexivity.
Qed.

Lemma listen_button_after_timeout_witness :
  wired window
  /\ AssistantManager.is_listening (MainWindow.assistant_manager window) = false
  /\ SpeechRecognizer.is_listening
       (AssistantManager.speech_recognizer (MainWindow.assistant_manager window))
     = false
  /\ MainWindow.listen_button (state_of (MainWindow.on_listen_button window)) = false
  /\ events_of (MainWindow.on_listen_button window) = [ThreadStart].
Proof.
  assert (Hw : wired window) by (repeat split).
  assert (Hm : AssistantManager.is_listening
                 (MainWindow.assistant_manager window) = false) by reflexivity.
  assert (Hsr : SpeechRecognizer.is_listening
                  (AssistantManager.speech_recognizer
                     (MainWindow.assistant_manager window)) = false)
    by reflexivity.
  destruct (@listen_button_after_timeout config.defaults answering_service
              window Hw Hm Hsr) as (He & Hb & _).
  split; [exact Hw|]; split; [exact Hm|]; split; [exact Hsr|].
  split; [exact Hb | exact He].
Defined.

Lemma vars_on_response (record : response_data) (w : MainWindow.t) :
  MainWindow.user_name_var (MainWindow.on_response record w)
  = MainWindow.user_name_var w
  /\ MainWindow.user_type_var (MainWindow.on_response record w)
     = MainWindow.user_type_var w
  /\ MainWindow.assistant_manager (MainWindow.on_response record w)
     = MainWindow.assistant_manager w.
Proof.
  unfold MainWindow.on_response.
  destruct (truthy (query record) && negb (is_command record)),
    (truthy (response record)); repeat split.
Qed.

(** X15. The form shows the identity in force. A new window shows the name
    and type of its manager; and if the form shows the manager's identity
    before a text turn, and the change callback is set, it shows it after the
    turn, whatever the utterance did to the identity. *)
Theorem form_mirrors_identity (cfg : config.t) (srv : RAG.service)
    (text : pystr) (m : AssistantManager.t) (w : MainWindow.t) :
  mirrored (MainWindow.init m)
  /\ (AssistantManager.on_user_info_change_callback
        (MainWindow.assistant_manager w) = true ->
      mirrored w ->
      mirrored (state_of (MainWindow.text_thread cfg srv text w))).
Proof.
  split; [destruct m; split; reflexivity|].
  intros Hcb [Hn Ht].
  unfold MainWindow.text_thread; rewrite manager_call_run.
  cbn [state_of fst snd].
  destruct text as [|c text]; [split; assumption|].
  rewrite process_text_input_run by discriminate.
  cbn [state_of events_of fst snd].
  rewrite turn_callbacks; cbv zeta; rewrite Hcb, andb_true_r.
  set (r := NLPProcessor.process_query cfg srv (c :: text) _).
  assert (Hmir : forall w1,
    MainWindow.assistant_manager w1
    = after_turn (MainWindow.assistant_manager w) (c :: text) (value_of r)
        (state_of r) ->
    MainWindow.user_name_var w1 = NLPProcessor.user_name (state_of r) ->
    MainWindow.user_type_var w1 = NLPProcessor.user_type (state_of r) ->
    mirrored (if AssistantManager.on_response_callback
                   (MainWindow.assistant_manager w)
              then MainWindow.on_response (value_of r) w1 else w1)).
  { intros w1 Em En Et; unfold mirrored.
    destruct (AssistantManager.on_response_callback _).
    - destruct (vars_on_response (value_of r) w1) as (-> & -> & ->).
      rewrite Em, En, Et; split; reflexivity.
    - rewrite Em, En, Et; split; reflexivity. }
  unfold user_info_differs.
  destruct (str_eqb (AssistantManager.user_name (MainWindow.assistant_manager w))
              (NLPProcessor.user_name (state_of r))) eqn:E1;
    destruct (str_eqb (AssistantManager.user_type (MainWindow.assistant_manager w))
                (NLPProcessor.user_type (state_of r))) eqn:E2;
    cbn [negb orb]; apply Hmir; try reflexivity.
  - apply str_eqb_eq in E1; cbn; now rewrite Hn.
  - apply str_eqb_eq in E2; cbn; now rewrite Ht.
Qed.

Lemma form_mirrors_identity_witness :
  let w := MainWindow.set_input_text (py "i am a staff") window in
  AssistantManager.on_user_info_change_callback (MainWindow.assistant_manager w)
  = true
  /\ mirrored w
  /\ MainWindow.user_type_var
       (state_of (MainWindow.text_thread config.defaults answering_service
                    (py "i am a staff") w)) = py "staff".
Proof.
  intros w.
  assert (Hcb : AssistantManager.on_user_info_change_callback
                  (MainWindow.assistant_manager w) = true) by reflexivity.
  assert (Hm : mirrored w) by (split; reflexivity).
  destruct (@form_mirrors_identity config.defaults answering_service
              (py "i am a staff") fresh w) as (_ & H).
  destruct (H Hcb Hm) as (_ & Ht).
  split; [exact Hcb|]; split; [exact Hm|].
  rewrite Ht; reflexivity.
Defined.

(** ** The mock answer service *)

Lemma mock_lookup_none (nq : pystr) :
  (forall key entry, In (key, entry) MockServer.KNOWLEDGE_BASE -> nq <> key) ->
  MockServer.lookup nq = None.
Proof.
  intros H; unfold MockServer.lookup.
  destruct (find _ MockServer.KNOWLEDGE_BASE) as [[key entry]|] eqn:E;
    [|reflexivity].
  apply find_some in E as [Hin Heq]; cbn [fst] in Heq.
  apply str_eqb_eq in Heq; now apply H in Hin.
Qed.

Lemma mock_question_has_its_words :
  forallb (fun e => negb (forallb
                            (fun word => negb (MockServer.contains word (fst e)))
                            (MockServer.split (fst e))))
    MockServer.KNOWLEDGE_BASE = true.
Proof. vm_compute; reflexivity. Qed.

Lemma mock_lookup_in (nq : pystr) (e : MockServer.kb_entry) :
  MockServer.lookup nq = Some e ->
  In (MockServer.answer e)
    (map (fun e => MockServer.answer (snd e)) MockServer.KNOWLEDGE_BASE).
Proof.
  unfold MockServer.lookup; intros E.
  destruct (find _ MockServer.KNOWLEDGE_BASE) as [e'|] eqn:F; [|discriminate E].
  apply find_some in F as [He _].
  injection E as <-.
  exact (in_map (fun e => MockServer.answer (snd e)) _ _ He).
Qed.

Lemma mock_partial_match_in (nq : pystr) (e : MockServer.kb_entry) :
  MockServer.partial_match nq = Some e ->
  In (MockServer.answer e)
    (map (fun e => MockServer.answer (snd e)) MockServer.KNOWLEDGE_BASE).
Proof.
  unfold MockServer.partial_match; intros E.
  destruct (find _ MockServer.KNOWLEDGE_BASE) as [e'|] eqn:F; [|discriminate E].
  apply find_some in F as [He _].
  injection E as <-.
  exact (in_map (fun e => MockServer.answer (snd e)) _ _ He).
Qed.

Lemma mock_partial_match_some (nq key word : pystr) (entry : MockServer.kb_entry) :
  In (key, entry) MockServer.KNOWLEDGE_BASE ->
  In word (MockServer.split key) ->
  MockServer.contains word nq = true ->
  MockServer.partial_match nq <> None.
Proof.
  intros Hin Hw Hc; unfold MockServer.partial_match.
  destruct (find _ MockServer.KNOWLEDGE_BASE) as [e'|] eqn:F; [discriminate|].
  exfalso.
  pose proof (find_none _ _ F _ Hin) as Hn; cbn [fst] in Hn.
  assert (Hx : existsb (fun w => MockServer.contains w nq)
                 (MockServer.split key) = true)
    by (apply existsb_exists; exists word; split; assumption).
  congruence.
Qed.

Lemma mock_no_word (nq : pystr) :
  forallb (fun e => forallb (fun word => negb (MockServer.contains word nq))
                      (MockServer.split (fst e)))
    MockServer.KNOWLEDGE_BASE = true ->
  MockServer.lookup nq = None /\ MockServer.partial_match nq = None.
Proof.
  intros Hnone; rewrite forallb_forall in Hnone; split.
  - apply mock_lookup_none; intros key entry Hin ->.
    specialize (Hnone _ Hin); cbn [fst] in Hnone.
    pose proof mock_question_has_its_words as Hk.
    rewrite forallb_forall in Hk; specialize (Hk _ Hin); cbn [fst] in Hk.
    rewrite Hnone in Hk; discriminate Hk.
  - unfold MockServer.partial_match.
    destruct (find _ MockServer.KNOWLEDGE_BASE) as [e|] eqn:E; [|reflexivity].
    apply find_some in E as [He Hx].
    specialize (Hnone _ He).
    apply existsb_exists in Hx as (word & Hw & Hc).
    rewrite forallb_forall in Hnone; specialize (Hnone _ Hw).
    rewrite Hc in Hnone; discriminate.
Qed.

Lemma mock_rag_question_has_a :
  In (py "how does a rag system work",
      snd (nth 3 MockServer.KNOWLEDGE_BASE ([], MockServer.mkEntry [] 0%Q [])))
    MockServer.KNOWLEDGE_BASE
  /\ In (py "a") (MockServer.split (py "how does a rag system work")).
Proof. split; [simpl; auto | vm_compute; auto]. Qed.

(** X16. The partial matching of the mock server is by substring and by
    table order. For an ASCII query that is not exactly one of the other
    three questions, it is enough that a word of the first question (what,
    is, the, capital, of, france) occurs anywhere in the lower-cased query,
    also inside another word, for the reply to be the answer about the
    capital of France. *)
Theorem mock_partial_match_is_substring (choice : nat)
    (query user_name user_type word : pystr) :
  is_ascii query = true ->
  let normalized := strip (lower query) in
  In word (MockServer.split (py "what is the capital of france")) ->
  MockServer.contains word normalized = true ->
  (forall key entry,
     In (key, entry) (tl MockServer.KNOWLEDGE_BASE) -> normalized <> key) ->
  MockServer.response (MockServer.process_query choice query user_name user_type)
  = py "The capital of France is Paris.".
Proof.
  intros _ normalized Hw Hc Hother.
  unfold MockServer.process_query; fold normalized.
  destruct (str_eqb normalized (py "what is the capital of france")) eqn:E1.
  - apply str_eqb_eq in E1; rewrite E1; reflexivity.
  - rewrite mock_lookup_none.
    + unfold MockServer.partial_match, MockServer.KNOWLEDGE_BASE.
      cbn [find fst snd option_map].
      assert (Hx : existsb (fun w => MockServer.contains w normalized)
                     (MockServer.split (py "what is the capital of france"))
                   = true)
        by (apply existsb_exists; exists word; split; assumption).
      now rewrite Hx.
    + intros key entry [Hin|Hin].
      * inversion Hin; subst. now apply str_eqb_neq.
      * exact (Hother key entry Hin).
Qed.

Lemma mock_partial_match_is_substring_witness :
  let query := py "Who is the president of the United States?" in
  is_ascii query = true
  /\ In (py "is") (MockServer.split (py "what is the capital of france"))
  /\ MockServer.contains (py "is") (strip (lower query)) = true
  /\ MockServer.response (MockServer.process_query 0 query (py "Bob") (py "teacher"))
     = py "The capital of France is Paris.".
Proof.
  intros query.
  assert (Ha : is_ascii query = true) by reflexivity.
  assert (Hw : In (py "is") (MockServer.split (py "what is the capital of france")))
    by (vm_compute; auto).
  assert (Hc : MockServer.contains (py "is") (strip (lower query)) = true)
    by (vm_compute; reflexivity).
  assert (Ho : forall key entry,
             In (key, entry) (tl MockServer.KNOWLEDGE_BASE) ->
             strip (lower query) <> key).
  { intros key entry Hin; simpl in Hin.
    repeat (destruct Hin as [Hin|Hin]; [inversion Hin; subst; clear Hin | ]);
      try contradiction; vm_compute; discriminate. }
  split; [exact Ha|]; split; [exact Hw|]; split; [exact Hc|].
  exact (@mock_partial_match_is_substring 0 query (py "Bob") (py "teacher")
           (py "is") Ha Hw Hc Ho).
Defined.

(** X17. A question of the knowledge base, in any mix of ASCII case and
    with white space around it, gets its own entry: the answer, the
    confidence unscaled and the sources; the name and type of the request
    are echoed. *)
Theorem mock_exact_question (choice : nat) (query user_name user_type key : pystr)
    (entry : MockServer.kb_entry) :
  is_ascii query = true ->
  In (key, entry) MockServer.KNOWLEDGE_BASE ->
  strip (lower query) = key ->
  MockServer.process_query choice query user_name user_type
  = MockServer.mkReply (MockServer.answer entry) (MockServer.confidence entry)
      (MockServer.sources entry) user_name user_type.
Proof.
  intros _ Hin Hq; unfold MockServer.process_query; rewrite Hq.
  simpl in Hin.
  repeat (destruct Hin as [Hin|Hin]; [inversion Hin; subst; clear Hin | ]);
    try contradiction; reflexivity.
Qed.

Lemma mock_exact_question_witness :
  let query := py "  How does a RAG system work " in
  is_ascii query = true
  /\ strip (lower query) = py "how does a rag system work"
  /\ MockServer.r_sources (MockServer.process_query 3 query (py "Ann") (py "staff"))
     = [py "RAG Research Paper"; py "AI Documentation"].
Proof.
  intros query.
  assert (Ha : is_ascii query = true) by reflexivity.
  assert (Hq : strip (lower query) = py "how does a rag system work")
    by (vm_compute; reflexivity).
  assert (Hin : In (py "how does a rag system work",
                    MockServer.mkEntry
                      (MockServer.answer
                         (snd (nth 3 MockServer.KNOWLEDGE_BASE
                                 ([], MockServer.mkEntry [] 0%Q []))))
                      (94 # 100)
                      [py "RAG Research Paper"; py "AI Documentation"])
                   MockServer.KNOWLEDGE_BASE)
    by (simpl; auto).
  split; [exact Ha|]; split; [exact Hq|].
  now rewrite (@mock_exact_question 3 query (py "Ann") (py "staff") _ _ Ha Hin Hq).
Defined.

(** X18. When the mock server answers from the knowledge base and when it
    does not. If some word of some question occurs in the lower-cased,
    stripped query, the reply is one of the four knowledge-base answers; so
    every query with the letter a in it gets one. Only a query in which no
    such word occurs gets the generic response that was drawn, with the
    source General Knowledge. *)
Theorem mock_generic_only_without_words (choice : nat)
    (query user_name user_type : pystr) :
  is_ascii query = true ->
  let normalized := strip (lower query) in
  let reply := MockServer.process_query choice query user_name user_type in
  (forall key entry word,
     In (key, entry) MockServer.KNOWLEDGE_BASE ->
     In word (MockServer.split key) ->
     MockServer.contains word normalized = true ->
     In (MockServer.response reply)
       (map (fun e => MockServer.answer (snd e)) MockServer.KNOWLEDGE_BASE))
  /\ (MockServer.contains (py "a") normalized = true ->
      In (MockServer.response reply)
        (map (fun e => MockServer.answer (snd e)) MockServer.KNOWLEDGE_BASE))
  /\ (forallb (fun e => forallb (fun word => negb (MockServer.contains word normalized))
                          (MockServer.split (fst e)))
        MockServer.KNOWLEDGE_BASE = true ->
      MockServer.response reply = nth choice MockServer.GENERIC_RESPONSES []
      /\ MockServer.r_sources reply = [py "General Knowledge"]).
Proof.
  intros _ normalized reply.
  assert (Hkb : forall key entry word,
     In (key, entry) MockServer.KNOWLEDGE_BASE ->
     In word (MockServer.split key) ->
     MockServer.contains word normalized = true ->
     In (MockServer.response reply)
       (map (fun e => MockServer.answer (snd e)) MockServer.KNOWLEDGE_BASE)).
  { intros key entry word Hin Hw Hc.
    pose proof (mock_partial_match_some _ _ Hin Hw Hc) as Hsome.
    subst reply normalized; unfold MockServer.process_query.
    destruct (MockServer.lookup _) as [e1|] eqn:E1.
    - exact (mock_lookup_in _ E1).
    - destruct (MockServer.partial_match _) as [e2|] eqn:E2.
      + exact (mock_partial_match_in _ E2).
      + now contradiction Hsome. }
  split; [exact Hkb|]; split.
  - intros Ha.
    exact (Hkb _ _ _ (proj1 mock_rag_question_has_a)
             (proj2 mock_rag_question_has_a) Ha).
  - intros Hnone; apply mock_no_word in Hnone as [Hl Hp].
    subst reply normalized; unfold MockServer.process_query.
    rewrite Hl, Hp; split; reflexivity.
Qed.

Lemma mock_generic_only_without_words_witness :
  let query := py "Tell me about quantum computing" in
  is_ascii query = true
  /\ MockServer.contains (py "a") (strip (lower query)) = true
  /\ In (MockServer.response (MockServer.process_query 1 query [] []))
       (map (fun e => MockServer.answer (snd e)) MockServer.KNOWLEDGE_BASE).
Proof.
  intros query.
  assert (Ha : is_ascii query = true) by reflexivity.
  assert (Hc : MockServer.contains (py "a") (strip (lower query)) = true)
    by (vm_compute; reflexivity).
  destruct (@mock_generic_only_without_words 1 query [] [] Ha) as (_ & H & _).
  split; [exact Ha|]; split; [exact Hc | exact (H Hc)].
Defined.

(** X19. The assistant against the mock server. Whatever the identity and
    the draw, a non-empty ASCII utterance that is no command is always
    answered: the endpoint never replies 400 or 500 to a request of the
    client, so the record is a success without ['error'], and its text is
    the response of the server's [process_query] for the utterance and the
    identity sent. *)
Theorem mock_server_always_answers (cfg : config.t) (choice : nat)
    (http_error q : pystr) (nlp : NLPProcessor.t) :
  is_ascii q = true ->
  q <> [] ->
  NLPProcessor._detect_command_intent q = None ->
  let sent := payload_of cfg nlp q in
  let record := value_of (NLPProcessor.process_query cfg
                            (MockServer.service choice http_error) q nlp) in
  MockServer.service choice http_error sent
  = RAG.HttpJson
      (let body := MockServer.process_query choice q (RAG.name sent)
                     (RAG.user_type sent) in
       RAG.mkJson (Some (MockServer.response body))
         (Some (MockServer.r_confidence body)) (Some (MockServer.r_sources body)))
  /\ success record = true
  /\ error record = None
  /\ response record
     = MockServer.response
         (MockServer.process_query choice q (RAG.name sent) (RAG.user_type sent))
  /\ sources record
     = Some (MockServer.r_sources
               (MockServer.process_query choice q (RAG.name sent)
                  (RAG.user_type sent))).
Proof.
  intros _ Hq Hd sent record.
  assert (Es : MockServer.service choice http_error sent
    = RAG.HttpJson
        (let body := MockServer.process_query choice q (RAG.name sent)
                       (RAG.user_type sent) in
         RAG.mkJson (Some (MockServer.response body))
           (Some (MockServer.r_confidence body))
           (Some (MockServer.r_sources body)))).
  { unfold MockServer.service, MockServer.rag_endpoint.
    cbn [MockServer.no_data MockServer.q_message MockServer.q_name
         MockServer.q_user_type MockServer.q_context get_or].
    subst sent; cbn [payload_of RAG.message].
    destruct q as [|c q]; [congruence|]; reflexivity. }
  split; [exact Es|].
  subst record; rewrite process_query_free_form by assumption.
  fold sent; rewrite Es; repeat split.
Qed.

Lemma mock_server_always_answers_witness :
  let q := py "hello there" in
  is_ascii q = true
  /\ q <> []
  /\ NLPProcessor._detect_command_intent q = None
  /\ success (value_of (NLPProcessor.process_query config.defaults
                          (MockServer.service 0 (py "400 Client Error")) q
                          (NLPProcessor.init config.defaults))) = true.
Proof.
  intros q.
  assert (Ha : is_ascii q = true) by reflexivity.
  assert (Hq : q <> []) by discriminate.
  assert (Hd : NLPProcessor._detect_command_intent q = None) by reflexivity.
  destruct (@mock_server_always_answers config.defaults 0 (py "400 Client Error")
              q (NLPProcessor.init config.defaults) Ha Hq Hd) as (_ & H & _).
  split; [exact Ha|]; split; [exact Hq|]; split; [exact Hd | exact H].
Defined.
